(** * nn_modules.py: samplers, preprocessors and aggregators of the GraphSAGE encoder

    A shallow embedding of [src/nn_modules.py].  Integer tensors are lists of
    [Z], two-dimensional tensors are lists of rows, and every call that can
    raise in Python returns a [result].  The ambient random stream of torch
    and numpy is an explicit handle ([RandomState]) passed to the samplers. *)

From Stdlib Require Import String ZArith Lia Bool Arith List Permutation.
Import ListNotations.

Set Implicit Arguments.

(** ** Python exceptions and fallible calls *)

Inductive exn : Type :=
| AssertionError (msg : string)
| IndexError
| ValueError
| TypeError
| NameError (name : string)
| RuntimeError.

Inductive result (A : Type) : Type :=
| Ok (a : A)
| Raise (e : exn).

Arguments Ok {A} a.
Arguments Raise {A} e.

Definition bind {A B : Type} (r : result A) (k : A -> result B) : result B :=
  match r with
  | Ok a => k a
  | Raise e => Raise e
  end.

Notation "x <- e ;; k" := (bind e (fun x => k))
  (at level 61, e at next level, right associativity).

Definition is_ok {A : Type} (r : result A) : bool :=
  match r with Ok _ => true | Raise _ => false end.

(** [[f(x) for x in l]], stopping at the first element that raises. *)
Fixpoint mapM {A B : Type} (f : A -> result B) (l : list A) : result (list B) :=
  match l with
  | [] => Ok []
  | x :: xs => y <- f x ;; ys <- mapM f xs ;; Ok (y :: ys)
  end.

(** A keyword argument left out by the caller takes its default. *)
Definition default {A : Type} (d : A) (o : option A) : A :=
  match o with Some a => a | None => d end.

(** ** Indexing and slicing, as Python, numpy and torch do it *)

Module Py.

(** An index [i] into a sequence of [n] elements: [-n <= i < 0] counts from
    the end, anything outside [-n <= i < n] raises [IndexError]. *)
Definition norm_index (n : nat) (i : Z) : result nat :=
  if ((0 <=? i) && (i <? Z.of_nat n))%Z then Ok (Z.to_nat i)
  else if ((- Z.of_nat n <=? i) && (i <? 0))%Z then Ok (Z.to_nat (i + Z.of_nat n))
  else Raise IndexError.

Definition getitem {A : Type} (l : list A) (i : Z) : result A :=
  k <- norm_index (length l) i ;;
  match nth_error l k with
  | Some x => Ok x
  | None => Raise IndexError
  end.

(** [l[:n]]: a negative stop counts from the end, and the stop is clipped to
    the sequence, so the slice never raises. *)
Definition slice_to {A : Type} (n : Z) (l : list A) : list A :=
  let len := Z.of_nat (length l) in
  let stop := if (n <? 0)%Z then Z.max 0 (len + n) else Z.min n len in
  firstn (Z.to_nat stop) l.

(** [l[n:]], with the same treatment of a negative start. *)
Definition slice_from {A : Type} (n : Z) (l : list A) : list A :=
  let len := Z.of_nat (length l) in
  let start := if (n <? 0)%Z then Z.max 0 (len + n) else Z.min n len in
  skipn (Z.to_nat start) l.

(** numpy's [%] on integer arrays: the sign follows the divisor, and a zero
    divisor gives 0 (with a RuntimeWarning, not an exception). *)
Definition np_remainder (a b : Z) : Z :=
  if (b =? 0)%Z then 0%Z else (a mod b)%Z.

(** [t.size(1)] of a two-dimensional tensor held as a list of rows. *)
Definition size1 {A : Type} (t : list (list A)) : nat :=
  match t with
  | [] => 0
  | r :: _ => length r
  end.

(** [t[ids]]: the rows of [t] at the positions [ids]. *)
Definition index_select {A : Type} (t : list A) (ids : list Z) : result (list A) :=
  mapM (getitem t) ids.

(** [t[:, cols]]: the columns [cols] of every row, in that order. *)
Definition take_columns {A : Type} (t : list (list A)) (cols : list nat)
  : result (list (list A)) :=
  mapM (fun row => mapM (fun c => getitem row (Z.of_nat c)) cols) t.

End Py.

(** ** The random stream *)

(** What a sampler draws from the process-wide generators.  [randperm n] is
    [torch.randperm(n)]; [choice a n k] is [np.random.choice(a, (n, k))]. *)
Record RandomState : Type := {
  randperm : nat -> list nat;
  choice : Z -> nat -> nat -> list (list Z)
}.

Definition randperm_ok (g : RandomState) : Prop :=
  forall n, Permutation (randperm g n) (seq 0 n).

Definition choice_ok (g : RandomState) : Prop :=
  forall a n k,
    length (choice g a n k) = n /\
    Forall (fun row => length row = k) (choice g a n k) /\
    ((0 < a)%Z -> Forall (Forall (fun s => (0 <= s < a)%Z)) (choice g a n k)).

(** ** Samplers *)

Module UniformNeighborSampler.

(** The "dense 2D edgelist": one row of neighbor ids per node. *)
Record t : Type := { adj : list (list Z) }.

Definition __init__ (adj : list (list Z)) : t := {| adj := adj |}.

Definition __call__ (self : t) (ids : list Z) (n_samples : option Z)
  (g : RandomState) : result (list (list Z)) :=
  let n_samples := default (-1)%Z n_samples in
  tmp <- Py.index_select (adj self) ids ;;
  let perm := randperm g (Py.size1 tmp) in
  tmp <- Py.take_columns tmp perm ;;
  Ok (map (Py.slice_to n_samples) tmp).

(** The row of node [id] in a table of width [W] after the column
    permutation drawn for the call. *)
Definition permuted_row (adj : list (list Z)) (g : RandomState) (W : nat)
  (id : Z) : list Z :=
  map (fun c => nth c (nth (Z.to_nat id) adj []) 0%Z) (randperm g W).

End UniformNeighborSampler.

Module torch.

(** What [torch.LongTensor(x)] returns: a tensor holding the integers of
    [x] or, when [x] is read as a size, storage for [n] integers that was
    allocated and never written. *)
Inductive LongTensor : Type :=
  | Values (l : list Z)
  | Uninitialized (n : nat).

End torch.

Module SparseUniformNeighborSampler.

(** The "sparse 2D edgelist", read through its dense view: row [i] holds the
    neighbor ids of node [i] and zeros elsewhere.  Indexing and [nonzero]
    depend on nothing else of the [csr_matrix]. *)
Record t : Type := {
  adj : list (list Z);
  degrees : list Z
}.

Definition nonzero (v : Z) : bool := negb (v =? 0)%Z.

(** [adj.nonzero()[0]]: the row index of every non-zero entry, row by row,
    for the rows numbered from [start]. *)
Fixpoint nonzero_rows (start : nat) (adj : list (list Z)) : list nat :=
  match adj with
  | [] => []
  | row :: rest =>
      map (fun _ => start) (filter nonzero row) ++ nonzero_rows (S start) rest
  end.

(** [np.unique(.., return_counts=True)] scattered into [np.zeros(shape[0])]:
    entry [i] is the number of times [i] occurs among the row indices. *)
Definition __init__ (adj : list (list Z)) : t :=
  let rows := nonzero_rows 0 adj in
  {| adj := adj;
     degrees := map (fun i => Z.of_nat (count_occ Nat.eq_dec rows i))
                    (seq 0 (length adj)) |}.

(** [np.random.choice(a, (n, k))]: numpy refuses an empty population unless
    no sample is taken. *)
Definition np_random_choice (g : RandomState) (a : Z) (n k : nat)
  : result (list (list Z)) :=
  if (a <=? 0)%Z && negb (n * k =? 0) then Raise ValueError
  else Ok (choice g a n k).

(** [sel % d.reshape(-1, 1)]: row [i] of [sel] against the [i]-th divisor. *)
Fixpoint remainder_rows (sel : list (list Z)) (d : list Z)
  : result (list (list Z)) :=
  match sel, d with
  | [], [] => Ok []
  | row :: sel', x :: d' =>
      rest <- remainder_rows sel' d' ;;
      Ok (map (fun s => Py.np_remainder s x) row :: rest)
  | _, _ => Raise ValueError
  end.

(** [tmp[rows, cols]] with two index arrays: the entries at the paired
    positions. *)
Fixpoint getitem_pairs (tmp : list (list Z)) (rows : list nat) (cols : list Z)
  : result (list Z) :=
  match rows, cols with
  | [], [] => Ok []
  | r :: rows', c :: cols' =>
      row <- Py.getitem tmp (Z.of_nat r) ;;
      v <- Py.getitem row c ;;
      rest <- getitem_pairs tmp rows' cols' ;;
      Ok (v :: rest)
  | _, _ => Raise IndexError
  end.

(** [np.arange(n).repeat(k)]. *)
Definition arange_repeat (n k : nat) : list nat :=
  flat_map (fun i => repeat i k) (seq 0 n).

(** Lines 81 to 93 of the call: the assertion on [n_samples], the rows of
    [ids], one row of raw draws per id reduced modulo the id's degree, and
    the entries of the rows at those columns, row by row. *)
Definition selected_entries (self : t) (ids : list Z) (n_samples : option Z)
  (g : RandomState) : result (list Z) :=
  let n_samples := default 128%Z n_samples in
  if negb (0 <? n_samples)%Z then
    Raise (AssertionError
             "SparseUniformNeighborSampler: n_samples must be set explicitly")
  else
    tmp <- Py.index_select (adj self) ids ;;
    sel <- np_random_choice g (Z.of_nat (Py.size1 (adj self)))
                            (length ids) (Z.to_nat n_samples) ;;
    d <- Py.index_select (degrees self) ids ;;
    sel <- remainder_rows sel d ;;
    getitem_pairs tmp (arange_repeat (length ids) (Z.to_nat n_samples))
                  (concat sel).

(** The arrays [np.asarray(tmp).squeeze()] can give here. *)
Inductive ndarray : Type :=
  | Array0 (v : Z)
  | Array1 (l : list Z)
  | ArrayObject.

(** [np.asarray(tmp).squeeze()] on the selected entries.  Two or more
    entries come as a [1 x n] matrix, and [squeeze] drops the axis of
    length 1.  A single entry comes as a [1 x 1] matrix, and [squeeze]
    drops both axes: the array is 0-dimensional.  Without any index pair
    scipy answers with an empty sparse matrix, which [np.asarray] wraps as
    one object. *)
Definition asarray_squeeze (tmp : list Z) : ndarray :=
  match tmp with
  | [] => ArrayObject
  | [v] => Array0 v
  | _ => Array1 tmp
  end.

(** [torch.LongTensor(tmp)]: a 1-dimensional array gives its integers, a
    0-dimensional integer is taken as the size of a new tensor (allocation
    refuses a negative size), and an object array is refused. *)
Definition new_LongTensor (tmp : ndarray) : result torch.LongTensor :=
  match tmp with
  | Array1 l => Ok (torch.Values l)
  | Array0 v => if (v <? 0)%Z then Raise RuntimeError
                else Ok (torch.Uninitialized (Z.to_nat v))
  | ArrayObject => Raise TypeError
  end.

(** The call: the selection, then lines 94 to 96. *)
Definition __call__ (self : t) (ids : list Z) (n_samples : option Z)
  (g : RandomState) : result torch.LongTensor :=
  tmp <- selected_entries self ids n_samples g ;;
  let tmp := asarray_squeeze tmp in
  new_LongTensor tmp.

(** The stored neighbors of a row: its non-padding entries. *)
Definition neighbors (row : list Z) : list Z := filter nonzero row.

(** What the sampler returns for node [id] from the raw draws [draws]: the
    entries of the node's row at the draws reduced modulo its degree. *)
Definition sampled_block (adj : list (list Z)) (id : Z) (draws : list Z)
  : list Z :=
  let row := nth (Z.to_nat id) adj [] in
  map (fun s => nth (Z.to_nat (Py.np_remainder s (Z.of_nat (length (neighbors row)))))
                    row 0%Z)
      draws.

(** The layout of the class docstring: the neighbors of a node fill the
    first columns of its row, the padding zeros follow. *)
Definition left_packed (row : list Z) : bool :=
  forallb nonzero (firstn (length (neighbors row)) row).

End SparseUniformNeighborSampler.

(** ** Scalars and layers *)

(** The element type of a float tensor with the operations the modules use.
    Nothing below depends on how they round. *)
Class Scalar (R : Type) : Type := {
  zero : R;
  add : R -> R -> R;
  mul : R -> R -> R;
  div_count : R -> nat -> R;
  maxr : R -> R -> R;
  tanh : R -> R;
  to_long : R -> Z
}.

(** The laws of exact arithmetic that the reductions over neighbors need. *)
Class ScalarLaws (R : Type) `{Scalar R} : Prop := {
  add_comm : forall x y : R, add x y = add y x;
  add_assoc : forall x y z : R, add x (add y z) = add (add x y) z;
  maxr_comm : forall x y : R, maxr x y = maxr y x;
  maxr_assoc : forall x y z : R, maxr x (maxr y z) = maxr (maxr x y) z
}.

(** The values of the trainable parameters, by the name they have in the
    module's [state_dict] and their position. *)
Definition state_dict (R : Type) : Type := string -> nat -> nat -> R.

Module nn.

Section Layers.

Context {R : Type} {SR : Scalar R}.

Definition Tensor : Type := list (list R).

(** A three-dimensional tensor of shape [(len blocks, _, size2)]. *)
Record Tensor3 : Type := {
  size2 : nat;
  blocks : list (list (list R))
}.

(** [t] has [n] rows, each of width [d]. *)
Definition has_shape (n : nat) (d : Z) (t : Tensor) : Prop :=
  length t = n /\ Forall (fun r => Z.of_nat (length r) = d) t.

Definition sum (l : list R) : R := fold_right add zero l.

(** The reduction of a non-empty list by a binary operation. *)
Fixpoint reduce (f : R -> R -> R) (l : list R) : option R :=
  match l with
  | [] => None
  | x :: xs =>
      match reduce f xs with
      | None => Some x
      | Some y => Some (f x y)
      end
  end.

Definition column (j : nat) (block : list (list R)) : list R :=
  map (fun r => nth j r zero) block.

(** [x.mean(dim=1)]. *)
Definition mean_dim1 (x : Tensor3) : Tensor :=
  map (fun block =>
         map (fun j => div_count (sum (column j block)) (length block))
             (seq 0 (size2 x)))
      (blocks x).

(** [x.max(dim=1)[0]]: torch refuses to reduce over an empty dimension. *)
Definition max_dim1 (x : Tensor3) : result Tensor :=
  mapM (fun block =>
          mapM (fun j => match reduce maxr (column j block) with
                         | Some m => Ok m
                         | None => Raise RuntimeError
                         end)
               (seq 0 (size2 x)))
       (blocks x).

(** [b] consecutive groups of [k] rows. *)
Fixpoint chunk {A : Type} (b k : nat) (l : list A) : list (list A) :=
  match b with
  | 0 => []
  | S b' => firstn k l :: chunk b' k (skipn k l)
  end.

(** [t.view(b, -1, t.size(1))]: the rows of [t] in [b] groups of equal
    size; the size of the groups must be inferable.  A tensor without rows
    has no width left in this representation and is refused, which is what
    torch does for width 0. *)
Definition view3 (b : nat) (t : Tensor) : result Tensor3 :=
  let n := length t in
  if (b =? 0) || (n =? 0) || (Py.size1 t =? 0) || negb (n mod b =? 0)
  then Raise RuntimeError
  else Ok {| size2 := Py.size1 t; blocks := chunk b (n / b) t |}.

(** [torch.cat([a, b], dim=1)]. *)
Definition cat2 (a b : Tensor) : result Tensor :=
  if length a =? length b
  then Ok (map (fun p => fst p ++ snd p) (combine a b))
  else Raise RuntimeError.

(** [torch.cat(ts, dim=1)]. *)
Definition cat1 (ts : list Tensor) : result Tensor :=
  match ts with
  | [] => Raise RuntimeError
  | t :: rest => fold_left (fun acc u => a <- acc ;; cat2 a u) rest (Ok t)
  end.

(** *** nn.Linear *)

Record Linear : Type := {
  in_features : nat;
  out_features : nat;
  weight : nat -> nat -> R;
  bias : option (nat -> R)
}.

(** Tensor allocation refuses a negative size. *)
Definition new_Linear (inf outf : Z) (with_bias : bool)
  (w : nat -> nat -> R) (b : nat -> nat -> R) : result Linear :=
  if ((inf <? 0) || (outf <? 0))%Z then Raise RuntimeError
  else Ok {| in_features := Z.to_nat inf;
             out_features := Z.to_nat outf;
             weight := w;
             bias := if with_bias then Some (fun j => b j 0) else None |}.

Definition dot (x : list R) (w : nat -> R) : R :=
  sum (map (fun p => mul (snd p) (w (fst p))) (combine (seq 0 (length x)) x)).

Definition Linear_row (l : Linear) (x : list R) : list R :=
  map (fun j => match bias l with
                | Some b => add (dot x (weight l j)) (b j)
                | None => dot x (weight l j)
                end)
      (seq 0 (out_features l)).

Definition Linear_forward (l : Linear) (t : Tensor) : result Tensor :=
  if forallb (fun x => length x =? in_features l) t
  then Ok (map (Linear_row l) t)
  else Raise RuntimeError.

(** *** nn.Embedding *)

Record Embedding : Type := {
  num_embeddings : Z;
  embedding_dim : nat;
  table : nat -> nat -> R
}.

Definition new_Embedding (num dim : Z) (w : nat -> nat -> R) : result Embedding :=
  if ((num <? 0) || (dim <? 0))%Z then Raise RuntimeError
  else Ok {| num_embeddings := num; embedding_dim := Z.to_nat dim; table := w |}.

(** Row [i] of the table. *)
Definition Embedding_row_of (e : Embedding) (i : Z) : list R :=
  map (table e (Z.to_nat i)) (seq 0 (embedding_dim e)).

(** The lookup of one id.  A table without rows cannot be indexed at all;
    otherwise an id outside the table is an [IndexError]. *)
Definition Embedding_row (e : Embedding) (i : Z) : result (list R) :=
  if (num_embeddings e <=? 0)%Z then Raise RuntimeError
  else if ((0 <=? i) && (i <? num_embeddings e))%Z
  then Ok (map (table e (Z.to_nat i)) (seq 0 (embedding_dim e)))
  else Raise IndexError.

(** The embedding of a vector of ids: one row per id. *)
Definition Embedding_forward (e : Embedding) (ids : list Z) : result Tensor :=
  mapM (Embedding_row e) ids.

(** The embedding of a matrix of ids: one block of rows per row of ids. *)
Definition Embedding_forward2 (e : Embedding) (ids : list (list Z))
  : result Tensor3 :=
  bs <- mapM (Embedding_forward e) ids ;;
  Ok {| size2 := embedding_dim e; blocks := bs |}.

(** [t.long()]. *)
Definition long (t : Tensor) : list (list Z) := map (map to_long) t.

Definition Tanh (t : Tensor) : Tensor := map (map tanh) t.

Definition ReLU (t : Tensor) : Tensor := map (map (maxr zero)) t.

(** *** nn.LSTM, by its configuration *)

Record LSTM : Type := {
  input_size : Z;
  hidden_size : Z;
  bidirectional : bool;
  batch_first : bool
}.

(** The constructor asks for sizes greater than zero. *)
Definition new_LSTM (input hidden : Z) (bidir bfirst : bool) : result LSTM :=
  if ((input <=? 0) || (hidden <=? 0))%Z then Raise ValueError
  else Ok {| input_size := input; hidden_size := hidden;
             bidirectional := bidir; batch_first := bfirst |}.

End Layers.

End nn.

(** ** Preprocessors *)

Module IdentityPrep.

Section Prep.

Context {R : Type} {SR : Scalar R}.

Record t : Type := {
  input_dim : Z;
  output_dim : Z
}.

Definition __init__ (input_dim : Z) (n_nodes : option Z) : t :=
  {| input_dim := input_dim; output_dim := input_dim |}.

Definition forward (self : t) (ids : list Z) (feats : @nn.Tensor R)
  (layer_idx : Z) : result (@nn.Tensor R) :=
  Ok feats.

End Prep.

End IdentityPrep.

Module NodeEmbeddingPrep.

Section Prep.

Context {R : Type} {SR : Scalar R}.

Record t : Type := {
  n_nodes : Z;
  input_dim : Z;
  embedding_dim : Z;
  embedding : @nn.Embedding R;
  fc : @nn.Linear R
}.

Definition __init__ (input_dim n_nodes : Z) (embedding_dim : option Z)
  (theta : state_dict R) : result t :=
  let embedding_dim := default 8%Z embedding_dim in
  embedding <- nn.new_Embedding (n_nodes + 1) embedding_dim
                                (theta "embedding.weight"%string) ;;
  fc <- nn.new_Linear embedding_dim embedding_dim true
                      (theta "fc.weight"%string) (theta "fc.bias"%string) ;;
  Ok {| n_nodes := n_nodes; input_dim := input_dim;
        embedding_dim := embedding_dim; embedding := embedding; fc := fc |}.

(** [if self.input_dim:] holds for every integer but 0. *)
Definition output_dim (self : t) : Z :=
  if negb (input_dim self =? 0)%Z
  then (input_dim self + embedding_dim self)%Z
  else embedding_dim self.

Definition forward (self : t) (ids : list Z) (feats : @nn.Tensor R)
  (layer_idx : Z) : result (@nn.Tensor R) :=
  embs <- (if (0 <? layer_idx)%Z
           then nn.Embedding_forward (embedding self) ids
           else nn.Embedding_forward (embedding self)
                  (map (fun _ => (0 + n_nodes self)%Z) ids)) ;;
  embs <- nn.Linear_forward (fc self) embs ;;
  if negb (input_dim self =? 0)%Z
  then nn.cat1 [feats; embs]
  else Ok embs.

End Prep.

End NodeEmbeddingPrep.

Module LinearPrep.

Section Prep.

Context {R : Type} {SR : Scalar R}.

Record t : Type := {
  fc : @nn.Linear R;
  output_dim : Z
}.

Definition __init__ (input_dim : Z) (n_nodes : option Z) (output_dim : option Z)
  (theta : state_dict R) : result t :=
  let output_dim := default 32%Z output_dim in
  fc <- nn.new_Linear input_dim output_dim true
                      (theta "fc.weight"%string) (theta "fc.bias"%string) ;;
  Ok {| fc := fc; output_dim := output_dim |}.

Definition forward (self : t) (ids : list Z) (feats : @nn.Tensor R)
  (layer_idx : Z) : result (@nn.Tensor R) :=
  nn.Linear_forward (fc self) feats.

End Prep.

End LinearPrep.

Module NonLinearPrep.

Section Prep.

Context {R : Type} {SR : Scalar R}.

(** [mlp] is [Sequential(Linear, Tanh, Linear)]: its two affine layers. *)
Record t : Type := {
  mlp_0 : @nn.Linear R;
  mlp_2 : @nn.Linear R;
  output_dim : Z
}.

Definition __init__ (input_dim : Z) (n_nodes : option Z) (output_dim : option Z)
  (theta : state_dict R) : result t :=
  let output_dim := default 32%Z output_dim in
  l0 <- nn.new_Linear input_dim output_dim true
                      (theta "mlp.0.weight"%string) (theta "mlp.0.bias"%string) ;;
  l2 <- nn.new_Linear output_dim output_dim true
                      (theta "mlp.2.weight"%string) (theta "mlp.2.bias"%string) ;;
  Ok {| mlp_0 := l0; mlp_2 := l2; output_dim := output_dim |}.

Definition mlp (self : t) (x : @nn.Tensor R) : result (@nn.Tensor R) :=
  h <- nn.Linear_forward (mlp_0 self) x ;;
  nn.Linear_forward (mlp_2 self) (nn.Tanh h).

Definition forward (self : t) (ids : list Z) (feats : @nn.Tensor R)
  (layer_idx : Z) : result (@nn.Tensor R) :=
  mlp self feats.

End Prep.

End NonLinearPrep.

Module BagOfWordsPrep.

Section Prep.

Context {R : Type} {SR : Scalar R}.

Record t : Type := {
  n_nodes : Z;
  embedding_dim : Z;
  node_embedding : @nn.Embedding R;
  node_fc : @nn.Linear R;
  feat_embedding : @nn.Embedding R;
  feat_fc : @nn.Linear R;
  output_dim : Z
}.

Definition __init__ (input_dim n_nodes : Z) (output_dim embedding_dim : option Z)
  (theta : state_dict R) : result t :=
  let output_dim := default 32%Z output_dim in
  let embedding_dim := default 32%Z embedding_dim in
  node_embedding <- nn.new_Embedding (n_nodes + 1) embedding_dim
                      (theta "node_embedding.weight"%string) ;;
  node_fc <- nn.new_Linear embedding_dim output_dim true
               (theta "node_fc.weight"%string) (theta "node_fc.bias"%string) ;;
  feat_embedding <- nn.new_Embedding 15000 embedding_dim
                      (theta "feat_embedding.weight"%string) ;;
  feat_fc <- nn.new_Linear embedding_dim output_dim true
               (theta "feat_fc.weight"%string) (theta "feat_fc.bias"%string) ;;
  Ok {| n_nodes := n_nodes; embedding_dim := embedding_dim;
        node_embedding := node_embedding; node_fc := node_fc;
        feat_embedding := feat_embedding; feat_fc := feat_fc;
        output_dim := (output_dim * 2)%Z |}.

Definition forward (self : t) (ids : list Z) (feats : @nn.Tensor R)
  (layer_idx : Z) : result (@nn.Tensor R) :=
  node_embs <- (if (0 <? layer_idx)%Z
                then nn.Embedding_forward (node_embedding self) ids
                else nn.Embedding_forward (node_embedding self)
                       (map (fun _ => (0 + n_nodes self)%Z) ids)) ;;
  node_embs <- nn.Linear_forward (node_fc self) node_embs ;;
  feat_embs <- nn.Embedding_forward2 (feat_embedding self) (nn.long feats) ;;
  let feat_embs := nn.mean_dim1 feat_embs in
  feat_embs <- nn.Linear_forward (feat_fc self) feat_embs ;;
  nn.cat1 [feat_embs; node_embs].

End Prep.

End BagOfWordsPrep.

Module GeoBagOfWordsPrep.

Section Prep.

Context {R : Type} {SR : Scalar R}.

Record t : Type := {
  n_nodes : Z;
  embedding_dim : Z;
  cat_feat_embedding : @nn.Embedding R;
  cat_feat_fc : @nn.Linear R;
  n_cat : Z;
  con_feat_mlp_0 : @nn.Linear R;
  con_feat_mlp_2 : @nn.Linear R;
  fc : @nn.Linear R;
  output_dim : Z
}.

Definition __init__ (input_dim n_nodes : Z) (output_dim embedding_dim : option Z)
  (theta : state_dict R) : result t :=
  let output_dim := default 16%Z output_dim in
  let embedding_dim := default 16%Z embedding_dim in
  cat_feat_embedding <- nn.new_Embedding 400000 embedding_dim
                          (theta "cat_feat_embedding.weight"%string) ;;
  cat_feat_fc <- nn.new_Linear embedding_dim output_dim true
                   (theta "cat_feat_fc.weight"%string)
                   (theta "cat_feat_fc.bias"%string) ;;
  let n_cat := 28%Z in
  l0 <- nn.new_Linear (input_dim - n_cat) output_dim true
          (theta "con_feat_mlp.0.weight"%string)
          (theta "con_feat_mlp.0.bias"%string) ;;
  l2 <- nn.new_Linear output_dim output_dim true
          (theta "con_feat_mlp.2.weight"%string)
          (theta "con_feat_mlp.2.bias"%string) ;;
  fc <- nn.new_Linear (output_dim * 2) output_dim true
          (theta "fc.weight"%string) (theta "fc.bias"%string) ;;
  Ok {| n_nodes := n_nodes; embedding_dim := embedding_dim;
        cat_feat_embedding := cat_feat_embedding; cat_feat_fc := cat_feat_fc;
        n_cat := n_cat; con_feat_mlp_0 := l0; con_feat_mlp_2 := l2;
        fc := fc; output_dim := output_dim |}.

Definition con_feat_mlp (self : t) (x : @nn.Tensor R) : result (@nn.Tensor R) :=
  h <- nn.Linear_forward (con_feat_mlp_0 self) x ;;
  nn.Linear_forward (con_feat_mlp_2 self) (nn.Tanh h).

Definition forward (self : t) (ids : list Z) (feats : @nn.Tensor R)
  (layer_idx : Z) : result (@nn.Tensor R) :=
  let con_feats := map (Py.slice_to (- n_cat self)) feats in
  con_feat_embs <- con_feat_mlp self con_feats ;;
  let cat_feats := map (Py.slice_from (- n_cat self)) feats in
  cat_feat_embs <- nn.Embedding_forward2 (cat_feat_embedding self)
                     (nn.long cat_feats) ;;
  let cat_feat_embs := nn.mean_dim1 cat_feat_embs in
  cat_feat_embs <- nn.Linear_forward (cat_feat_fc self) cat_feat_embs ;;
  out <- nn.cat1 [cat_feat_embs; con_feat_embs] ;;
  nn.Linear_forward (fc self) out.

End Prep.

End GeoBagOfWordsPrep.

(** ** The preprocessor family *)

Module Prep.

Section Family.

Context {R : Type} {SR : Scalar R}.

(** A class of [prep_lookup] with the arguments of its constructor. *)
Inductive config : Type :=
| identity (input_dim : Z) (n_nodes : option Z)
| node_embedding (input_dim n_nodes : Z) (embedding_dim : option Z)
| linear (input_dim : Z) (n_nodes : option Z) (output_dim : option Z)
| nonlinear (input_dim : Z) (n_nodes : option Z) (output_dim : option Z)
| bag_of_words (input_dim n_nodes : Z) (output_dim embedding_dim : option Z)
| geo_bag_of_words (input_dim n_nodes : Z) (output_dim embedding_dim : option Z).

Inductive t : Type :=
| Identity (p : IdentityPrep.t)
| NodeEmbedding (p : @NodeEmbeddingPrep.t R)
| Linear (p : @LinearPrep.t R)
| NonLinear (p : @NonLinearPrep.t R)
| BagOfWords (p : @BagOfWordsPrep.t R)
| GeoBagOfWords (p : @GeoBagOfWordsPrep.t R).

Definition new (c : config) (theta : state_dict R) : result t :=
  match c with
  | identity input_dim n_nodes =>
      Ok (Identity (IdentityPrep.__init__ input_dim n_nodes))
  | node_embedding input_dim n_nodes embedding_dim =>
      p <- NodeEmbeddingPrep.__init__ input_dim n_nodes embedding_dim theta ;;
      Ok (NodeEmbedding p)
  | linear input_dim n_nodes output_dim =>
      p <- LinearPrep.__init__ input_dim n_nodes output_dim theta ;;
      Ok (Linear p)
  | nonlinear input_dim n_nodes output_dim =>
      p <- NonLinearPrep.__init__ input_dim n_nodes output_dim theta ;;
      Ok (NonLinear p)
  | bag_of_words input_dim n_nodes output_dim embedding_dim =>
      p <- BagOfWordsPrep.__init__ input_dim n_nodes output_dim embedding_dim theta ;;
      Ok (BagOfWords p)
  | geo_bag_of_words input_dim n_nodes output_dim embedding_dim =>
      p <- GeoBagOfWordsPrep.__init__ input_dim n_nodes output_dim embedding_dim theta ;;
      Ok (GeoBagOfWords p)
  end.

Definition forward (p : t) (ids : list Z) (feats : @nn.Tensor R) (layer_idx : Z)
  : result (@nn.Tensor R) :=
  match p with
  | Identity p => IdentityPrep.forward p ids feats layer_idx
  | NodeEmbedding p => NodeEmbeddingPrep.forward p ids feats layer_idx
  | Linear p => LinearPrep.forward p ids feats layer_idx
  | NonLinear p => NonLinearPrep.forward p ids feats layer_idx
  | BagOfWords p => BagOfWordsPrep.forward p ids feats layer_idx
  | GeoBagOfWords p => GeoBagOfWordsPrep.forward p ids feats layer_idx
  end.

Definition output_dim (p : t) : Z :=
  match p with
  | Identity p => IdentityPrep.output_dim p
  | NodeEmbedding p => NodeEmbeddingPrep.output_dim p
  | Linear p => LinearPrep.output_dim p
  | NonLinear p => NonLinearPrep.output_dim p
  | BagOfWords p => BagOfWordsPrep.output_dim p
  | GeoBagOfWords p => GeoBagOfWordsPrep.output_dim p
  end.

Definition input_dim_of (c : config) : Z :=
  match c with
  | identity d _ | node_embedding d _ _ | linear d _ _ | nonlinear d _ _
  | bag_of_words d _ _ _ | geo_bag_of_words d _ _ _ => d
  end.

(** The ids a forward pass may look up in a node table of [n_nodes + 1]
    rows: at the outermost layer only the sentinel is read. *)
Definition ids_in_table (n_nodes : Z) (ids : list Z) (layer_idx : Z) : Prop :=
  (0 <= n_nodes)%Z /\
  ((0 < layer_idx)%Z -> Forall (fun i => (0 <= i <= n_nodes)%Z) ids).

(** A batch a preprocessor of configuration [c] accepts: one feature row
    of width [input_dim] per id, ids within the node table, and feature
    entries that are used as tokens within the token table. *)
Definition valid_batch (c : config) (ids : list Z) (feats : @nn.Tensor R)
  (layer_idx : Z) : Prop :=
  length feats = length ids /\
  Forall (fun r => Z.of_nat (length r) = input_dim_of c) feats /\
  match c with
  | identity _ _ | linear _ _ _ | nonlinear _ _ _ => True
  | node_embedding _ n_nodes _ => ids_in_table n_nodes ids layer_idx
  | bag_of_words _ n_nodes _ _ =>
      ids_in_table n_nodes ids layer_idx /\
      Forall (Forall (fun x => (0 <= to_long x < 15000)%Z)) feats
  | geo_bag_of_words _ _ _ _ =>
      Forall (Forall (fun x => (0 <= to_long x < 400000)%Z))
             (map (Py.slice_from (-28)) feats)
  end.

End Family.

End Prep.

(** ** Name resolution in a function body *)

Module Names.

Inductive value : Type :=
| PInt (z : Z)
| PNone
| PObject.

Definition scope : Type := list (string * value).

(** The names bound at the top level of [nn_modules.py]. *)
Definition module_globals : scope :=
  map (fun n => (n, PObject))
      ["torch"; "nn"; "F"; "Variable"; "np"; "sparse"; "to_numpy";
       "UniformNeighborSampler"; "SparseUniformNeighborSampler";
       "sampler_lookup"; "IdentityPrep"; "NodeEmbeddingPrep"; "LinearPrep";
       "NonLinearPrep"; "BagOfWordsPrep"; "GeoBagOfWordsPrep"; "prep_lookup";
       "AggregatorMixin"; "MeanAggregator"; "SimpleMeanAggregator";
       "PSimpleMeanAggregator"; "PoolAggregator"; "MaxPoolAggregator";
       "MeanPoolAggregator"; "LSTMAggregator"; "AttentionAggregator";
       "aggregator_lookup"]%string.

(** Reading a name: the function's locals first, then the module's globals;
    a name bound in neither raises [NameError]. *)
Definition load (locals : scope) (name : string) : result value :=
  match find (fun p => String.eqb (fst p) name) (locals ++ module_globals) with
  | Some p => Ok (snd p)
  | None => Raise (NameError name)
  end.

(** An operand that must be an integer. *)
Definition as_int (v : value) : result Z :=
  match v with
  | PInt z => Ok z
  | _ => Raise TypeError
  end.

Definition of_option (o : option Z) : value :=
  match o with
  | Some z => PInt z
  | None => PNone
  end.

End Names.

(** ** Aggregators *)

Module AggregatorMixin.

Section Mixin.

Context {R : Type} {SR : Scalar R}.

(** [output_dim]: the width of [combine_fn] applied to two rows of
    [output_dim_] zeros. *)
Definition output_dim (output_dim_ : Z)
  (combine_fn : list (@nn.Tensor R) -> result (@nn.Tensor R)) : result nat :=
  let tmp := [repeat zero (Z.to_nat output_dim_)] in
  out <- combine_fn [tmp; tmp] ;;
  Ok (Py.size1 out).

End Mixin.

End AggregatorMixin.

Module MeanAggregator.

Section Aggregator.

Context {R : Type} {SR : Scalar R}.

Record t : Type := {
  fc_node : @nn.Linear R;
  fc_neib : @nn.Linear R;
  output_dim_ : Z;
  activation : option (@nn.Tensor R -> @nn.Tensor R);
  combine_fn : list (@nn.Tensor R) -> result (@nn.Tensor R)
}.

Definition __init__ (input_dim output_dim : Z)
  (activation : option (@nn.Tensor R -> @nn.Tensor R)) (n_nodes : option Z)
  (combine_fn : option (list (@nn.Tensor R) -> result (@nn.Tensor R)))
  (theta : state_dict R) : result t :=
  let combine_fn := default nn.cat1 combine_fn in
  fc_node <- nn.new_Linear input_dim output_dim false
               (theta "fc_node.weight"%string) (theta "fc_node.bias"%string) ;;
  fc_neib <- nn.new_Linear input_dim output_dim false
               (theta "fc_neib.weight"%string) (theta "fc_neib.bias"%string) ;;
  Ok {| fc_node := fc_node; fc_neib := fc_neib; output_dim_ := output_dim;
        activation := activation; combine_fn := combine_fn |}.

Definition output_dim (self : t) : result nat :=
  AggregatorMixin.output_dim (output_dim_ self) (combine_fn self).

Definition forward (self : t) (node_feats neib_feats : @nn.Tensor R)
  (node_ids neib_ids : list Z) : result (@nn.Tensor R) :=
  agg_neib <- nn.view3 (length node_feats) neib_feats ;;
  let agg_neib := nn.mean_dim1 agg_neib in
  a <- nn.Linear_forward (fc_node self) node_feats ;;
  b <- nn.Linear_forward (fc_neib self) agg_neib ;;
  out <- combine_fn self [a; b] ;;
  Ok (match activation self with
      | Some act => act out
      | None => out
      end).

End Aggregator.

End MeanAggregator.

Module PoolAggregator.

Section Aggregator.

Context {R : Type} {SR : Scalar R}.

(** [mlp] is [Sequential(Linear, ReLU)]: its affine layer. *)
Record t : Type := {
  mlp_0 : @nn.Linear R;
  fc_node : @nn.Linear R;
  fc_neib : @nn.Linear R;
  output_dim_ : Z;
  activation : option (@nn.Tensor R -> @nn.Tensor R);
  pool_fn : @nn.Tensor3 R -> result (@nn.Tensor R);
  combine_fn : list (@nn.Tensor R) -> result (@nn.Tensor R)
}.

Definition __init__ (input_dim output_dim : Z)
  (pool_fn : @nn.Tensor3 R -> result (@nn.Tensor R))
  (activation : option (@nn.Tensor R -> @nn.Tensor R))
  (hidden_dim : option Z) (n_nodes : option Z)
  (combine_fn : option (list (@nn.Tensor R) -> result (@nn.Tensor R)))
  (theta : state_dict R) : result t :=
  let hidden_dim := default 512%Z hidden_dim in
  let combine_fn := default nn.cat1 combine_fn in
  mlp_0 <- nn.new_Linear input_dim hidden_dim true
             (theta "mlp.0.weight"%string) (theta "mlp.0.bias"%string) ;;
  fc_node <- nn.new_Linear input_dim output_dim false
               (theta "fc_node.weight"%string) (theta "fc_node.bias"%string) ;;
  fc_neib <- nn.new_Linear hidden_dim output_dim false
               (theta "fc_neib.weight"%string) (theta "fc_neib.bias"%string) ;;
  Ok {| mlp_0 := mlp_0; fc_node := fc_node; fc_neib := fc_neib;
        output_dim_ := output_dim; activation := activation;
        pool_fn := pool_fn; combine_fn := combine_fn |}.

Definition mlp (self : t) (x : @nn.Tensor R) : result (@nn.Tensor R) :=
  h <- nn.Linear_forward (mlp_0 self) x ;;
  Ok (nn.ReLU h).

Definition forward (self : t) (node_feats neib_feats : @nn.Tensor R)
  (node_ids neib_ids : list Z) : result (@nn.Tensor R) :=
  h_neib_feats <- mlp self neib_feats ;;
  agg_neib <- nn.view3 (length node_feats) h_neib_feats ;;
  agg_neib <- pool_fn self agg_neib ;;
  a <- nn.Linear_forward (fc_node self) node_feats ;;
  b <- nn.Linear_forward (fc_neib self) agg_neib ;;
  out <- combine_fn self [a; b] ;;
  Ok (match activation self with
      | Some act => act out
      | None => out
      end).

End Aggregator.

End PoolAggregator.

Module MaxPoolAggregator.

Section Aggregator.

Context {R : Type} {SR : Scalar R}.

(** [pool_fn] is [lambda x: x.max(dim=1)[0]]; [n_nodes] is not passed on. *)
Definition __init__ (input_dim output_dim : Z)
  (activation : option (@nn.Tensor R -> @nn.Tensor R))
  (hidden_dim : option Z) (n_nodes : option Z)
  (combine_fn : option (list (@nn.Tensor R) -> result (@nn.Tensor R)))
  (theta : state_dict R) : result (@PoolAggregator.t R) :=
  PoolAggregator.__init__ input_dim output_dim nn.max_dim1 activation
    (Some (default 512%Z hidden_dim)) None
    (Some (default nn.cat1 combine_fn)) theta.

Definition forward := @PoolAggregator.forward R SR.

End Aggregator.

End MaxPoolAggregator.

Module MeanPoolAggregator.

Section Aggregator.

Context {R : Type} {SR : Scalar R}.

(** [pool_fn] is [lambda x: x.mean(dim=1)]; [n_nodes] is not passed on. *)
Definition __init__ (input_dim output_dim : Z)
  (activation : option (@nn.Tensor R -> @nn.Tensor R))
  (hidden_dim : option Z) (n_nodes : option Z)
  (combine_fn : option (list (@nn.Tensor R) -> result (@nn.Tensor R)))
  (theta : state_dict R) : result (@PoolAggregator.t R) :=
  PoolAggregator.__init__ input_dim output_dim
    (fun x => Ok (nn.mean_dim1 x)) activation
    (Some (default 512%Z hidden_dim)) None
    (Some (default nn.cat1 combine_fn)) theta.

Definition forward := @PoolAggregator.forward R SR.

End Aggregator.

End MeanPoolAggregator.

Module SimpleMeanAggregator.

Section Aggregator.

Context {R : Type} {SR : Scalar R}.

Record t : Type := {
  output_dim : Z;
  fc_neib : @nn.Linear R
}.

(** [activation], [n_nodes] and [combine_fn] are accepted and not kept. *)
Definition __init__ (input_dim output_dim : Z)
  (activation : option (@nn.Tensor R -> @nn.Tensor R)) (n_nodes : option Z)
  (combine_fn : option (list (@nn.Tensor R) -> result (@nn.Tensor R)))
  (theta : state_dict R) : result t :=
  fc_neib <- nn.new_Linear input_dim output_dim true
               (theta "fc_neib.weight"%string) (theta "fc_neib.bias"%string) ;;
  Ok {| output_dim := output_dim; fc_neib := fc_neib |}.

Definition forward (self : t) (node_feats neib_feats : @nn.Tensor R)
  (node_ids neib_ids : list Z) : result (@nn.Tensor R) :=
  agg_neib <- nn.view3 (length node_feats) neib_feats ;;
  let agg_neib := nn.mean_dim1 agg_neib in
  nn.Linear_forward (fc_neib self) agg_neib.

End Aggregator.

End SimpleMeanAggregator.

Module PSimpleMeanAggregator.

Section Aggregator.

Context {R : Type} {SR : Scalar R}.

(** The attributes [__init__] assigns.  [forward] needs an instance, and
    [__init__] returns none. *)
Record t : Type := {
  output_dim : Names.value;
  embedding : @nn.Embedding R;
  fc_neib : @nn.Linear R
}.

(** The names bound in the body of [__init__]: its parameters. *)
Definition init_locals (input_dim output_dim : Z) (n_nodes : option Z)
  : Names.scope :=
  [("self", Names.PObject);
   ("input_dim", Names.PInt input_dim);
   ("output_dim", Names.PInt output_dim);
   ("activation", Names.PObject);
   ("n_nodes", Names.of_option n_nodes);
   ("combine_fn", Names.PObject)]%string.

Definition __init__ (input_dim output_dim : Z)
  (activation : option (@nn.Tensor R -> @nn.Tensor R)) (n_nodes : option Z)
  (combine_fn : option (list (@nn.Tensor R) -> result (@nn.Tensor R)))
  (theta : state_dict R) : result t :=
  let locals := init_locals input_dim output_dim n_nodes in
  od <- Names.load locals "output_dim"%string ;;
  n <- (v <- Names.load locals "n_nodes"%string ;; Names.as_int v) ;;
  embedding <- nn.new_Embedding (n + 1) 1 (theta "embedding.weight"%string) ;;
  inf <- (v <- Names.load locals "input_dim"%string ;; Names.as_int v) ;;
  outf <- (v <- Names.load locals "output_dim_"%string ;; Names.as_int v) ;;
  fc_neib <- nn.new_Linear inf outf true
               (theta "fc_neib.weight"%string) (theta "fc_neib.bias"%string) ;;
  Ok {| output_dim := od; embedding := embedding; fc_neib := fc_neib |}.

End Aggregator.

End PSimpleMeanAggregator.

Module LSTMAggregator.

Section Aggregator.

Context {R : Type} {SR : Scalar R}.

Record t : Type := {
  lstm : nn.LSTM;
  fc_node : @nn.Linear R;
  fc_neib : @nn.Linear R;
  output_dim_ : Z;
  activation : option (@nn.Tensor R -> @nn.Tensor R);
  combine_fn : list (@nn.Tensor R) -> result (@nn.Tensor R)
}.

(** [not n] on an integer. *)
Definition py_not (n : Z) : bool := (n =? 0)%Z.

Definition __init__ (input_dim output_dim : Z)
  (activation : option (@nn.Tensor R -> @nn.Tensor R))
  (hidden_dim : option Z) (bidirectional : option bool) (n_nodes : option Z)
  (combine_fn : option (list (@nn.Tensor R) -> result (@nn.Tensor R)))
  (theta : state_dict R) : result t :=
  let hidden_dim := default 512%Z hidden_dim in
  let bidirectional := default false bidirectional in
  let combine_fn := default nn.cat1 combine_fn in
  if negb (py_not (hidden_dim mod 2)%Z) then
    Raise (AssertionError "LSTMAggregator: hiddem_dim % 2 != 0")
  else
    lstm <- nn.new_LSTM input_dim (hidden_dim / (1 + Z.b2z bidirectional))%Z
                        bidirectional true ;;
    fc_node <- nn.new_Linear input_dim output_dim false
                 (theta "fc_node.weight"%string) (theta "fc_node.bias"%string) ;;
    fc_neib <- nn.new_Linear hidden_dim output_dim false
                 (theta "fc_neib.weight"%string) (theta "fc_neib.bias"%string) ;;
    Ok {| lstm := lstm; fc_node := fc_node; fc_neib := fc_neib;
          output_dim_ := output_dim; activation := activation;
          combine_fn := combine_fn |}.

End Aggregator.

End LSTMAggregator.

(** ** Instances for running the model on examples *)

(** A deterministic stream: the reversed identity permutation, and draws
    that walk through the population. *)
Definition example_stream : RandomState :=
  {| randperm := fun n => rev (seq 0 n);
     choice := fun a n k =>
       repeat (map (fun j => (Z.of_nat j mod a)%Z) (seq 0 k)) n |}.

(** Integer arithmetic as scalars. *)
#[export] Instance Scalar_Z : Scalar Z :=
  {| zero := 0%Z;
     add := Z.add;
     mul := Z.mul;
     div_count := fun x n => (x / Z.of_nat n)%Z;
     maxr := Z.max;
     tanh := fun x => Z.max (-1) (Z.min 1 x);
     to_long := fun x => x |}.

(** ** Facts about [result] and the indexing primitives *)

Lemma mapM_total {A B : Type} (f : A -> result B) (h : A -> B) (l : list A) :
  (forall x, In x l -> f x = Ok (h x)) -> mapM f l = Ok (map h l).
Proof.
  induction l as [|x xs IH]; intros Hf; simpl.
  - reflexivity.
  - rewrite (Hf x (or_introl eq_refl)). simpl.
    rewrite IH by (intros y Hy; apply Hf; now right).
    reflexivity.
Qed.

Lemma mapM_ext_in {A B : Type} (f f' : A -> result B) (l : list A) :
  (forall x, In x l -> f x = f' x) -> mapM f l = mapM f' l.
Proof.
  induction l as [|x xs IH]; intros Hf; simpl.
  - reflexivity.
  - rewrite (Hf x (or_introl eq_refl)).
    rewrite IH by (intros y Hy; apply Hf; now right).
    reflexivity.
Qed.

Lemma mapM_length {A B : Type} (f : A -> result B) (l : list A) (out : list B) :
  mapM f l = Ok out -> length out = length l.
Proof.
  revert out. induction l as [|x xs IH]; intros out; simpl.
  - intros [= <-]. reflexivity.
  - destruct (f x) as [y|e]; simpl; [|discriminate].
    destruct (mapM f xs) as [ys|e]; simpl; [|discriminate].
    intros [= <-]. simpl. now rewrite (IH ys).
Qed.

Lemma norm_index_in_range (n : nat) (i : Z) :
  (0 <= i < Z.of_nat n)%Z -> Py.norm_index n i = Ok (Z.to_nat i).
Proof.
  intros H. unfold Py.norm_index.
  destruct (Z.leb_spec 0 i); [|lia].
  destruct (Z.ltb_spec i (Z.of_nat n)); [|lia].
  reflexivity.
Qed.

Lemma getitem_in_range {A : Type} (d : A) (l : list A) (i : Z) :
  (0 <= i < Z.of_nat (length l))%Z -> Py.getitem l i = Ok (nth (Z.to_nat i) l d).
Proof.
  intros H. unfold Py.getitem. rewrite norm_index_in_range by exact H. simpl.
  destruct (nth_error l (Z.to_nat i)) as [x|] eqn:E.
  - now rewrite (nth_error_nth _ _ d E).
  - apply nth_error_None in E. lia.
Qed.

Lemma getitem_nat {A : Type} (d : A) (l : list A) (c : nat) :
  c < length l -> Py.getitem l (Z.of_nat c) = Ok (nth c l d).
Proof.
  intros H. rewrite (getitem_in_range d) by lia. now rewrite Nat2Z.id.
Qed.

Lemma index_select_in_range {A : Type} (d : A) (t : list A) (ids : list Z) :
  Forall (fun i => (0 <= i < Z.of_nat (length t))%Z) ids ->
  Py.index_select t ids = Ok (map (fun i => nth (Z.to_nat i) t d) ids).
Proof.
  intros H. unfold Py.index_select. apply mapM_total.
  intros i Hi. apply getitem_in_range.
  rewrite Forall_forall in H. now apply H.
Qed.

Lemma in_firstn {A : Type} (n : nat) (l : list A) (x : A) :
  In x (firstn n l) -> In x l.
Proof.
  intros H. rewrite <- (firstn_skipn n l). apply in_or_app. now left.
Qed.

Lemma slice_to_length {A : Type} (n : Z) (l : list A) :
  (0 <= n)%Z -> length (Py.slice_to n l) = Nat.min (Z.to_nat n) (length l).
Proof.
  intros Hn. unfold Py.slice_to.
  destruct (Z.ltb_spec n 0); [lia|].
  rewrite length_firstn. lia.
Qed.

Lemma slice_to_firstn {A : Type} (n : Z) (l : list A) :
  (0 <= n)%Z -> Py.slice_to n l = firstn (Z.to_nat n) l.
Proof.
  intros Hn. unfold Py.slice_to.
  destruct (Z.ltb_spec n 0); [lia|].
  destruct (Z.le_gt_cases n (Z.of_nat (length l))).
  - now rewrite Z.min_l.
  - rewrite Z.min_r by lia. rewrite Nat2Z.id.
    rewrite firstn_all. symmetry. apply firstn_all2. lia.
Qed.

Lemma slice_to_minus_one {A : Type} (l : list A) :
  Py.slice_to (-1)%Z l = removelast l.
Proof.
  unfold Py.slice_to. simpl.
  induction l as [|x xs _] using rev_ind.
  - reflexivity.
  - rewrite removelast_last, length_app. simpl.
    replace (Z.to_nat (Z.max 0 (Z.of_nat (length xs + 1) + -1))) with (length xs) by lia.
    rewrite firstn_app, Nat.sub_diag, firstn_all. simpl. now rewrite app_nil_r.
Qed.

(** ** The dense sampler *)

Section DenseSampler.

Variable adj : list (list Z).
Variable W : nat.
Variable g : RandomState.

Hypothesis adj_rect : Forall (fun r => length r = W) adj.
Hypothesis g_perm : randperm_ok g.

Lemma randperm_lt (c : nat) : In c (randperm g W) -> c < W.
Proof.
  intros Hc. apply (Permutation_in _ (g_perm W)) in Hc.
  apply in_seq in Hc. lia.
Qed.

Lemma randperm_length : length (randperm g W) = W.
Proof.
  rewrite (Permutation_length (g_perm W)). apply length_seq.
Qed.

Lemma adj_row_length (id : Z) :
  (0 <= id < Z.of_nat (length adj))%Z -> length (nth (Z.to_nat id) adj []) = W.
Proof.
  intros H. rewrite Forall_forall in adj_rect. apply adj_rect.
  apply nth_In. lia.
Qed.

Lemma take_columns_selected (ids : list Z) :
  Forall (fun i => (0 <= i < Z.of_nat (length adj))%Z) ids ->
  let tmp := map (fun i => nth (Z.to_nat i) adj []) ids in
  Py.take_columns tmp (randperm g (Py.size1 tmp)) = Ok (map (UniformNeighborSampler.permuted_row adj g W) ids).
Proof.
  intros Hids tmp. unfold Py.take_columns.
  destruct ids as [|id0 ids'].
  - reflexivity.
  - assert (Hw : Py.size1 tmp = W).
    { subst tmp. simpl. apply adj_row_length. now inversion Hids. }
    rewrite Hw. subst tmp. rewrite <- (map_map (fun i => nth (Z.to_nat i) adj [])
      (fun row => map (fun c => nth c row 0%Z) (randperm g W))).
    apply mapM_total. intros row Hrow.
    apply in_map_iff in Hrow. destruct Hrow as (id & <- & Hid).
    rewrite Forall_forall in Hids. specialize (Hids id Hid).
    apply mapM_total. intros c Hc. apply getitem_nat.
    rewrite adj_row_length by exact Hids. now apply randperm_lt.
Qed.

Lemma dense_call_eq (ids : list Z) (n_samples : option Z) :
  Forall (fun i => (0 <= i < Z.of_nat (length adj))%Z) ids ->
  UniformNeighborSampler.__call__ (UniformNeighborSampler.__init__ adj) ids n_samples g
  = Ok (map (fun id => Py.slice_to (default (-1)%Z n_samples) ((UniformNeighborSampler.permuted_row adj g W) id)) ids).
Proof.
  intros Hids. unfold UniformNeighborSampler.__call__. simpl.
  rewrite (index_select_in_range [] adj Hids). simpl.
  rewrite (take_columns_selected Hids). simpl.
  now rewrite map_map.
Qed.

Lemma permuted_row_length (id : Z) : length ((UniformNeighborSampler.permuted_row adj g W) id) = W.
Proof.
  unfold UniformNeighborSampler.permuted_row. rewrite length_map.
  apply randperm_length.
Qed.

Lemma permuted_row_incl (id : Z) (v : Z) :
  (0 <= id < Z.of_nat (length adj))%Z ->
  In v ((UniformNeighborSampler.permuted_row adj g W) id) -> In v (nth (Z.to_nat id) adj []).
Proof.
  intros Hid Hv. unfold UniformNeighborSampler.permuted_row in Hv.
  apply in_map_iff in Hv. destruct Hv as (c & <- & Hc).
  apply nth_In. rewrite adj_row_length by exact Hid. now apply randperm_lt.
Qed.

End DenseSampler.

Lemma example_stream_perm : randperm_ok example_stream.
Proof.
  intros n. simpl. symmetry. apply Permutation_rev.
Qed.

Lemma example_stream_choice : choice_ok example_stream.
Proof.
  intros a n k. simpl. repeat split.
  - apply repeat_length.
  - apply Forall_forall. intros row Hrow. apply repeat_spec in Hrow. subst row.
    now rewrite length_map, length_seq.
  - intros Ha. apply Forall_forall. intros row Hrow.
    apply repeat_spec in Hrow. subst row.
    apply Forall_forall. intros s Hs. apply in_map_iff in Hs.
    destruct Hs as (j & <- & _). apply Z.mod_pos_bound. exact Ha.
Qed.

(** C5.  On a table of [W] columns and for in-range ids, a call with
    [n_samples = K >= 1] returns one row per id; the row of an id is its
    stored row under the one permutation drawn for the call, cut to its
    first [K] columns, so every value comes from the id's own stored row;
    it has [K] columns when [K <= W] and only [W] columns when [K > W]. *)
Theorem dense_sample_from_own_row
  (adj : list (list Z)) (W : nat) (g : RandomState) (ids : list Z) (K : Z) :
  Forall (fun r => length r = W) adj ->
  randperm_ok g ->
  Forall (fun i => (0 <= i < Z.of_nat (length adj))%Z) ids ->
  (1 <= K)%Z ->
  exists out,
    UniformNeighborSampler.__call__ (UniformNeighborSampler.__init__ adj)
      ids (Some K) g = Ok out /\
    length out = length ids /\
    forall i id, nth_error ids i = Some id ->
      nth i out [] =
        firstn (Z.to_nat K) (UniformNeighborSampler.permuted_row adj g W id) /\
      (forall v, In v (nth i out []) -> In v (nth (Z.to_nat id) adj [])) /\
      ((K <= Z.of_nat W)%Z -> length (nth i out []) = Z.to_nat K) /\
      ((Z.of_nat W < K)%Z -> length (nth i out []) = W).
Proof.
  intros Hrect Hperm Hids HK.
  eexists. split; [apply (dense_call_eq Hrect Hperm (Some K) Hids)|].
  split; [apply length_map|].
  intros i id Hi. simpl.
  assert (Hid : (0 <= id < Z.of_nat (length adj))%Z).
  { rewrite Forall_forall in Hids. apply Hids. eapply nth_error_In; eauto. }
  assert (Hrow : nth i (map (fun id0 => Py.slice_to K
             (UniformNeighborSampler.permuted_row adj g W id0)) ids) []
           = firstn (Z.to_nat K) (UniformNeighborSampler.permuted_row adj g W id)).
  { erewrite nth_indep with (d' := Py.slice_to K
        (UniformNeighborSampler.permuted_row adj g W 0%Z)).
    - rewrite (map_nth (fun id0 => Py.slice_to K
        (UniformNeighborSampler.permuted_row adj g W id0))).
      rewrite (nth_error_nth _ _ 0%Z Hi). apply slice_to_firstn. lia.
    - rewrite length_map. apply nth_error_Some. congruence. }
  rewrite Hrow. split; [reflexivity|]. split; [|split].
  - intros v Hv. eapply permuted_row_incl; eauto.
    eapply in_firstn. exact Hv.
  - intros Hle. rewrite length_firstn, (@permuted_row_length adj W g Hperm). lia.
  - intros Hgt. rewrite length_firstn, (@permuted_row_length adj W g Hperm). lia.
Qed.

Lemma dense_sample_from_own_row_witness :
  exists out,
    UniformNeighborSampler.__call__
      (UniformNeighborSampler.__init__
         [[1; 2; 3]; [0; 2; 3]; [0; 1; 3]; [0; 1; 2]]%Z)
      [0; 2]%Z (Some 2%Z) example_stream = Ok out /\
    length out = 2 /\
    forall i id, nth_error [0; 2]%Z i = Some id ->
      nth i out [] =
        firstn (Z.to_nat 2)
          (UniformNeighborSampler.permuted_row
             [[1; 2; 3]; [0; 2; 3]; [0; 1; 3]; [0; 1; 2]]%Z example_stream 3 id) /\
      (forall v, In v (nth i out []) ->
         In v (nth (Z.to_nat id) [[1; 2; 3]; [0; 2; 3]; [0; 1; 3]; [0; 1; 2]]%Z [])) /\
      ((2 <= Z.of_nat 3)%Z -> length (nth i out []) = Z.to_nat 2) /\
      ((Z.of_nat 3 < 2)%Z -> length (nth i out []) = 3).
Proof.
  apply (@dense_sample_from_own_row
           [[1; 2; 3]; [0; 2; 3]; [0; 1; 3]; [0; 1; 2]]%Z 3 example_stream
           [0; 2]%Z 2%Z).
  - repeat constructor.
  - exact example_stream_perm.
  - repeat constructor; simpl; lia.
  - lia.
Defined.

(** C9.  A call that leaves [n_samples] out runs with the default [-1]:
    the cut [[:, :-1]] drops the last column of the permuted rows, so every
    id gets [W - 1] ids instead of its full row of [W]. *)
Theorem dense_sample_default_drops_last_column
  (adj : list (list Z)) (W : nat) (g : RandomState) (ids : list Z) :
  Forall (fun r => length r = W) adj ->
  randperm_ok g ->
  Forall (fun i => (0 <= i < Z.of_nat (length adj))%Z) ids ->
  exists out,
    UniformNeighborSampler.__call__ (UniformNeighborSampler.__init__ adj)
      ids None g = Ok out /\
    length out = length ids /\
    forall i id, nth_error ids i = Some id ->
      nth i out [] =
        removelast (UniformNeighborSampler.permuted_row adj g W id) /\
      length (nth i out []) = W - 1.
Proof.
  intros Hrect Hperm Hids.
  eexists. split; [apply (dense_call_eq Hrect Hperm None Hids)|].
  split; [apply length_map|].
  intros i id Hi. simpl.
  assert (Hrow : nth i (map (fun id0 => Py.slice_to (-1)
             (UniformNeighborSampler.permuted_row adj g W id0)) ids) []
           = removelast (UniformNeighborSampler.permuted_row adj g W id)).
  { erewrite nth_indep with (d' := Py.slice_to (-1)
        (UniformNeighborSampler.permuted_row adj g W 0%Z)).
    - rewrite (map_nth (fun id0 => Py.slice_to (-1)
        (UniformNeighborSampler.permuted_row adj g W id0))).
      rewrite (nth_error_nth _ _ 0%Z Hi). apply slice_to_minus_one.
    - rewrite length_map. apply nth_error_Some. congruence. }
  rewrite Hrow. split; [reflexivity|].
  rewrite <- slice_to_minus_one. unfold Py.slice_to.
  rewrite length_firstn, (@permuted_row_length adj W g Hperm). simpl. lia.
Qed.

Lemma dense_sample_default_drops_last_column_witness :
  exists out,
    UniformNeighborSampler.__call__
      (UniformNeighborSampler.__init__
         [[1; 2; 3]; [0; 2; 3]; [0; 1; 3]; [0; 1; 2]]%Z)
      [0; 2]%Z None example_stream = Ok out /\
    length out = 2 /\
    forall i id, nth_error [0; 2]%Z i = Some id ->
      nth i out [] =
        removelast
          (UniformNeighborSampler.permuted_row
             [[1; 2; 3]; [0; 2; 3]; [0; 1; 3]; [0; 1; 2]]%Z example_stream 3 id) /\
      length (nth i out []) = 3 - 1.
Proof.
  apply (@dense_sample_default_drops_last_column
           [[1; 2; 3]; [0; 2; 3]; [0; 1; 3]; [0; 1; 2]]%Z 3 example_stream
           [0; 2]%Z).
  - repeat constructor.
  - exact example_stream_perm.
  - repeat constructor; simpl; lia.
Defined.

(** ** The sparse sampler *)

Lemma count_occ_const {A : Type} (i s : nat) (l : list A) :
  count_occ Nat.eq_dec (map (fun _ => s) l) i = if Nat.eqb i s then length l else 0.
Proof.
  induction l as [|x xs IH]; simpl.
  - now destruct (Nat.eqb i s).
  - destruct (Nat.eq_dec s i) as [->|Hne].
    + rewrite IH, Nat.eqb_refl. reflexivity.
    + rewrite IH. destruct (Nat.eqb_spec i s); [congruence|reflexivity].
Qed.

Lemma count_occ_nonzero_rows (adj : list (list Z)) (start i : nat) :
  count_occ Nat.eq_dec (SparseUniformNeighborSampler.nonzero_rows start adj) i
  = if i <? start then 0
    else length (SparseUniformNeighborSampler.neighbors (nth (i - start) adj [])).
Proof.
  revert start. induction adj as [|row rest IH]; intros start; simpl.
  - destruct (i <? start); [reflexivity|]. now destruct (i - start).
  - rewrite count_occ_app, count_occ_const, IH.
    destruct (Nat.ltb_spec i start) as [Hlt|Hge].
    + destruct (Nat.eqb_spec i start); [lia|].
      destruct (Nat.ltb_spec i (S start)); [reflexivity|lia].
    + destruct (Nat.eqb_spec i start) as [->|Hne].
      * rewrite Nat.sub_diag. destruct (Nat.ltb_spec start (S start)); [|lia].
        unfold SparseUniformNeighborSampler.neighbors. lia.
      * destruct (Nat.ltb_spec i (S start)); [lia|].
        replace (i - start) with (S (i - S start)) by lia. reflexivity.
Qed.

(** The degree table built by the constructor holds, for every node, the
    number of its stored neighbors. *)
Lemma degrees_spec (adj : list (list Z)) (i : nat) :
  i < length adj ->
  nth i (SparseUniformNeighborSampler.degrees
           (SparseUniformNeighborSampler.__init__ adj)) 0%Z
  = Z.of_nat (length (SparseUniformNeighborSampler.neighbors (nth i adj []))).
Proof.
  intros Hi. simpl.
  rewrite (nth_indep _ 0%Z (Z.of_nat (count_occ Nat.eq_dec
     (SparseUniformNeighborSampler.nonzero_rows 0 adj) 0)))
    by now rewrite length_map, length_seq.
  rewrite (map_nth (fun i0 => Z.of_nat (count_occ Nat.eq_dec
     (SparseUniformNeighborSampler.nonzero_rows 0 adj) i0))).
  rewrite seq_nth by exact Hi. simpl.
  rewrite count_occ_nonzero_rows. simpl. now rewrite Nat.sub_0_r.
Qed.

Lemma degrees_length (adj : list (list Z)) :
  length (SparseUniformNeighborSampler.degrees
            (SparseUniformNeighborSampler.__init__ adj)) = length adj.
Proof. simpl. now rewrite length_map, length_seq. Qed.

Lemma neighbors_length_le (row : list Z) :
  length (SparseUniformNeighborSampler.neighbors row) <= length row.
Proof. apply filter_length_le. Qed.

Lemma getitem_cons_succ {A : Type} (x : A) (l : list A) (r : nat) :
  Py.getitem (x :: l) (Z.of_nat (S r)) = Py.getitem l (Z.of_nat r).
Proof.
  unfold Py.getitem, Py.norm_index.
  destruct (Z.leb_spec 0 (Z.of_nat (S r))); [|lia].
  destruct (Z.leb_spec 0 (Z.of_nat r)); [|lia].
  destruct (Z.ltb_spec (Z.of_nat (S r)) (Z.of_nat (length (x :: l))));
    destruct (Z.ltb_spec (Z.of_nat r) (Z.of_nat (length l)));
    simpl in *; try lia.
  - rewrite !Nat2Z.id. replace (Pos.to_nat (Pos.of_succ_nat r)) with (S r) by lia.
    reflexivity.
  - destruct (Z.ltb_spec (Z.pos (Pos.of_succ_nat r)) 0); [lia|].
    destruct (Z.ltb_spec (Z.of_nat r) 0); [lia|].
    now rewrite !andb_false_r.
Qed.

Lemma getitem_pairs_shift (x : list Z) (tmp : list (list Z)) (rows : list nat)
  (cols : list Z) :
  SparseUniformNeighborSampler.getitem_pairs (x :: tmp) (map S rows) cols
  = SparseUniformNeighborSampler.getitem_pairs tmp rows cols.
Proof.
  revert cols. induction rows as [|r rows IH]; intros [|c cols]; simpl; try reflexivity.
  rewrite <- (getitem_cons_succ x tmp r). simpl.
  now rewrite IH.
Qed.

Lemma getitem_pairs_app (tmp : list (list Z)) (r1 r2 : list nat)
  (c1 c2 o1 : list Z) :
  SparseUniformNeighborSampler.getitem_pairs tmp r1 c1 = Ok o1 ->
  SparseUniformNeighborSampler.getitem_pairs tmp (r1 ++ r2) (c1 ++ c2)
  = (o2 <- SparseUniformNeighborSampler.getitem_pairs tmp r2 c2 ;; Ok (o1 ++ o2)).
Proof.
  revert c1 o1. induction r1 as [|r r1 IH]; intros [|c c1] o1; simpl; try discriminate.
  - intros [= <-]. destruct (SparseUniformNeighborSampler.getitem_pairs tmp r2 c2);
      reflexivity.
  - destruct (Py.getitem tmp (Z.of_nat r)) as [row|e]; simpl; [|discriminate].
    destruct (Py.getitem row c) as [v|e]; simpl; [|discriminate].
    destruct (SparseUniformNeighborSampler.getitem_pairs tmp r1 c1) as [o|e] eqn:E;
      simpl; [|discriminate].
    intros [= <-]. rewrite (IH c1 o E).
    destruct (SparseUniformNeighborSampler.getitem_pairs tmp r2 c2); reflexivity.
Qed.

Lemma getitem_pairs_first_row (x : list Z) (tmp : list (list Z)) (cs : list Z) :
  Forall (fun c => (0 <= c < Z.of_nat (length x))%Z) cs ->
  SparseUniformNeighborSampler.getitem_pairs (x :: tmp) (repeat 0 (length cs)) cs
  = Ok (map (fun c => nth (Z.to_nat c) x 0%Z) cs).
Proof.
  induction 1 as [|c cs Hc _ IH]; simpl.
  - reflexivity.
  - change (Py.getitem (x :: tmp) 0%Z) with (Ok (A := list Z) x). simpl.
    rewrite (getitem_in_range 0%Z x Hc). simpl. rewrite IH. reflexivity.
Qed.

Lemma flat_map_repeat_shift (k n s : nat) :
  flat_map (fun i => repeat i k) (seq (S s) n)
  = map S (flat_map (fun i => repeat i k) (seq s n)).
Proof.
  revert s. induction n as [|n IH]; intros s; simpl.
  - reflexivity.
  - rewrite map_app, IH. f_equal.
    clear IH. induction k as [|k IHk]; simpl; [reflexivity|].
    f_equal. exact IHk.
Qed.

Lemma arange_repeat_succ (n k : nat) :
  SparseUniformNeighborSampler.arange_repeat (S n) k
  = repeat 0 k ++ map S (SparseUniformNeighborSampler.arange_repeat n k).
Proof.
  unfold SparseUniformNeighborSampler.arange_repeat. simpl.
  now rewrite flat_map_repeat_shift.
Qed.

(** Paired indexing with [np.arange(n).repeat(k)] against [n] rows of [k]
    columns reads block [i] of the columns from row [i]. *)
Lemma getitem_pairs_blocks (k : nat) (tmp : list (list Z)) (sel : list (list Z)) :
  Forall2 (fun row cs => length cs = k /\
             Forall (fun c => (0 <= c < Z.of_nat (length row))%Z) cs) tmp sel ->
  SparseUniformNeighborSampler.getitem_pairs tmp
    (SparseUniformNeighborSampler.arange_repeat (length tmp) k) (concat sel)
  = Ok (concat (map (fun p => map (fun c => nth (Z.to_nat c) (fst p) 0%Z) (snd p))
                    (combine tmp sel))).
Proof.
  induction 1 as [|row cs tmp sel [Hk Hcs] _ IH]; simpl.
  - reflexivity.
  - rewrite arange_repeat_succ.
    rewrite (@getitem_pairs_app (row :: tmp) (repeat 0 k) _ cs (concat sel)
               (map (fun c => nth (Z.to_nat c) row 0%Z) cs)).
    + rewrite getitem_pairs_shift, IH. reflexivity.
    + rewrite <- Hk. now apply getitem_pairs_first_row.
Qed.

Lemma remainder_rows_eq (sel : list (list Z)) (d : list Z) :
  length sel = length d ->
  SparseUniformNeighborSampler.remainder_rows sel d
  = Ok (map (fun p => map (fun s => Py.np_remainder s (snd p)) (fst p))
            (combine sel d)).
Proof.
  revert d. induction sel as [|row sel IH]; intros [|x d] Hlen;
    simpl in *; try discriminate.
  - reflexivity.
  - rewrite IH by congruence. reflexivity.
Qed.

Lemma np_remainder_range (s d : Z) (n : nat) :
  (0 <= d <= Z.of_nat n)%Z -> 0 < n ->
  (0 <= Py.np_remainder s d < Z.of_nat n)%Z.
Proof.
  intros Hd Hn. unfold Py.np_remainder.
  destruct (Z.eqb_spec d 0); [lia|].
  pose proof (Z.mod_pos_bound s d). lia.
Qed.

Section SparseSampler.

Variable adj : list (list Z).
Variable W : nat.
Variable g : RandomState.

Hypothesis adj_rect : Forall (fun r => length r = W) adj.
Hypothesis g_choice : choice_ok g.

Let row (id : Z) : list Z := nth (Z.to_nat id) adj [].
Let deg (id : Z) : Z :=
  Z.of_nat (length (SparseUniformNeighborSampler.neighbors (row id))).

Lemma sparse_row_length (id : Z) :
  (0 <= id < Z.of_nat (length adj))%Z -> length (row id) = W.
Proof.
  intros H. rewrite Forall_forall in adj_rect. apply adj_rect.
  apply nth_In. lia.
Qed.

Lemma sparse_blocks_in_range (k : nat) (ids : list Z) (sel : list (list Z)) :
  (ids <> [] -> 0 < W) ->
  Forall (fun i => (0 <= i < Z.of_nat (length adj))%Z) ids ->
  length sel = length ids ->
  Forall (fun r => length r = k) sel ->
  Forall2 (fun r cs => length cs = k /\
             Forall (fun c => (0 <= c < Z.of_nat (length r))%Z) cs)
          (map row ids)
          (map (fun p => map (fun s => Py.np_remainder s (snd p)) (fst p))
               (combine sel (map deg ids))).
Proof.
  intros HW Hids. revert HW sel.
  induction Hids as [|id ids Hid _ IH]; intros HW0 [|r sel] Hlen Hk;
    simpl in *; try discriminate.
  - constructor.
  - assert (HW : 0 < W) by (apply HW0; discriminate).
    inversion Hk as [|? ? Hr Hk']; subst. constructor.
    + split; [now rewrite length_map|].
      apply Forall_forall. intros c Hc. apply in_map_iff in Hc.
      destruct Hc as (s & <- & _).
      apply np_remainder_range.
      * unfold deg. pose proof (neighbors_length_le (row id)). lia.
      * rewrite sparse_row_length by exact Hid. exact HW.
    + apply IH; [intros _; exact HW|congruence|exact Hk'].
Qed.

Lemma sparse_blocks_reindex (ids : list Z) (sel : list (list Z)) :
  length sel = length ids ->
  map (fun p => map (fun c => nth (Z.to_nat c) (fst p) 0%Z) (snd p))
      (combine (map row ids)
               (map (fun p => map (fun s => Py.np_remainder s (snd p)) (fst p))
                    (combine sel (map deg ids))))
  = map (fun p => SparseUniformNeighborSampler.sampled_block adj (fst p) (snd p))
        (combine ids sel).
Proof.
  revert sel. induction ids as [|id ids IH]; intros [|r sel] Hlen;
    simpl in *; try discriminate; try reflexivity.
  rewrite IH by congruence. f_equal.
  unfold SparseUniformNeighborSampler.sampled_block. now rewrite map_map.
Qed.

Lemma size1_rect : adj <> [] -> Py.size1 adj = W.
Proof.
  destruct adj as [|r rest]; [congruence|]. intros _. simpl.
  now inversion adj_rect.
Qed.

(** The selection in closed form: one block per id, computed from the
    draws. *)
Lemma selected_entries_eq (ids : list Z) (n_samples : option Z) :
  Forall (fun i => (0 <= i < Z.of_nat (length adj))%Z) ids ->
  (0 < default 128%Z n_samples)%Z ->
  ids = [] \/ 0 < W ->
  SparseUniformNeighborSampler.selected_entries
    (SparseUniformNeighborSampler.__init__ adj) ids n_samples g
  = Ok (concat
          (map (fun p => SparseUniformNeighborSampler.sampled_block adj (fst p) (snd p))
               (combine ids
                  (choice g (Z.of_nat (Py.size1 adj)) (length ids)
                          (Z.to_nat (default 128%Z n_samples)))))).
Proof.
  intros Hids HK HW.
  unfold SparseUniformNeighborSampler.selected_entries.
  set (K := default 128%Z n_samples) in *.
  destruct (Z.ltb_spec 0 K) as [_|]; [cbn [negb]|lia].
  change (SparseUniformNeighborSampler.adj
            (SparseUniformNeighborSampler.__init__ adj)) with adj.
  rewrite (index_select_in_range [] adj Hids). cbn [bind].
  destruct (g_choice (Z.of_nat (Py.size1 adj)) (length ids) (Z.to_nat K))
    as (Hn & Hk & _).
  set (sel := choice g (Z.of_nat (Py.size1 adj)) (length ids) (Z.to_nat K)) in *.
  assert (HW' : ids <> [] -> 0 < W) by (intros Hne; destruct HW; congruence).
  assert (Hc : SparseUniformNeighborSampler.np_random_choice g
                 (Z.of_nat (Py.size1 adj)) (length ids) (Z.to_nat K) = Ok sel).
  { unfold SparseUniformNeighborSampler.np_random_choice.
    destruct ids as [|id0 ids'].
    - simpl. now rewrite andb_false_r.
    - assert (Hne : adj <> []).
      { inversion Hids as [|? ? H0 _]; subst.
        destruct adj; simpl in *; [lia|congruence]. }
      assert (0 < W) by (apply HW'; discriminate).
      pose proof (size1_rect Hne) as Hsz.
      destruct (Z.leb_spec (Z.of_nat (Py.size1 adj)) 0) as [|_]; [lia|].
      reflexivity. }
  rewrite Hc. cbn [bind].
  assert (Hd : Py.index_select
                 (SparseUniformNeighborSampler.degrees
                    (SparseUniformNeighborSampler.__init__ adj)) ids
               = Ok (map deg ids)).
  { unfold Py.index_select. apply mapM_total. intros id Hid.
    rewrite Forall_forall in Hids. specialize (Hids id Hid).
    rewrite (getitem_in_range 0%Z) by (rewrite degrees_length; exact Hids).
    rewrite degrees_spec by lia. reflexivity. }
  rewrite Hd. cbn [bind].
  rewrite remainder_rows_eq by (rewrite length_map; exact Hn). cbn [bind].
  pose proof (@sparse_blocks_in_range (Z.to_nat K) ids sel HW' Hids Hn Hk)
    as Hrange.
  change (map (fun i => nth (Z.to_nat i) adj []) ids) with (map row ids).
  rewrite <- (length_map row ids) at 1.
  rewrite (getitem_pairs_blocks Hrange).
  rewrite (@sparse_blocks_reindex ids sel Hn). reflexivity.
Qed.

End SparseSampler.

(** Lines 94 to 96 on the selected entries: two or more are returned as
    they are, a single one is read as a size, none is refused. *)
Lemma call_two_or_more (self : SparseUniformNeighborSampler.t) (ids : list Z)
  (n_samples : option Z) (g : RandomState) (l : list Z) :
  SparseUniformNeighborSampler.selected_entries self ids n_samples g = Ok l ->
  2 <= length l ->
  SparseUniformNeighborSampler.__call__ self ids n_samples g
  = Ok (torch.Values l).
Proof.
  intros H Hl. unfold SparseUniformNeighborSampler.__call__. rewrite H.
  cbn [bind]. destruct l as [|a [|b l]]; simpl in Hl; try lia. reflexivity.
Qed.

Lemma call_single (self : SparseUniformNeighborSampler.t) (ids : list Z)
  (n_samples : option Z) (g : RandomState) (v : Z) :
  SparseUniformNeighborSampler.selected_entries self ids n_samples g = Ok [v] ->
  SparseUniformNeighborSampler.__call__ self ids n_samples g
  = if (v <? 0)%Z then Raise RuntimeError
    else Ok (torch.Uninitialized (Z.to_nat v)).
Proof.
  intros H. unfold SparseUniformNeighborSampler.__call__. now rewrite H.
Qed.

Lemma call_empty (self : SparseUniformNeighborSampler.t) (ids : list Z)
  (n_samples : option Z) (g : RandomState) :
  SparseUniformNeighborSampler.selected_entries self ids n_samples g = Ok [] ->
  SparseUniformNeighborSampler.__call__ self ids n_samples g = Raise TypeError.
Proof.
  intros H. unfold SparseUniformNeighborSampler.__call__. now rewrite H.
Qed.

Lemma call_raises (self : SparseUniformNeighborSampler.t) (ids : list Z)
  (n_samples : option Z) (g : RandomState) (e : exn) :
  SparseUniformNeighborSampler.selected_entries self ids n_samples g = Raise e ->
  SparseUniformNeighborSampler.__call__ self ids n_samples g = Raise e.
Proof.
  intros H. unfold SparseUniformNeighborSampler.__call__. now rewrite H.
Qed.

Lemma Forall2_combine_map {A B C : Type} (Q : A -> C -> Prop)
  (f : A * B -> C) (l1 : list A) (l2 : list B) :
  length l2 = length l1 ->
  (forall p, In p (combine l1 l2) -> Q (fst p) (f p)) ->
  Forall2 Q l1 (map f (combine l1 l2)).
Proof.
  revert l2. induction l1 as [|a l1 IH]; intros [|b l2] Hlen HQ;
    simpl in *; try discriminate.
  - constructor.
  - constructor.
    + apply (HQ (a, b)). now left.
    + apply IH; [congruence|]. intros p Hp. apply HQ. now right.
Qed.

Lemma concat_blocks_length {A B : Type} (k : nat) (P : A -> list B -> Prop)
  (l : list A) (blocks : list (list B)) :
  Forall2 (fun a b => length b = k /\ P a b) l blocks ->
  length (concat blocks) = length l * k.
Proof.
  induction 1 as [|a b l blocks [Hk _] _ IH]; simpl.
  - reflexivity.
  - rewrite length_app, IH, Hk. reflexivity.
Qed.

Lemma left_packed_nth (row : list Z) (j : nat) :
  SparseUniformNeighborSampler.left_packed row = true ->
  j < length (SparseUniformNeighborSampler.neighbors row) ->
  In (nth j row 0%Z) (SparseUniformNeighborSampler.neighbors row).
Proof.
  intros Hp Hj. unfold SparseUniformNeighborSampler.left_packed in Hp.
  pose proof (neighbors_length_le row) as Hle.
  unfold SparseUniformNeighborSampler.neighbors in *.
  apply filter_In. split.
  - apply nth_In. lia.
  - rewrite forallb_forall in Hp. apply Hp.
    assert (Hn : nth j (firstn (length (filter SparseUniformNeighborSampler.nonzero row)) row) 0%Z
                 = nth j row 0%Z).
    { rewrite nth_firstn. destruct (Nat.ltb_spec j
        (length (filter SparseUniformNeighborSampler.nonzero row))); [reflexivity|lia]. }
    rewrite <- Hn. apply nth_In. rewrite length_firstn. lia.
Qed.

Lemma no_neighbors_all_zero (row : list Z) (j : nat) :
  length (SparseUniformNeighborSampler.neighbors row) = 0 ->
  nth j row 0%Z = 0%Z.
Proof.
  unfold SparseUniformNeighborSampler.neighbors.
  revert j. induction row as [|x row IH]; intros j H; simpl in *.
  - now destruct j.
  - unfold SparseUniformNeighborSampler.nonzero in H at 1.
    destruct (Z.eqb_spec x 0) as [->|]; simpl in H; [|discriminate].
    destruct j; [reflexivity|]. now apply IH.
Qed.

(** On a sparse edgelist in the documented layout (rows of one width, the
    neighbors of a node in the first columns of its row), for in-range ids
    of degree at least 1 and every positive [K], lines 81 to 93 select
    [len(ids) * K] ids: [K] for every id, in the order of [ids], each of
    them a stored (non-padding) neighbor of that id. *)
Lemma selected_entries_membership
  (adj : list (list Z)) (W : nat) (g : RandomState) (ids : list Z) (K : Z) :
  Forall (fun r => length r = W) adj ->
  Forall (fun r => SparseUniformNeighborSampler.left_packed r = true) adj ->
  choice_ok g ->
  Forall (fun id => (0 <= id < Z.of_nat (length adj))%Z /\
            (1 <= nth (Z.to_nat id)
                      (SparseUniformNeighborSampler.degrees
                         (SparseUniformNeighborSampler.__init__ adj)) 0)%Z) ids ->
  (0 < K)%Z ->
  exists blocks,
    SparseUniformNeighborSampler.selected_entries
      (SparseUniformNeighborSampler.__init__ adj) ids (Some K) g
    = Ok (concat blocks) /\
    length (concat blocks) = length ids * Z.to_nat K /\
    Forall2 (fun id block =>
               length block = Z.to_nat K /\
               Forall (fun v => In v (SparseUniformNeighborSampler.neighbors
                                        (nth (Z.to_nat id) adj []))) block)
            ids blocks.
Proof.
  intros Hrect Hpacked Hg Hids HK.
  assert (Hin : Forall (fun i => (0 <= i < Z.of_nat (length adj))%Z) ids).
  { eapply Forall_impl; [|exact Hids]. now intros id [H _]. }
  assert (Hdeg : forall id, In id ids ->
            0 < length (SparseUniformNeighborSampler.neighbors
                          (nth (Z.to_nat id) adj []))).
  { intros id Hid. rewrite Forall_forall in Hids.
    destruct (Hids id Hid) as [Hr Hd]. rewrite degrees_spec in Hd by lia. lia. }
  assert (HW : ids = [] \/ 0 < W).
  { destruct ids as [|id0 ids']; [now left|right].
    pose proof (Hdeg id0 (or_introl eq_refl)) as H0.
    pose proof (neighbors_length_le (nth (Z.to_nat id0) adj [])) as Hle.
    rewrite Forall_forall in Hrect.
    rewrite (Hrect (nth (Z.to_nat id0) adj [])) in Hle; [lia|].
    apply nth_In. inversion Hin; subst. lia. }
  destruct (Hg (Z.of_nat (Py.size1 adj)) (length ids) (Z.to_nat K))
    as (Hn & Hk & _).
  eexists. split; [apply (selected_entries_eq Hrect Hg (Some K) Hin HK HW)|].
  assert (HF : Forall2 (fun id block =>
               length block = Z.to_nat K /\
               Forall (fun v => In v (SparseUniformNeighborSampler.neighbors
                                        (nth (Z.to_nat id) adj []))) block)
            ids
            (map (fun p => SparseUniformNeighborSampler.sampled_block adj (fst p) (snd p))
               (combine ids (choice g (Z.of_nat (Py.size1 adj)) (length ids)
                               (Z.to_nat (default 128%Z (Some K))))))).
  { apply Forall2_combine_map; [exact Hn|].
    intros [id draws] Hp. simpl.
    pose proof (in_combine_l _ _ _ _ Hp) as Hid.
    pose proof (in_combine_r _ _ _ _ Hp) as Hdr.
    rewrite Forall_forall in Hk. specialize (Hk draws Hdr).
    unfold SparseUniformNeighborSampler.sampled_block. split.
    - now rewrite length_map.
    - apply Forall_forall. intros v Hv. apply in_map_iff in Hv.
      destruct Hv as (s & <- & _).
      specialize (Hdeg id Hid). rewrite Forall_forall in Hpacked, Hin.
      apply left_packed_nth.
      + apply Hpacked. apply nth_In. specialize (Hin id Hid). lia.
      + unfold Py.np_remainder.
        destruct (Z.eqb_spec (Z.of_nat (length (SparseUniformNeighborSampler.neighbors
                    (nth (Z.to_nat id) adj [])))) 0); [lia|].
        pose proof (Z.mod_pos_bound s (Z.of_nat (length
                    (SparseUniformNeighborSampler.neighbors (nth (Z.to_nat id) adj []))))).
        lia. }
  split; [|exact HF].
  eapply concat_blocks_length with
    (P := fun id block => Forall (fun v => In v
            (SparseUniformNeighborSampler.neighbors (nth (Z.to_nat id) adj []))) block).
  exact HF.
Qed.

(** C4, the code at the failing calls.  The selection is converted by
    [np.asarray(tmp).squeeze()] and [torch.LongTensor(tmp)], which return it
    only when it holds two values or more.  For a single id of degree at
    least 1 and [n_samples = 1] the selected neighbor [v] is read as a
    size: the call returns [v] integers that were never written (or fails,
    for a negative [v]), never the one-element tensor of [v].  For an empty
    batch the call raises [TypeError] instead of returning no id. *)
Theorem sparse_sample_single_value_not_returned
  (adj : list (list Z)) (W : nat) (g : RandomState) (id : Z) :
  Forall (fun r => length r = W) adj ->
  Forall (fun r => SparseUniformNeighborSampler.left_packed r = true) adj ->
  choice_ok g ->
  (0 <= id < Z.of_nat (length adj))%Z ->
  (1 <= nth (Z.to_nat id)
            (SparseUniformNeighborSampler.degrees
               (SparseUniformNeighborSampler.__init__ adj)) 0)%Z ->
  (exists v,
     In v (SparseUniformNeighborSampler.neighbors (nth (Z.to_nat id) adj [])) /\
     SparseUniformNeighborSampler.__call__
       (SparseUniformNeighborSampler.__init__ adj) [id] (Some 1%Z) g
     = (if (v <? 0)%Z then Raise RuntimeError
        else Ok (torch.Uninitialized (Z.to_nat v))) /\
     SparseUniformNeighborSampler.__call__
       (SparseUniformNeighborSampler.__init__ adj) [id] (Some 1%Z) g
     <> Ok (torch.Values [v])) /\
  (forall K, (0 < K)%Z ->
     SparseUniformNeighborSampler.__call__
       (SparseUniformNeighborSampler.__init__ adj) [] (Some K) g
     = Raise TypeError).
Proof.
  intros Hrect Hpacked Hg Hid Hdeg. split.
  - destruct (@selected_entries_membership adj W g [id] 1%Z Hrect Hpacked Hg)
      as (blocks & Hsel & _ & HF); [now repeat constructor|lia|].
    inversion HF as [|? block ? rest [Hlen Hmem] Hrest]; subst.
    inversion Hrest; subst.
    destruct block as [|v [|? ?]]; try discriminate.
    inversion Hmem as [|? ? Hv _]; subst.
    exists v. split; [exact Hv|].
    rewrite (call_single _ _ _ _ Hsel).
    split; [reflexivity|]. now destruct (v <? 0)%Z.
  - intros K HK. apply call_empty.
    now rewrite (selected_entries_eq Hrect Hg (Some K) (Forall_nil _) HK
                   (or_introl eq_refl)).
Qed.

Lemma sparse_sample_single_value_not_returned_witness :
  SparseUniformNeighborSampler.__call__
    (SparseUniformNeighborSampler.__init__ [[0; 0; 0]; [5; 7; 9]; [1; 0; 0]]%Z)
    [1]%Z (Some 1%Z) example_stream
  = Ok (torch.Uninitialized 5) /\
  (exists v,
     In v (SparseUniformNeighborSampler.neighbors
             (nth (Z.to_nat 1) [[0; 0; 0]; [5; 7; 9]; [1; 0; 0]]%Z [])) /\
     SparseUniformNeighborSampler.__call__
       (SparseUniformNeighborSampler.__init__ [[0; 0; 0]; [5; 7; 9]; [1; 0; 0]]%Z)
       [1]%Z (Some 1%Z) example_stream
     = (if (v <? 0)%Z then Raise RuntimeError
        else Ok (torch.Uninitialized (Z.to_nat v))) /\
     SparseUniformNeighborSampler.__call__
       (SparseUniformNeighborSampler.__init__ [[0; 0; 0]; [5; 7; 9]; [1; 0; 0]]%Z)
       [1]%Z (Some 1%Z) example_stream
     <> Ok (torch.Values [v])) /\
  (forall K, (0 < K)%Z ->
     SparseUniformNeighborSampler.__call__
       (SparseUniformNeighborSampler.__init__ [[0; 0; 0]; [5; 7; 9]; [1; 0; 0]]%Z)
       [] (Some K) example_stream
     = Raise TypeError).
Proof.
  split; [reflexivity|].
  apply (@sparse_sample_single_value_not_returned
           [[0; 0; 0]; [5; 7; 9]; [1; 0; 0]]%Z 3 example_stream 1%Z).
  - repeat constructor.
  - repeat constructor.
  - exact example_stream_choice.
  - simpl. lia.
  - simpl. lia.
Defined.

(** C1, as the code has it.  The sampler holds no check on degrees.  For
    in-range ids, [n_samples > 0], an adjacency of at least one column and
    a call that selects two values or more, the call raises nothing,
    whether or not some id has degree 0: numpy's remainder by zero is 0, so
    it returns [n_samples] values per id, and every value returned for an
    id of degree 0 is 0, the padding id. *)
Theorem sparse_sample_zero_degree_no_error
  (adj : list (list Z)) (W : nat) (g : RandomState) (ids : list Z) (K : Z) :
  Forall (fun r => length r = W) adj ->
  0 < W ->
  choice_ok g ->
  Forall (fun id => (0 <= id < Z.of_nat (length adj))%Z) ids ->
  (0 < K)%Z ->
  2 <= length ids * Z.to_nat K ->
  exists blocks,
    SparseUniformNeighborSampler.__call__
      (SparseUniformNeighborSampler.__init__ adj) ids (Some K) g
    = Ok (torch.Values (concat blocks)) /\
    length (concat blocks) = length ids * Z.to_nat K /\
    Forall2 (fun id block =>
               length block = Z.to_nat K /\
               (nth (Z.to_nat id)
                    (SparseUniformNeighborSampler.degrees
                       (SparseUniformNeighborSampler.__init__ adj)) 0%Z = 0%Z ->
                Forall (fun v => v = 0%Z) block))
            ids blocks.
Proof.
  intros Hrect HW Hg Hin HK Htwo.
  destruct (Hg (Z.of_nat (Py.size1 adj)) (length ids) (Z.to_nat K))
    as (Hn & Hk & _).
  pose proof (selected_entries_eq Hrect Hg (Some K) Hin HK (or_intror HW)) as Hsel.
  assert (HF : Forall2 (fun id block =>
               length block = Z.to_nat K /\
               (nth (Z.to_nat id)
                    (SparseUniformNeighborSampler.degrees
                       (SparseUniformNeighborSampler.__init__ adj)) 0%Z = 0%Z ->
                Forall (fun v => v = 0%Z) block))
            ids
            (map (fun p => SparseUniformNeighborSampler.sampled_block adj (fst p) (snd p))
               (combine ids (choice g (Z.of_nat (Py.size1 adj)) (length ids)
                               (Z.to_nat (default 128%Z (Some K))))))).
  { apply Forall2_combine_map; [exact Hn|].
    intros [id draws] Hp. cbn [fst snd].
    pose proof (in_combine_l _ _ _ _ Hp) as Hid.
    pose proof (in_combine_r _ _ _ _ Hp) as Hdr.
    rewrite Forall_forall in Hk. specialize (Hk draws Hdr).
    rewrite Forall_forall in Hin. specialize (Hin id Hid).
    unfold SparseUniformNeighborSampler.sampled_block. split.
    - now rewrite length_map.
    - intros Hd. rewrite degrees_spec in Hd by lia.
      apply Forall_forall. intros v Hv. apply in_map_iff in Hv.
      destruct Hv as (s & <- & _). apply no_neighbors_all_zero. lia. }
  pose proof (@concat_blocks_length Z Z (Z.to_nat K)
    (fun id block =>
       nth (Z.to_nat id)
           (SparseUniformNeighborSampler.degrees
              (SparseUniformNeighborSampler.__init__ adj)) 0%Z = 0%Z ->
       Forall (fun v => v = 0%Z) block) _ _ HF) as Hlen.
  eexists. split; [|split; [exact Hlen|exact HF]].
  apply (call_two_or_more _ _ _ _ Hsel). rewrite Hlen. exact Htwo.
Qed.

Lemma sparse_sample_zero_degree_no_error_witness :
  exists blocks,
    SparseUniformNeighborSampler.__call__
      (SparseUniformNeighborSampler.__init__ [[0; 0; 0]; [5; 7; 9]; [1; 0; 0]]%Z)
      [0; 1]%Z (Some 2%Z) example_stream
    = Ok (torch.Values (concat blocks)) /\
    length (concat blocks) = length [0; 1]%Z * Z.to_nat 2 /\
    Forall2 (fun id block =>
               length block = Z.to_nat 2 /\
               (nth (Z.to_nat id)
                    (SparseUniformNeighborSampler.degrees
                       (SparseUniformNeighborSampler.__init__
                          [[0; 0; 0]; [5; 7; 9]; [1; 0; 0]]%Z)) 0%Z = 0%Z ->
                Forall (fun v => v = 0%Z) block))
            [0; 1]%Z blocks.
Proof.
  apply (@sparse_sample_zero_degree_no_error
           [[0; 0; 0]; [5; 7; 9]; [1; 0; 0]]%Z 3 example_stream [0; 1]%Z 2%Z).
  - repeat constructor.
  - lia.
  - exact example_stream_choice.
  - repeat constructor; simpl; lia.
  - lia.
  - simpl. lia.
Defined.

(** C1, the claim refuted: node 0 of this adjacency has degree 0, and
    sampling it twice returns [[0; 0]] instead of raising. *)
Lemma sparse_sample_zero_degree_returns :
  nth 0 (SparseUniformNeighborSampler.degrees
           (SparseUniformNeighborSampler.__init__
              [[0; 0; 0]; [5; 7; 9]; [1; 0; 0]]%Z)) 0%Z = 0%Z /\
  SparseUniformNeighborSampler.__call__
    (SparseUniformNeighborSampler.__init__ [[0; 0; 0]; [5; 7; 9]; [1; 0; 0]]%Z)
    [0]%Z (Some 2%Z) example_stream
  = Ok (torch.Values [0; 0]%Z).
Proof. split; reflexivity. Qed.

Lemma sparse_sample_nonpositive_raises
  (self : SparseUniformNeighborSampler.t) (ids : list Z) (n : Z)
  (g : RandomState) :
  (n <= 0)%Z ->
  SparseUniformNeighborSampler.__call__ self ids (Some n) g
  = Raise (AssertionError
             "SparseUniformNeighborSampler: n_samples must be set explicitly").
Proof.
  intros Hn. apply call_raises.
  unfold SparseUniformNeighborSampler.selected_entries. simpl.
  destruct (Z.ltb_spec 0 n); [lia|reflexivity].
Qed.

(** C3, the code at the failing call.  A non-positive [n_samples] does
    fail the assertion, but a call that leaves [n_samples] out runs with the
    default 128, passes the assertion that asks for an explicit value, and
    returns 128 samples. *)
Theorem sparse_sample_omitted_n_samples_returns :
  (forall self ids n g, (n <= 0)%Z ->
     SparseUniformNeighborSampler.__call__ self ids (Some n) g
     = Raise (AssertionError
                "SparseUniformNeighborSampler: n_samples must be set explicitly")) /\
  (exists out,
     SparseUniformNeighborSampler.__call__
       (SparseUniformNeighborSampler.__init__ [[0; 0; 0]; [5; 7; 9]; [1; 0; 0]]%Z)
       [1]%Z None example_stream = Ok (torch.Values out) /\
     length out = 128 /\
     Forall (fun v => In v [5; 7; 9]%Z) out).
Proof.
  split.
  - intros self ids n g Hn. now apply sparse_sample_nonpositive_raises.
  - eexists. split; [vm_compute; reflexivity|].
    split; [reflexivity|].
    repeat (constructor; [simpl; tauto|]). constructor.
Qed.

(** ** Construction of the aggregators *)

Lemma new_Linear_ok {R : Type} (inf outf : Z) (with_bias : bool)
  (w b : nat -> nat -> R) :
  (0 <= inf)%Z -> (0 <= outf)%Z ->
  nn.new_Linear inf outf with_bias w b
  = Ok {| nn.in_features := Z.to_nat inf;
          nn.out_features := Z.to_nat outf;
          nn.weight := w;
          nn.bias := if with_bias then Some (fun j => b j 0) else None |}.
Proof.
  intros Hi Ho. unfold nn.new_Linear.
  destruct (Z.ltb_spec inf 0); [lia|].
  destruct (Z.ltb_spec outf 0); [lia|].
  reflexivity.
Qed.

Lemma new_Embedding_ok {R : Type} (num dim : Z) (w : nat -> nat -> R) :
  (0 <= num)%Z -> (0 <= dim)%Z ->
  nn.new_Embedding num dim w
  = Ok {| nn.num_embeddings := num;
          nn.embedding_dim := Z.to_nat dim;
          nn.table := w |}.
Proof.
  intros Hn Hd. unfold nn.new_Embedding.
  destruct (Z.ltb_spec num 0); [lia|].
  destruct (Z.ltb_spec dim 0); [lia|].
  reflexivity.
Qed.

Lemma load_output_dim_ (input_dim output_dim : Z) (n_nodes : option Z) :
  Names.load (PSimpleMeanAggregator.init_locals input_dim output_dim n_nodes)
             "output_dim_"%string
  = Raise (NameError "output_dim_").
Proof. reflexivity. Qed.

(** No argument makes the constructor of [PSimpleMeanAggregator] return:
    it stops at the latest when it reads the unbound name [output_dim_]. *)
Lemma psimple_mean_init_never_returns {R : Type} {SR : Scalar R}
  (input_dim output_dim : Z)
  (activation : option (@nn.Tensor R -> @nn.Tensor R)) (n_nodes : option Z)
  (combine_fn : option (list (@nn.Tensor R) -> result (@nn.Tensor R)))
  (theta : state_dict R) :
  is_ok (PSimpleMeanAggregator.__init__ input_dim output_dim activation
           n_nodes combine_fn theta) = false.
Proof.
  unfold PSimpleMeanAggregator.__init__.
  destruct n_nodes as [n|]; [|reflexivity].
  change (Names.load (PSimpleMeanAggregator.init_locals input_dim output_dim (Some n))
            "output_dim"%string) with (Ok (Names.PInt output_dim)).
  change (Names.load (PSimpleMeanAggregator.init_locals input_dim output_dim (Some n))
            "n_nodes"%string) with (Ok (Names.PInt n)).
  change (Names.load (PSimpleMeanAggregator.init_locals input_dim output_dim (Some n))
            "input_dim"%string) with (Ok (Names.PInt input_dim)).
  rewrite load_output_dim_. cbn [bind Names.as_int].
  destruct (nn.new_Embedding (n + 1) 1 (theta "embedding.weight"%string));
    reflexivity.
Qed.

(** C2, the code at the failing call.  With valid sizes the constructor of
    [PSimpleMeanAggregator] raises [NameError] for [output_dim_]; no
    instance exists whose [forward] could run. *)
Theorem psimple_mean_init_name_error :
  PSimpleMeanAggregator.__init__ (R := Z) 2 3 None (Some 4%Z) None
    (fun _ _ _ => 0%Z)
  = Raise (NameError "output_dim_") /\
  (forall (R : Type) (SR : Scalar R) (input_dim output_dim n_nodes : Z)
          activation combine_fn (theta : state_dict R),
     (0 <= n_nodes)%Z ->
     PSimpleMeanAggregator.__init__ input_dim output_dim activation
       (Some n_nodes) combine_fn theta
     = Raise (NameError "output_dim_")).
Proof.
  split; [reflexivity|].
  intros R SR input_dim output_dim n_nodes activation combine_fn theta Hn.
  unfold PSimpleMeanAggregator.__init__.
  change (Names.load (PSimpleMeanAggregator.init_locals input_dim output_dim (Some n_nodes))
            "output_dim"%string) with (Ok (Names.PInt output_dim)).
  change (Names.load (PSimpleMeanAggregator.init_locals input_dim output_dim (Some n_nodes))
            "n_nodes"%string) with (Ok (Names.PInt n_nodes)).
  change (Names.load (PSimpleMeanAggregator.init_locals input_dim output_dim (Some n_nodes))
            "input_dim"%string) with (Ok (Names.PInt input_dim)).
  rewrite load_output_dim_. cbn [bind Names.as_int].
  rewrite new_Embedding_ok by lia. reflexivity.
Qed.

Lemma lstm_init_odd {R : Type} {SR : Scalar R} (input_dim output_dim hidden_dim : Z)
  (activation : option (@nn.Tensor R -> @nn.Tensor R))
  (bidirectional : option bool) (n_nodes : option Z)
  (combine_fn : option (list (@nn.Tensor R) -> result (@nn.Tensor R)))
  (theta : state_dict R) :
  Z.odd hidden_dim = true ->
  LSTMAggregator.__init__ input_dim output_dim activation (Some hidden_dim)
    bidirectional n_nodes combine_fn theta
  = Raise (AssertionError "LSTMAggregator: hiddem_dim % 2 != 0").
Proof.
  intros Hodd. unfold LSTMAggregator.__init__, LSTMAggregator.py_not.
  cbn [default]. rewrite Zmod_odd, Hodd. reflexivity.
Qed.

Lemma lstm_init_even {R : Type} {SR : Scalar R} (input_dim output_dim hidden_dim : Z)
  (activation : option (@nn.Tensor R -> @nn.Tensor R))
  (bidirectional : option bool) (n_nodes : option Z)
  (combine_fn : option (list (@nn.Tensor R) -> result (@nn.Tensor R)))
  (theta : state_dict R) :
  Z.even hidden_dim = true ->
  (0 < input_dim)%Z -> (0 < output_dim)%Z -> (0 < hidden_dim)%Z ->
  exists agg,
    LSTMAggregator.__init__ input_dim output_dim activation (Some hidden_dim)
      bidirectional n_nodes combine_fn theta = Ok agg /\
    nn.bidirectional (LSTMAggregator.lstm agg) = default false bidirectional /\
    nn.hidden_size (LSTMAggregator.lstm agg)
    = (if default false bidirectional then hidden_dim / 2 else hidden_dim)%Z.
Proof.
  intros Heven Hi Ho Hh. unfold LSTMAggregator.__init__, LSTMAggregator.py_not.
  cbn [default]. rewrite Zmod_odd, <- Z.negb_even, Heven. cbn [negb Z.eqb].
  assert (Hdiv : (0 < hidden_dim / (1 + Z.b2z (default false bidirectional)))%Z).
  { pose proof Heven as Hm. apply Z.even_spec in Hm. destruct Hm as [m Hm].
    destruct (default false bidirectional); cbn [Z.b2z].
    - change (1 + 1)%Z with 2%Z. apply Z.div_str_pos. lia.
    - change (1 + 0)%Z with 1%Z. rewrite Z.div_1_r. lia. }
  unfold nn.new_LSTM.
  destruct (Z.leb_spec input_dim 0); [lia|].
  destruct (Z.leb_spec (hidden_dim / (1 + Z.b2z (default false bidirectional))) 0);
    [lia|].
  cbn [orb bind]. rewrite !new_Linear_ok by lia. cbn [bind].
  eexists. split; [reflexivity|]. cbn.
  split; [reflexivity|].
  destruct (default false bidirectional); simpl; [reflexivity|].
  apply Z.div_1_r.
Qed.

(** C10.  The constructor of [LSTMAggregator] fails its assertion for every
    odd [hidden_dim], with either value of [bidirectional] and also when it
    is left out; for every even [hidden_dim] (sizes positive) it returns
    an aggregator whose LSTM has hidden size [hidden_dim] in one direction
    and [hidden_dim / 2] per direction when bidirectional. *)
Theorem lstm_init_parity_check {R : Type} {SR : Scalar R}
  (input_dim output_dim hidden_dim : Z)
  (activation : option (@nn.Tensor R -> @nn.Tensor R))
  (bidirectional : option bool) (n_nodes : option Z)
  (combine_fn : option (list (@nn.Tensor R) -> result (@nn.Tensor R)))
  (theta : state_dict R) :
  (Z.odd hidden_dim = true ->
     LSTMAggregator.__init__ input_dim output_dim activation (Some hidden_dim)
       bidirectional n_nodes combine_fn theta
     = Raise (AssertionError "LSTMAggregator: hiddem_dim % 2 != 0")) /\
  (Z.even hidden_dim = true ->
   (0 < input_dim)%Z -> (0 < output_dim)%Z -> (0 < hidden_dim)%Z ->
     exists agg,
       LSTMAggregator.__init__ input_dim output_dim activation (Some hidden_dim)
         bidirectional n_nodes combine_fn theta = Ok agg /\
       nn.bidirectional (LSTMAggregator.lstm agg) = default false bidirectional /\
       nn.hidden_size (LSTMAggregator.lstm agg)
       = (if default false bidirectional then hidden_dim / 2 else hidden_dim)%Z).
Proof.
  split.
  - now apply lstm_init_odd.
  - intros Heven Hi Ho Hh. now apply lstm_init_even.
Qed.

Lemma lstm_init_parity_check_witness :
  (LSTMAggregator.__init__ (R := Z) 3 2 None (Some 5%Z) (Some false) None None
     (fun _ _ _ => 0%Z)
   = Raise (AssertionError "LSTMAggregator: hiddem_dim % 2 != 0")) /\
  (exists agg,
     LSTMAggregator.__init__ (R := Z) 3 2 None (Some 6%Z) (Some true) None None
       (fun _ _ _ => 0%Z) = Ok agg /\
     nn.bidirectional (LSTMAggregator.lstm agg) = default false (Some true) /\
     nn.hidden_size (LSTMAggregator.lstm agg)
     = (if default false (Some true) then 6 / 2 else 6)%Z).
Proof.
  split.
  - apply (proj1 (@lstm_init_parity_check Z Scalar_Z 3 2 5 None (Some false)
                    None None (fun _ _ _ => 0%Z))).
    reflexivity.
  - apply (proj2 (@lstm_init_parity_check Z Scalar_Z 3 2 6 None (Some true)
                    None None (fun _ _ _ => 0%Z))); [reflexivity|lia|lia|lia].
Defined.

(** ** Shapes through the layers *)

Ltac bind_inv H x :=
  match type of H with
  | bind ?e _ = Ok _ =>
      let E := fresh "E" in
      destruct e as [x|] eqn:E; cbn [bind] in H; [|discriminate H]
  end.

Section LayerShapes.

Context {R : Type} {SR : Scalar R}.

Lemma Linear_row_length (l : @nn.Linear R) (x : list R) :
  length (nn.Linear_row l x) = nn.out_features l.
Proof. unfold nn.Linear_row. now rewrite length_map, length_seq. Qed.

Lemma Linear_forward_ok (l : @nn.Linear R) (t : nn.Tensor) :
  Forall (fun x => length x = nn.in_features l) t ->
  nn.Linear_forward l t = Ok (map (nn.Linear_row l) t).
Proof.
  intros H. unfold nn.Linear_forward.
  replace (forallb (fun x => length x =? nn.in_features l) t) with true;
    [reflexivity|].
  symmetry. apply forallb_forall. intros x Hx. apply Nat.eqb_eq.
  rewrite Forall_forall in H. now apply H.
Qed.

Lemma Linear_forward_shape (n : nat) (l : @nn.Linear R) (t : nn.Tensor) :
  nn.has_shape n (Z.of_nat (nn.in_features l)) t ->
  exists out, nn.Linear_forward l t = Ok out /\
              nn.has_shape n (Z.of_nat (nn.out_features l)) out.
Proof.
  intros [Hn Hw]. exists (map (nn.Linear_row l) t). split.
  - apply Linear_forward_ok. eapply Forall_impl; [|exact Hw].
    intros x Hx. simpl in Hx. lia.
  - split; [now rewrite length_map|].
    apply Forall_forall. intros r Hr. apply in_map_iff in Hr.
    destruct Hr as (x & <- & _). now rewrite Linear_row_length.
Qed.

Lemma new_Linear_inv (inf outf : Z) (wb : bool) (w b : nat -> nat -> R)
  (l : @nn.Linear R) :
  nn.new_Linear inf outf wb w b = Ok l ->
  Z.of_nat (nn.in_features l) = inf /\ Z.of_nat (nn.out_features l) = outf.
Proof.
  unfold nn.new_Linear.
  destruct (Z.ltb_spec inf 0); [discriminate|].
  destruct (Z.ltb_spec outf 0); [discriminate|].
  intros [= <-]. simpl. lia.
Qed.

Lemma new_Embedding_inv (num dim : Z) (w : nat -> nat -> R)
  (e : @nn.Embedding R) :
  nn.new_Embedding num dim w = Ok e ->
  nn.num_embeddings e = num /\ Z.of_nat (nn.embedding_dim e) = dim.
Proof.
  unfold nn.new_Embedding.
  destruct (Z.ltb_spec num 0); [discriminate|].
  destruct (Z.ltb_spec dim 0); [discriminate|].
  intros [= <-]. simpl. lia.
Qed.

Lemma Embedding_forward_ok (e : @nn.Embedding R) (ids : list Z) :
  Forall (fun i => (0 <= i < nn.num_embeddings e)%Z) ids ->
  nn.Embedding_forward e ids = Ok (map (nn.Embedding_row_of e) ids).
Proof.
  intros H. unfold nn.Embedding_forward. apply mapM_total.
  intros i Hi. rewrite Forall_forall in H. specialize (H i Hi).
  unfold nn.Embedding_row.
  destruct (Z.leb_spec (nn.num_embeddings e) 0); [lia|].
  destruct (Z.leb_spec 0 i); [|lia].
  destruct (Z.ltb_spec i (nn.num_embeddings e)); [|lia].
  reflexivity.
Qed.

Lemma Embedding_forward_shape (e : @nn.Embedding R) (ids : list Z) :
  Forall (fun i => (0 <= i < nn.num_embeddings e)%Z) ids ->
  exists out, nn.Embedding_forward e ids = Ok out /\
              nn.has_shape (length ids) (Z.of_nat (nn.embedding_dim e)) out.
Proof.
  intros H. exists (map (nn.Embedding_row_of e) ids).
  split; [now apply Embedding_forward_ok|].
  split; [now rewrite length_map|].
  apply Forall_forall. intros r Hr. apply in_map_iff in Hr.
  destruct Hr as (i & <- & _). unfold nn.Embedding_row_of.
  now rewrite length_map, length_seq.
Qed.

Lemma mean_dim1_shape (x : @nn.Tensor3 R) :
  nn.has_shape (length (nn.blocks x)) (Z.of_nat (nn.size2 x)) (nn.mean_dim1 x).
Proof.
  unfold nn.mean_dim1. split; [now rewrite length_map|].
  apply Forall_forall. intros r Hr. apply in_map_iff in Hr.
  destruct Hr as (b & <- & _). now rewrite length_map, length_seq.
Qed.

Lemma Embedding_forward2_mean_shape (e : @nn.Embedding R) (idss : list (list Z)) :
  Forall (Forall (fun i => (0 <= i < nn.num_embeddings e)%Z)) idss ->
  exists x, nn.Embedding_forward2 e idss = Ok x /\
            nn.has_shape (length idss) (Z.of_nat (nn.embedding_dim e))
                         (nn.mean_dim1 x).
Proof.
  intros H. unfold nn.Embedding_forward2.
  rewrite (@mapM_total _ _ (nn.Embedding_forward e) (map (nn.Embedding_row_of e)) idss).
  - cbn [bind]. eexists. split; [reflexivity|].
    pose proof (mean_dim1_shape
      {| nn.size2 := nn.embedding_dim e;
         nn.blocks := map (map (nn.Embedding_row_of e)) idss |}) as Hs.
    cbn [nn.blocks nn.size2] in Hs. now rewrite length_map in Hs.
  - intros ids Hids. apply Embedding_forward_ok.
    rewrite Forall_forall in H. now apply H.
Qed.

Lemma cat2_ok (a b : @nn.Tensor R) :
  length a = length b ->
  nn.cat2 a b = Ok (map (fun p => fst p ++ snd p) (combine a b)).
Proof.
  intros H. unfold nn.cat2. now rewrite H, Nat.eqb_refl.
Qed.

Lemma cat1_pair_shape (n : nat) (da db : Z) (a b : @nn.Tensor R) :
  nn.has_shape n da a -> nn.has_shape n db b ->
  exists out, nn.cat1 [a; b] = Ok out /\ nn.has_shape n (da + db)%Z out.
Proof.
  intros [Ha Hwa] [Hb Hwb]. unfold nn.cat1. cbn [fold_left bind].
  rewrite cat2_ok by congruence. eexists. split; [reflexivity|]. split.
  - rewrite length_map, length_combine. lia.
  - apply Forall_forall. intros r Hr. apply in_map_iff in Hr.
    destruct Hr as ([x y] & <- & Hp). simpl. rewrite length_app.
    rewrite Forall_forall in Hwa, Hwb.
    specialize (Hwa x (in_combine_l _ _ _ _ Hp)).
    specialize (Hwb y (in_combine_r _ _ _ _ Hp)). lia.
Qed.

Lemma Tanh_shape (n : nat) (d : Z) (t : @nn.Tensor R) :
  nn.has_shape n d t -> nn.has_shape n d (nn.Tanh t).
Proof.
  intros [Hn Hw]. unfold nn.Tanh. split; [now rewrite length_map|].
  apply Forall_forall. intros r Hr. apply in_map_iff in Hr.
  destruct Hr as (x & <- & Hx). rewrite length_map.
  rewrite Forall_forall in Hw. now apply Hw.
Qed.

Lemma slice_to_neg_shape (n : nat) (d k : Z) (t : @nn.Tensor R) :
  (0 < k <= d)%Z ->
  nn.has_shape n d t -> nn.has_shape n (d - k) (map (Py.slice_to (- k)) t).
Proof.
  intros Hk [Hn Hw]. split; [now rewrite length_map|].
  apply Forall_forall. intros r Hr. apply in_map_iff in Hr.
  destruct Hr as (x & <- & Hx). rewrite Forall_forall in Hw.
  specialize (Hw x Hx). unfold Py.slice_to.
  destruct (Z.ltb_spec (- k) 0); [|lia].
  rewrite length_firstn. lia.
Qed.

Lemma long_in_range (lo hi : Z) (t : @nn.Tensor R) :
  Forall (Forall (fun x => (lo <= to_long x < hi)%Z)) t ->
  Forall (Forall (fun i => (lo <= i < hi)%Z)) (nn.long t).
Proof.
  intros H. unfold nn.long. apply Forall_forall. intros r Hr.
  apply in_map_iff in Hr. destruct Hr as (x & <- & Hx).
  rewrite Forall_forall in H. specialize (H x Hx).
  apply Forall_forall. intros i Hi. apply in_map_iff in Hi.
  destruct Hi as (y & <- & Hy). rewrite Forall_forall in H. now apply H.
Qed.

(** The node branch shared by [NodeEmbeddingPrep] and [BagOfWordsPrep]: the
    ids themselves at an inner layer, the sentinel at the outermost one. *)
Lemma node_lookup_shape (e : @nn.Embedding R) (n_nodes : Z) (ids : list Z)
  (layer_idx : Z) :
  nn.num_embeddings e = (n_nodes + 1)%Z ->
  Prep.ids_in_table n_nodes ids layer_idx ->
  exists out,
    (if (0 <? layer_idx)%Z
     then nn.Embedding_forward e ids
     else nn.Embedding_forward e (map (fun _ => (0 + n_nodes)%Z) ids)) = Ok out /\
    nn.has_shape (length ids) (Z.of_nat (nn.embedding_dim e)) out.
Proof.
  intros Hnum [Hn Hids].
  destruct (Z.ltb_spec 0 layer_idx) as [Hl|Hl].
  - apply Embedding_forward_shape. eapply Forall_impl; [|exact (Hids Hl)].
    intros i Hi. simpl in Hi. lia.
  - destruct (@Embedding_forward_shape e (map (fun _ => (0 + n_nodes)%Z) ids))
      as (out & Hout & Hs).
    + apply Forall_forall. intros i Hi. apply in_map_iff in Hi.
      destruct Hi as (? & <- & _). lia.
    + exists out. split; [exact Hout|]. now rewrite length_map in Hs.
Qed.

End LayerShapes.

(** ** Output widths of the preprocessors *)

Section PrepWidths.

Context {R : Type} {SR : Scalar R}.

Variable ids : list Z.
Variable feats : @nn.Tensor R.
Variable layer_idx : Z.

Lemma node_embedding_width (input_dim n_nodes : Z) (embedding_dim : option Z)
  (theta : state_dict R) (p : @NodeEmbeddingPrep.t R) :
  NodeEmbeddingPrep.__init__ input_dim n_nodes embedding_dim theta = Ok p ->
  nn.has_shape (length ids) input_dim feats ->
  Prep.ids_in_table n_nodes ids layer_idx ->
  exists out,
    NodeEmbeddingPrep.forward p ids feats layer_idx = Ok out /\
    nn.has_shape (length ids) (NodeEmbeddingPrep.output_dim p) out.
Proof.
  intros H Hfeats Hids. unfold NodeEmbeddingPrep.__init__ in H.
  bind_inv H a. bind_inv H a0. injection H as <-.
  apply new_Embedding_inv in E. destruct E as [Hnum Hdim].
  apply new_Linear_inv in E0. destruct E0 as [Hin Hout].
  unfold NodeEmbeddingPrep.forward, NodeEmbeddingPrep.output_dim.
  cbn [NodeEmbeddingPrep.embedding NodeEmbeddingPrep.fc NodeEmbeddingPrep.n_nodes
       NodeEmbeddingPrep.input_dim NodeEmbeddingPrep.embedding_dim].
  destruct (@node_lookup_shape R a n_nodes ids layer_idx Hnum Hids) as (embs & -> & Hs). cbn [bind].
  rewrite Hdim, <- Hin in Hs.
  destruct (Linear_forward_shape _ Hs) as (embs' & -> & Hs'). cbn [bind].
  rewrite Hout in Hs'.
  destruct (negb (input_dim =? 0)%Z).
  - now apply cat1_pair_shape.
  - exists embs'. now split.
Qed.

Lemma linear_width (input_dim : Z) (n_nodes output_dim : option Z)
  (theta : state_dict R) (p : @LinearPrep.t R) :
  LinearPrep.__init__ input_dim n_nodes output_dim theta = Ok p ->
  nn.has_shape (length ids) input_dim feats ->
  exists out,
    LinearPrep.forward p ids feats layer_idx = Ok out /\
    nn.has_shape (length ids) (LinearPrep.output_dim p) out.
Proof.
  intros H Hfeats. unfold LinearPrep.__init__ in H.
  bind_inv H a. injection H as <-.
  apply new_Linear_inv in E. destruct E as [Hin Hout].
  unfold LinearPrep.forward. cbn [LinearPrep.fc LinearPrep.output_dim].
  rewrite <- Hin in Hfeats. rewrite <- Hout.
  now apply Linear_forward_shape.
Qed.

Lemma mlp_tanh_shape (l0 l2 : @nn.Linear R) (n : nat) (x : @nn.Tensor R) :
  nn.out_features l0 = nn.in_features l2 ->
  nn.has_shape n (Z.of_nat (nn.in_features l0)) x ->
  exists out,
    (h <- nn.Linear_forward l0 x ;; nn.Linear_forward l2 (nn.Tanh h)) = Ok out /\
    nn.has_shape n (Z.of_nat (nn.out_features l2)) out.
Proof.
  intros Hmid Hx.
  destruct (Linear_forward_shape _ Hx) as (h & -> & Hh). cbn [bind].
  apply Linear_forward_shape. rewrite <- Hmid. now apply Tanh_shape.
Qed.

Lemma nonlinear_width (input_dim : Z) (n_nodes output_dim : option Z)
  (theta : state_dict R) (p : @NonLinearPrep.t R) :
  NonLinearPrep.__init__ input_dim n_nodes output_dim theta = Ok p ->
  nn.has_shape (length ids) input_dim feats ->
  exists out,
    NonLinearPrep.forward p ids feats layer_idx = Ok out /\
    nn.has_shape (length ids) (NonLinearPrep.output_dim p) out.
Proof.
  intros H Hfeats. unfold NonLinearPrep.__init__ in H.
  bind_inv H l0. bind_inv H l2. injection H as <-.
  apply new_Linear_inv in E. destruct E as [Hin Hout].
  apply new_Linear_inv in E0. destruct E0 as [Hin2 Hout2].
  unfold NonLinearPrep.forward, NonLinearPrep.mlp.
  cbn [NonLinearPrep.mlp_0 NonLinearPrep.mlp_2 NonLinearPrep.output_dim].
  rewrite <- Hin in Hfeats. rewrite <- Hout2.
  apply mlp_tanh_shape; [lia|exact Hfeats].
Qed.

Lemma bag_of_words_width (input_dim n_nodes : Z) (output_dim embedding_dim : option Z)
  (theta : state_dict R) (p : @BagOfWordsPrep.t R) :
  BagOfWordsPrep.__init__ input_dim n_nodes output_dim embedding_dim theta = Ok p ->
  length feats = length ids ->
  Prep.ids_in_table n_nodes ids layer_idx ->
  Forall (Forall (fun x => (0 <= to_long x < 15000)%Z)) feats ->
  exists out,
    BagOfWordsPrep.forward p ids feats layer_idx = Ok out /\
    nn.has_shape (length ids) (BagOfWordsPrep.output_dim p) out.
Proof.
  intros H Hlen Hids Htok. unfold BagOfWordsPrep.__init__ in H.
  bind_inv H a. bind_inv H a0. bind_inv H a1. bind_inv H a2. injection H as <-.
  apply new_Embedding_inv in E. destruct E as [Hnum Hdim].
  apply new_Linear_inv in E0. destruct E0 as [Hin Hout].
  apply new_Embedding_inv in E1. destruct E1 as [Hnum1 Hdim1].
  apply new_Linear_inv in E2. destruct E2 as [Hin2 Hout2].
  unfold BagOfWordsPrep.forward.
  cbn [BagOfWordsPrep.node_embedding BagOfWordsPrep.node_fc BagOfWordsPrep.n_nodes
       BagOfWordsPrep.feat_embedding BagOfWordsPrep.feat_fc
       BagOfWordsPrep.output_dim].
  destruct (@node_lookup_shape R a n_nodes ids layer_idx Hnum Hids) as (embs & -> & Hs). cbn [bind].
  rewrite Hdim, <- Hin in Hs.
  destruct (Linear_forward_shape _ Hs) as (node_embs & -> & Hn). cbn [bind].
  destruct (@Embedding_forward2_mean_shape R SR a1 (nn.long feats))
    as (x & -> & Hx).
  { rewrite Hnum1. now apply long_in_range. }
  cbn [bind]. unfold nn.long in Hx at 1. rewrite length_map, Hlen in Hx.
  rewrite Hdim1, <- Hin2 in Hx.
  destruct (Linear_forward_shape _ Hx) as (feat_embs & -> & Hf). cbn [bind].
  rewrite Hout in Hn. rewrite Hout2 in Hf.
  replace (default 32%Z output_dim * 2)%Z
    with (default 32%Z output_dim + default 32%Z output_dim)%Z by lia.
  now apply cat1_pair_shape.
Qed.

Lemma geo_bag_of_words_width (input_dim n_nodes : Z)
  (output_dim embedding_dim : option Z)
  (theta : state_dict R) (p : @GeoBagOfWordsPrep.t R) :
  GeoBagOfWordsPrep.__init__ input_dim n_nodes output_dim embedding_dim theta = Ok p ->
  nn.has_shape (length ids) input_dim feats ->
  Forall (Forall (fun x => (0 <= to_long x < 400000)%Z))
         (map (Py.slice_from (-28)) feats) ->
  exists out,
    GeoBagOfWordsPrep.forward p ids feats layer_idx = Ok out /\
    nn.has_shape (length ids) (GeoBagOfWordsPrep.output_dim p) out.
Proof.
  intros H Hfeats Htok. unfold GeoBagOfWordsPrep.__init__ in H.
  bind_inv H a. bind_inv H lc. bind_inv H l0. bind_inv H l1. bind_inv H l2. injection H as <-.
  apply new_Embedding_inv in E. destruct E as [Hnum Hdim].
  apply new_Linear_inv in E0. destruct E0 as [Hin Hout].
  apply new_Linear_inv in E1. destruct E1 as [Hin1 Hout1].
  apply new_Linear_inv in E2. destruct E2 as [Hin2 Hout2].
  apply new_Linear_inv in E3. destruct E3 as [Hin3 Hout3].
  unfold GeoBagOfWordsPrep.forward, GeoBagOfWordsPrep.con_feat_mlp.
  cbn [GeoBagOfWordsPrep.cat_feat_embedding GeoBagOfWordsPrep.cat_feat_fc
       GeoBagOfWordsPrep.n_cat GeoBagOfWordsPrep.con_feat_mlp_0
       GeoBagOfWordsPrep.con_feat_mlp_2 GeoBagOfWordsPrep.fc
       GeoBagOfWordsPrep.output_dim].
  change (Z.opp 28) with (-28)%Z.
  assert (Hcon : nn.has_shape (length ids) (Z.of_nat (nn.in_features l0))
                   (map (Py.slice_to (-28)) feats)).
  { rewrite Hin1. apply (@slice_to_neg_shape R (length ids) input_dim 28);
      [lia|exact Hfeats]. }
  destruct (@mlp_tanh_shape l0 l1 _ _ ltac:(lia) Hcon) as (con & -> & Hc).
  cbn [bind].
  destruct (@Embedding_forward2_mean_shape R SR a
              (nn.long (map (Py.slice_from (-28)) feats)))
    as (x & -> & Hx).
  { rewrite Hnum. now apply long_in_range. }
  cbn [bind]. unfold nn.long in Hx at 1. rewrite !length_map in Hx.
  destruct Hfeats as [Hlen _]. rewrite Hlen in Hx.
  rewrite Hdim, <- Hin in Hx.
  destruct (Linear_forward_shape _ Hx) as (cat & -> & Hcat). cbn [bind].
  rewrite Hout in Hcat. rewrite Hout2 in Hc.
  destruct (cat1_pair_shape Hcat Hc) as (out & -> & Ho). cbn [bind].
  replace (default 16%Z output_dim + default 16%Z output_dim)%Z
    with (Z.of_nat (nn.in_features l2)) in Ho by lia.
  rewrite <- Hout3. now apply Linear_forward_shape.
Qed.

End PrepWidths.

(** C7.  Every preprocessor of the family, constructed from its
    configuration, maps a valid batch (one feature row of width
    [input_dim] per id) to one row per id whose width is the [output_dim]
    the instance declares. *)
Theorem prep_forward_width {R : Type} {SR : Scalar R}
  (c : Prep.config) (theta : state_dict R) (p : @Prep.t R)
  (ids : list Z) (feats : @nn.Tensor R) (layer_idx : Z) :
  Prep.new c theta = Ok p ->
  Prep.valid_batch c ids feats layer_idx ->
  exists out,
    Prep.forward p ids feats layer_idx = Ok out /\
    length out = length ids /\
    Forall (fun r => Z.of_nat (length r) = Prep.output_dim p) out.
Proof.
  intros Hnew (Hlen & Hw & Hc).
  assert (Hfeats : nn.has_shape (length ids) (Prep.input_dim_of c) feats)
    by (split; assumption).
  destruct c; cbn [Prep.new Prep.input_dim_of] in *.
  - injection Hnew as <-. exists feats. split; [reflexivity|]. exact Hfeats.
  - bind_inv Hnew q. injection Hnew as <-.
    eapply node_embedding_width; eauto.
  - bind_inv Hnew q. injection Hnew as <-.
    eapply linear_width; eauto.
  - bind_inv Hnew q. injection Hnew as <-.
    eapply nonlinear_width; eauto.
  - bind_inv Hnew q. injection Hnew as <-. destruct Hc as [Hids Htok].
    eapply bag_of_words_width; eauto.
  - bind_inv Hnew q. injection Hnew as <-.
    eapply geo_bag_of_words_width; eauto.
Qed.

Lemma prep_forward_width_witness :
  exists p,
    Prep.new (R := Z) (Prep.node_embedding 2 3 (Some 2%Z))
             (fun _ i j => Z.of_nat (i + j)) = Ok p /\
    exists out,
      Prep.forward p [0; 3]%Z [[1; 2]; [3; 4]]%Z 1%Z = Ok out /\
      length out = length [0; 3]%Z /\
      Forall (fun r => Z.of_nat (length r) = Prep.output_dim p) out.
Proof.
  eexists. split; [reflexivity|].
  apply (@prep_forward_width Z Scalar_Z (Prep.node_embedding 2 3 (Some 2%Z))
           (fun _ i j => Z.of_nat (i + j)) _ [0; 3]%Z [[1; 2]; [3; 4]]%Z 1%Z
           eq_refl).
  split; [reflexivity|]. split; [repeat constructor|].
  split; [lia|]. intros _. repeat constructor; lia.
Defined.

(** ** The sentinel rule of [NodeEmbeddingPrep] *)

Lemma mapM_constant {A B : Type} (f : A -> result B) (c : B) (l : list A)
  (out : list B) :
  (forall x y, f x = Ok y -> y = c) ->
  mapM f l = Ok out -> out = repeat c (length l).
Proof.
  intros Hc. revert out. induction l as [|x xs IH]; intros out; simpl.
  - now intros [= <-].
  - destruct (f x) as [y|e] eqn:E; cbn [bind]; [|discriminate].
    destruct (mapM f xs) as [ys|e]; cbn [bind]; [|discriminate].
    intros [= <-]. rewrite (Hc x y E), (IH ys eq_refl). reflexivity.
Qed.

Section Sentinel.

Context {R : Type} {SR : Scalar R}.

(** At the outermost layer the ids are replaced by the sentinel before the
    table is read: only the number of ids reaches the output. *)
Lemma node_embedding_layer0 (p : @NodeEmbeddingPrep.t R) (feats : @nn.Tensor R)
  (ids1 ids2 : list Z) :
  length ids1 = length ids2 ->
  NodeEmbeddingPrep.forward p ids1 feats 0 = NodeEmbeddingPrep.forward p ids2 feats 0.
Proof.
  intros Hlen. unfold NodeEmbeddingPrep.forward. cbn [Z.ltb Z.compare].
  replace (map (fun _ => (0 + NodeEmbeddingPrep.n_nodes p)%Z) ids2)
    with (map (fun _ : Z => (0 + NodeEmbeddingPrep.n_nodes p)%Z) ids1);
    [reflexivity|].
  revert ids2 Hlen. induction ids1 as [|i ids1 IH]; intros [|j ids2] Hlen;
    simpl in *; try discriminate; [reflexivity|].
  f_equal. apply IH. congruence.
Qed.

(** At an inner layer the row of an id is the affine image of its own
    table row: two ids with different images give different outputs. *)
Lemma node_embedding_inner_layer (input_dim n_nodes : Z) (embedding_dim : option Z)
  (theta : state_dict R) (p : @NodeEmbeddingPrep.t R) (feats : @nn.Tensor R)
  (layer_idx a b : Z) :
  NodeEmbeddingPrep.__init__ input_dim n_nodes embedding_dim theta = Ok p ->
  (1 <= layer_idx)%Z ->
  (0 <= a <= n_nodes)%Z -> (0 <= b <= n_nodes)%Z ->
  length feats = 1 ->
  nn.Linear_row (NodeEmbeddingPrep.fc p)
                (nn.Embedding_row_of (NodeEmbeddingPrep.embedding p) a)
  <> nn.Linear_row (NodeEmbeddingPrep.fc p)
                   (nn.Embedding_row_of (NodeEmbeddingPrep.embedding p) b) ->
  exists o1 o2,
    NodeEmbeddingPrep.forward p [a] feats layer_idx = Ok o1 /\
    NodeEmbeddingPrep.forward p [b] feats layer_idx = Ok o2 /\
    o1 <> o2.
Proof.
  intros H Hl Ha Hb Hfeats Hne. unfold NodeEmbeddingPrep.__init__ in H.
  bind_inv H e. bind_inv H f. injection H as <-.
  apply new_Embedding_inv in E. destruct E as [Hnum Hdim].
  apply new_Linear_inv in E0. destruct E0 as [Hin Hout].
  cbn [NodeEmbeddingPrep.embedding NodeEmbeddingPrep.fc] in Hne.
  unfold NodeEmbeddingPrep.forward.
  cbn [NodeEmbeddingPrep.embedding NodeEmbeddingPrep.fc NodeEmbeddingPrep.n_nodes
       NodeEmbeddingPrep.input_dim].
  destruct (Z.ltb_spec 0 layer_idx) as [_|]; [|lia].
  rewrite !Embedding_forward_ok by (repeat constructor; lia).
  cbn [map bind].
  assert (Hrow : forall i, length (nn.Embedding_row_of e i) = nn.in_features f).
  { intros i. unfold nn.Embedding_row_of. rewrite length_map, length_seq. lia. }
  rewrite !Linear_forward_ok by (repeat constructor; apply Hrow).
  cbn [map bind].
  destruct feats as [|x [|? ?]]; try discriminate.
  destruct (negb (input_dim =? 0)%Z).
  - unfold nn.cat1. cbn [fold_left bind]. rewrite !cat2_ok by reflexivity.
    cbn [combine map fst snd].
    eexists. eexists. split; [reflexivity|]. split; [reflexivity|].
    intros [= Heq]. apply app_inv_head in Heq. contradiction.
  - eexists. eexists. split; [reflexivity|]. split; [reflexivity|].
    intros [= Heq]. contradiction.
Qed.

End Sentinel.




(** ** Order of the neighbors *)

#[export] Instance ScalarLaws_Z : @ScalarLaws Z Scalar_Z.
Proof.
  split; simpl; intros; lia.
Qed.

Lemma firstn_skipn_block {A : Type} (b r : list A) :
  firstn (length b) (b ++ r) = b /\ skipn (length b) (b ++ r) = r.
Proof.
  split.
  - rewrite firstn_app, firstn_all, Nat.sub_diag. simpl. apply app_nil_r.
  - rewrite skipn_app, skipn_all, Nat.sub_diag. reflexivity.
Qed.

Lemma chunk_concat {A : Type} (k : nat) (bs : list (list A)) :
  Forall (fun b => length b = k) bs ->
  nn.chunk (length bs) k (concat bs) = bs.
Proof.
  induction 1 as [|b bs Hb _ IH]; simpl.
  - reflexivity.
  - subst k. destruct (firstn_skipn_block b (concat bs)) as [-> ->].
    now rewrite IH.
Qed.

Lemma concat_length_blocks {A : Type} (k : nat) (bs : list (list A)) :
  Forall (fun b => length b = k) bs -> length (concat bs) = length bs * k.
Proof.
  induction 1 as [|b bs Hb _ IH]; simpl; [reflexivity|].
  rewrite length_app, IH, Hb. reflexivity.
Qed.

Lemma size1_concat {A : Type} (k d : nat) (bs : list (list (list A))) :
  0 < k -> bs <> [] ->
  Forall (fun b => length b = k) bs ->
  Forall (Forall (fun r => length r = d)) bs ->
  Py.size1 (concat bs) = d.
Proof.
  intros Hk Hne Hlen Hw. destruct bs as [|b bs]; [congruence|].
  inversion Hlen as [|? ? Hb _]; subst. inversion Hw as [|? ? Hr _]; subst.
  destruct b as [|r b]; simpl in *; [lia|]. now inversion Hr.
Qed.

Lemma Forall2_perm_shape {A : Type} (P : A -> Prop) (k : nat)
  (bs bs' : list (list A)) :
  Forall2 (@Permutation A) bs bs' ->
  (length bs' = length bs) /\
  (Forall (fun b => length b = k) bs -> Forall (fun b => length b = k) bs') /\
  (Forall (Forall P) bs -> Forall (Forall P) bs').
Proof.
  induction 1 as [|b b' bs bs' Hp _ (IH1 & IH2 & IH3)].
  - repeat split; auto.
  - repeat split.
    + simpl. congruence.
    + intros H. inversion H; subst. constructor; [|now apply IH2].
      symmetry. now apply Permutation_length.
    + intros H. inversion H as [|? ? Hb Hbs]; subst. constructor; [|now apply IH3].
      rewrite Forall_forall in *. intros x Hx. apply Hb.
      eapply Permutation_in; [symmetry; exact Hp|exact Hx].
Qed.

Lemma Forall2_perm_concat {A : Type} (bs bs' : list (list A)) :
  Forall2 (@Permutation A) bs bs' -> Permutation (concat bs) (concat bs').
Proof.
  induction 1; simpl; [constructor|]. now apply Permutation_app.
Qed.

Lemma Forall2_perm_map {A B : Type} (f : A -> B) (bs bs' : list (list A)) :
  Forall2 (@Permutation A) bs bs' ->
  Forall2 (@Permutation B) (map (map f) bs) (map (map f) bs').
Proof.
  induction 1; simpl; constructor; [now apply Permutation_map|assumption].
Qed.

Lemma Forall2_perm_one {A : Type} (pre post : list (list A)) (blk blk' : list A) :
  Permutation blk blk' ->
  Forall2 (@Permutation A) (pre ++ blk :: post) (pre ++ blk' :: post).
Proof.
  intros Hp. apply Forall2_app; [|constructor; [exact Hp|]].
  - induction pre; constructor; auto.
  - induction post; constructor; auto.
Qed.

Lemma forallb_perm {A : Type} (f : A -> bool) (l l' : list A) :
  Permutation l l' -> forallb f l = forallb f l'.
Proof.
  induction 1; simpl; try congruence.
  now rewrite !andb_assoc, (andb_comm (f y) (f x)).
Qed.

Section OrderInvariance.

Context {R : Type} {SR : Scalar R} {SL : @ScalarLaws R SR}.

Lemma sum_perm (l l' : list R) : Permutation l l' -> nn.sum l = nn.sum l'.
Proof.
  unfold nn.sum. induction 1; simpl; try congruence.
  now rewrite !add_assoc, (add_comm y x).
Qed.

Lemma reduce_perm (l l' : list R) :
  Permutation l l' -> nn.reduce maxr l = nn.reduce maxr l'.
Proof.
  induction 1 as [|x l l' _ IH|x y l|l l' l'' _ IH1 _ IH2]; simpl.
  - reflexivity.
  - now rewrite IH.
  - destruct (nn.reduce maxr l) as [z|].
    + now rewrite !maxr_assoc, (maxr_comm y x).
    + now rewrite maxr_comm.
  - congruence.
Qed.

Lemma column_perm (j : nat) (b b' : list (list R)) :
  Permutation b b' -> Permutation (nn.column j b) (nn.column j b').
Proof. intros H. unfold nn.column. now apply Permutation_map. Qed.

Lemma mean_dim1_perm (d : nat) (bs bs' : list (list (list R))) :
  Forall2 (@Permutation (list R)) bs bs' ->
  nn.mean_dim1 {| nn.size2 := d; nn.blocks := bs |}
  = nn.mean_dim1 {| nn.size2 := d; nn.blocks := bs' |}.
Proof.
  unfold nn.mean_dim1. cbn [nn.size2 nn.blocks].
  induction 1 as [|b b' bs bs' Hp _ IH]; simpl; [reflexivity|].
  rewrite IH. f_equal. apply map_ext. intros j.
  now rewrite (sum_perm (column_perm j Hp)), (Permutation_length Hp).
Qed.

Lemma max_dim1_perm (d : nat) (bs bs' : list (list (list R))) :
  Forall2 (@Permutation (list R)) bs bs' ->
  nn.max_dim1 {| nn.size2 := d; nn.blocks := bs |}
  = nn.max_dim1 {| nn.size2 := d; nn.blocks := bs' |}.
Proof.
  unfold nn.max_dim1. cbn [nn.size2 nn.blocks].
  induction 1 as [|b b' bs bs' Hp _ IH]; simpl; [reflexivity|].
  rewrite IH. f_equal. apply mapM_ext_in. intros j _.
  now rewrite (reduce_perm (column_perm j Hp)).
Qed.

(** [view] of [b] groups of [k >= 1] rows of width [d] recovers the groups. *)
Lemma view3_concat (k d : nat) (bs : list (list (list R))) :
  0 < k -> bs <> [] ->
  Forall (fun b => length b = k) bs ->
  Forall (Forall (fun r => length r = d)) bs ->
  nn.view3 (length bs) (concat bs)
  = if d =? 0 then Raise RuntimeError
    else Ok {| nn.size2 := d; nn.blocks := bs |}.
Proof.
  intros Hk Hne Hlen Hw. unfold nn.view3.
  rewrite (size1_concat Hk Hne Hlen Hw), (concat_length_blocks Hlen).
  rewrite (Nat.mul_comm (length bs) k).
  assert (HB : 0 < length bs) by (destruct bs; simpl; [congruence|lia]).
  destruct (Nat.eqb_spec (length bs) 0); [lia|].
  destruct (Nat.eqb_spec (k * length bs) 0); [nia|].
  destruct (Nat.eqb_spec d 0); [reflexivity|].
  rewrite Nat.Div0.mod_mul, Nat.eqb_refl. cbn [orb negb].
  rewrite Nat.div_mul by lia.
  now rewrite (chunk_concat Hlen).
Qed.

Variable node_feats : @nn.Tensor R.
Variables bs bs' : list (list (list R)).
Variables k d : nat.
Variables node_ids neib_ids : list Z.

Hypothesis blocks_perm : Forall2 (@Permutation (list R)) bs bs'.
Hypothesis batch : length node_feats = length bs.
Hypothesis nonempty : bs <> [].
Hypothesis k_pos : 0 < k.
Hypothesis blocks_k : Forall (fun b => length b = k) bs.
Hypothesis blocks_d : Forall (Forall (fun r => length r = d)) bs.

Lemma view3_perm :
  exists d0,
    nn.view3 (length node_feats) (concat bs)
    = (if d =? 0 then Raise RuntimeError
       else Ok {| nn.size2 := d0; nn.blocks := bs |}) /\
    nn.view3 (length node_feats) (concat bs')
    = (if d =? 0 then Raise RuntimeError
       else Ok {| nn.size2 := d0; nn.blocks := bs' |}).
Proof.
  destruct (Forall2_perm_shape (fun r => length r = d) k blocks_perm)
    as (Hl & Hk' & Hd').
  exists d. split.
  - rewrite batch. now apply view3_concat with (k := k).
  - rewrite batch, <- Hl. apply view3_concat with (k := k); auto.
    intros ->. destruct bs; simpl in *; [congruence|discriminate].
Qed.

Lemma mean_forward_perm (agg : @MeanAggregator.t R) :
  MeanAggregator.forward agg node_feats (concat bs) node_ids neib_ids
  = MeanAggregator.forward agg node_feats (concat bs') node_ids neib_ids.
Proof.
  unfold MeanAggregator.forward.
  destruct view3_perm as (d0 & -> & ->).
  destruct (d =? 0); [reflexivity|]. cbn [bind].
  now rewrite (mean_dim1_perm d0 blocks_perm).
Qed.

End OrderInvariance.

Section PoolInvariance.

Context {R : Type} {SR : Scalar R} {SL : @ScalarLaws R SR}.

Variable node_feats : @nn.Tensor R.
Variables bs bs' : list (list (list R)).
Variables k d : nat.
Variables node_ids neib_ids : list Z.

Hypothesis blocks_perm : Forall2 (@Permutation (list R)) bs bs'.
Hypothesis batch : length node_feats = length bs.
Hypothesis nonempty : bs <> [].
Hypothesis k_pos : 0 < k.
Hypothesis blocks_k : Forall (fun b => length b = k) bs.

(** A pooling aggregator whose reduction does not look at the order within
    a block returns the same result for both orders. *)
Lemma pool_forward_perm (agg : @PoolAggregator.t R) :
  (forall d0 cs cs', Forall2 (@Permutation (list R)) cs cs' ->
     PoolAggregator.pool_fn agg {| nn.size2 := d0; nn.blocks := cs |}
     = PoolAggregator.pool_fn agg {| nn.size2 := d0; nn.blocks := cs' |}) ->
  PoolAggregator.forward agg node_feats (concat bs) node_ids neib_ids
  = PoolAggregator.forward agg node_feats (concat bs') node_ids neib_ids.
Proof.
  intros Hpool. unfold PoolAggregator.forward, PoolAggregator.mlp, nn.Linear_forward.
  rewrite (forallb_perm _ (Forall2_perm_concat blocks_perm)).
  destruct (forallb _ (concat bs')); [|reflexivity]. cbn [bind].
  set (l := PoolAggregator.mlp_0 agg).
  set (f := fun x => map (maxr zero) (nn.Linear_row l x)).
  assert (Hh : forall t, nn.ReLU (map (nn.Linear_row l) t) = map f t).
  { intros t. unfold nn.ReLU. now rewrite map_map. }
  rewrite !Hh, !concat_map.
  assert (Hk' : Forall (fun b => length b = k) (map (map f) bs)).
  { apply Forall_forall. intros b Hb. apply in_map_iff in Hb.
    destruct Hb as (b0 & <- & Hb0). rewrite length_map.
    rewrite Forall_forall in blocks_k. now apply blocks_k. }
  assert (Hd' : Forall (Forall (fun r => length r = nn.out_features l))
                       (map (map f) bs)).
  { apply Forall_forall. intros b Hb. apply in_map_iff in Hb.
    destruct Hb as (b0 & <- & _). apply Forall_forall. intros r Hr.
    apply in_map_iff in Hr. destruct Hr as (x & <- & _). unfold f.
    now rewrite length_map, Linear_row_length. }
  destruct (@view3_perm R node_feats (map (map f) bs) (map (map f) bs') k
              (nn.out_features l) (Forall2_perm_map f blocks_perm))
    as (d0 & -> & ->); auto.
  - now rewrite length_map.
  - intros Hnil. apply nonempty. destruct bs; [reflexivity|discriminate].
  - destruct (nn.out_features l =? 0); [reflexivity|]. cbn [bind].
    now rewrite (Hpool d0 _ _ (Forall2_perm_map f blocks_perm)).
Qed.

End PoolInvariance.



(** * Further properties of the samplers *)

Lemma getitem_raises_index_error {A : Type} (l : list A) (i : Z) (e : exn) :
  Py.getitem l i = Raise e -> e = IndexError.
Proof.
  unfold Py.getitem, Py.norm_index.
  destruct ((0 <=? i)%Z && (i <? Z.of_nat (length l))%Z); cbn [bind].
  - destruct (nth_error l (Z.to_nat i)); [discriminate|now intros [= <-]].
  - destruct ((- Z.of_nat (length l) <=? i)%Z && (i <? 0)%Z); cbn [bind].
    + destruct (nth_error l (Z.to_nat (i + Z.of_nat (length l))));
        [discriminate|now intros [= <-]].
    + now intros [= <-].
Qed.

Lemma getitem_out_of_range {A : Type} (l : list A) (i : Z) :
  (i < - Z.of_nat (length l) \/ Z.of_nat (length l) <= i)%Z ->
  Py.getitem l i = Raise IndexError.
Proof.
  intros H. unfold Py.getitem, Py.norm_index.
  destruct (Z.leb_spec 0 i); destruct (Z.ltb_spec i (Z.of_nat (length l)));
    destruct (Z.leb_spec (- Z.of_nat (length l)) i); destruct (Z.ltb_spec i 0);
    cbn [andb bind]; try lia; reflexivity.
Qed.

(** A comprehension whose element function can only raise [e0] raises [e0]
    as soon as one element raises. *)
Lemma mapM_raises {A B : Type} (f : A -> result B) (e0 : exn) (l : list A) :
  (forall x e, f x = Raise e -> e = e0) ->
  Exists (fun x => exists e, f x = Raise e) l ->
  mapM f l = Raise e0.
Proof.
  intros He. induction l as [|x xs IH]; intros Hex.
  - inversion Hex.
  - simpl. destruct (f x) as [y|e] eqn:E; cbn [bind].
    + inversion Hex as [? ? [e' He']|? ? Hxs]; subst; [congruence|].
      now rewrite (IH Hxs).
    + now rewrite (He x e E).
Qed.

Lemma index_select_out_of_range {A : Type} (t : list A) (ids : list Z) :
  Exists (fun i => (i < - Z.of_nat (length t) \/ Z.of_nat (length t) <= i)%Z) ids ->
  Py.index_select t ids = Raise IndexError.
Proof.
  intros H. unfold Py.index_select. apply mapM_raises.
  - intros x e. apply getitem_raises_index_error.
  - eapply Exists_impl; [|exact H]. intros i Hi. exists IndexError.
    now apply getitem_out_of_range.
Qed.

(** X1.  The dense sampler reads the row of every id before anything else:
    a batch with an id outside [-N, N), N the number of rows, raises
    [IndexError] whatever [n_samples] and the random stream are. *)
Theorem dense_sample_id_out_of_range
  (adj : list (list Z)) (ids : list Z) (n_samples : option Z) (g : RandomState) :
  Exists (fun i => (i < - Z.of_nat (length adj) \/ Z.of_nat (length adj) <= i)%Z) ids ->
  UniformNeighborSampler.__call__ (UniformNeighborSampler.__init__ adj)
    ids n_samples g = Raise IndexError.
Proof.
  intros H. unfold UniformNeighborSampler.__call__.
  change (UniformNeighborSampler.adj (UniformNeighborSampler.__init__ adj)) with adj.
  now rewrite (index_select_out_of_range adj H).
Qed.

Lemma dense_sample_id_out_of_range_witness :
  UniformNeighborSampler.__call__
    (UniformNeighborSampler.__init__ [[1; 2; 3]; [0; 2; 3]; [0; 1; 3]; [0; 1; 2]]%Z)
    [0; 4]%Z (Some 2%Z) example_stream = Raise IndexError.
Proof.
  apply dense_sample_id_out_of_range.
  apply Exists_cons_tl, Exists_cons_hd. simpl. lia.
Defined.

Lemma nth_map_slice (n : Z) (prow : Z -> list Z) (ids : list Z) (i : nat) (id : Z) :
  nth_error ids i = Some id ->
  nth i (map (fun id0 => Py.slice_to n (prow id0)) ids) [] = Py.slice_to n (prow id).
Proof.
  intros Hi.
  rewrite (nth_indep _ [] (Py.slice_to n (prow 0%Z))).
  - rewrite (map_nth (fun id0 => Py.slice_to n (prow id0))).
    now rewrite (nth_error_nth _ _ 0%Z Hi).
  - rewrite length_map. apply nth_error_Some. congruence.
Qed.

(** X2.  The dense sampler never rejects [n_samples]: a negative value
    [-j] cuts the last [j] columns off the permuted rows, leaving
    [max(0, W - j)] ids per node, and 0 leaves rows without any id. *)
Theorem dense_sample_nonpositive_n_samples
  (adj : list (list Z)) (W : nat) (g : RandomState) (ids : list Z) (n : Z) :
  Forall (fun r => length r = W) adj ->
  randperm_ok g ->
  Forall (fun i => (0 <= i < Z.of_nat (length adj))%Z) ids ->
  (n <= 0)%Z ->
  exists out,
    UniformNeighborSampler.__call__ (UniformNeighborSampler.__init__ adj)
      ids (Some n) g = Ok out /\
    length out = length ids /\
    forall i id, nth_error ids i = Some id ->
      ((n < 0)%Z ->
         nth i out [] = firstn (Z.to_nat (Z.of_nat W + n))
                          (UniformNeighborSampler.permuted_row adj g W id) /\
         length (nth i out []) = Z.to_nat (Z.of_nat W + n)) /\
      (n = 0%Z -> nth i out [] = []).
Proof.
  intros Hrect Hperm Hids Hn.
  eexists. split; [apply (dense_call_eq Hrect Hperm (Some n) Hids)|].
  split; [apply length_map|].
  intros i id Hi. cbn [default].
  rewrite (@nth_map_slice n (UniformNeighborSampler.permuted_row adj g W) ids i id Hi).
  unfold Py.slice_to. rewrite (@permuted_row_length adj W g Hperm). split.
  - intros Hneg. destruct (Z.ltb_spec n 0); [|lia].
    replace (Z.to_nat (Z.max 0 (Z.of_nat W + n))) with (Z.to_nat (Z.of_nat W + n))
      by lia.
    split; [reflexivity|].
    rewrite length_firstn, (@permuted_row_length adj W g Hperm). lia.
  - intros ->. cbn [Z.ltb Z.compare].
    replace (Z.to_nat (Z.min 0 (Z.of_nat W))) with 0 by lia. reflexivity.
Qed.

Lemma dense_sample_nonpositive_n_samples_witness :
  exists out,
    UniformNeighborSampler.__call__
      (UniformNeighborSampler.__init__ [[1; 2; 3]; [0; 2; 3]; [0; 1; 3]; [0; 1; 2]]%Z)
      [0; 2]%Z (Some (-2)%Z) example_stream = Ok out /\
    length out = length [0; 2]%Z /\
    forall i id, nth_error [0; 2]%Z i = Some id ->
      ((-2 < 0)%Z ->
         nth i out [] = firstn (Z.to_nat (Z.of_nat 3 + -2))
                          (UniformNeighborSampler.permuted_row
                             [[1; 2; 3]; [0; 2; 3]; [0; 1; 3]; [0; 1; 2]]%Z
                             example_stream 3 id) /\
         length (nth i out []) = Z.to_nat (Z.of_nat 3 + -2)) /\
      ((-2)%Z = 0%Z -> nth i out [] = []).
Proof.
  apply (@dense_sample_nonpositive_n_samples
           [[1; 2; 3]; [0; 2; 3]; [0; 1; 3]; [0; 1; 2]]%Z 3 example_stream
           [0; 2]%Z (-2)%Z).
  - repeat constructor.
  - exact example_stream_perm.
  - repeat constructor; simpl; lia.
  - lia.
Defined.

Lemma map_nth_seq_id {A : Type} (d : A) (l : list A) :
  map (fun c => nth c l d) (seq 0 (length l)) = l.
Proof.
  apply (nth_ext _ _ d d).
  - now rewrite length_map, length_seq.
  - intros n Hn. rewrite length_map, length_seq in Hn.
    rewrite (nth_indep _ d (nth 0 l d)) by now rewrite length_map, length_seq.
    rewrite (map_nth (fun c => nth c l d)). now rewrite seq_nth.
Qed.

(** X3.  When [n_samples] is at least the row width, every returned row is
    a rearrangement of the node's whole stored row: no stored id is lost
    and none is repeated more often than it is stored. *)
Theorem dense_sample_full_width_is_permutation
  (adj : list (list Z)) (W : nat) (g : RandomState) (ids : list Z) (K : Z) :
  Forall (fun r => length r = W) adj ->
  randperm_ok g ->
  Forall (fun i => (0 <= i < Z.of_nat (length adj))%Z) ids ->
  (Z.of_nat W <= K)%Z ->
  exists out,
    UniformNeighborSampler.__call__ (UniformNeighborSampler.__init__ adj)
      ids (Some K) g = Ok out /\
    forall i id, nth_error ids i = Some id ->
      Permutation (nth i out []) (nth (Z.to_nat id) adj []).
Proof.
  intros Hrect Hperm Hids HK.
  eexists. split; [apply (dense_call_eq Hrect Hperm (Some K) Hids)|].
  intros i id Hi. cbn [default].
  rewrite (@nth_map_slice K (UniformNeighborSampler.permuted_row adj g W) ids i id Hi).
  rewrite slice_to_firstn by lia.
  rewrite firstn_all2 by (rewrite (@permuted_row_length adj W g Hperm); lia).
  assert (Hid : (0 <= id < Z.of_nat (length adj))%Z).
  { rewrite Forall_forall in Hids. apply Hids. eapply nth_error_In; eauto. }
  unfold UniformNeighborSampler.permuted_row.
  apply Permutation_trans
    with (map (fun c => nth c (nth (Z.to_nat id) adj []) 0%Z) (seq 0 W)).
  - apply Permutation_map. apply Hperm.
  - rewrite <- (@adj_row_length adj W Hrect id Hid), map_nth_seq_id.
    apply Permutation_refl.
Qed.

Lemma dense_sample_full_width_is_permutation_witness :
  exists out,
    UniformNeighborSampler.__call__
      (UniformNeighborSampler.__init__ [[1; 2; 3]; [0; 2; 3]; [0; 1; 3]; [0; 1; 2]]%Z)
      [0; 2]%Z (Some 5%Z) example_stream = Ok out /\
    forall i id, nth_error [0; 2]%Z i = Some id ->
      Permutation (nth i out [])
        (nth (Z.to_nat id) [[1; 2; 3]; [0; 2; 3]; [0; 1; 3]; [0; 1; 2]]%Z []).
Proof.
  apply (@dense_sample_full_width_is_permutation
           [[1; 2; 3]; [0; 2; 3]; [0; 1; 3]; [0; 1; 2]]%Z 3 example_stream
           [0; 2]%Z 5%Z).
  - repeat constructor.
  - exact example_stream_perm.
  - repeat constructor; simpl; lia.
  - simpl. lia.
Defined.

(** X4.  The degree table the sparse sampler builds from the row indices
    of the non-zero entries has one entry per row of the adjacency, and the
    entry of a row is the number of its non-zero entries, 0 for a row
    without any. *)
Theorem sparse_degrees_count_nonzero (adj : list (list Z)) :
  length (SparseUniformNeighborSampler.degrees
            (SparseUniformNeighborSampler.__init__ adj)) = length adj /\
  forall i, i < length adj ->
    nth i (SparseUniformNeighborSampler.degrees
             (SparseUniformNeighborSampler.__init__ adj)) 0%Z
    = Z.of_nat (length (filter SparseUniformNeighborSampler.nonzero (nth i adj []))).
Proof.
  split; [apply degrees_length|].
  intros i Hi. now rewrite degrees_spec.
Qed.

(** X5.  With a positive [n_samples] the sparse sampler selects the rows
    of the ids first: a batch with an id outside [-N, N) raises
    [IndexError] and nothing is drawn. *)
Theorem sparse_sample_id_out_of_range
  (adj : list (list Z)) (ids : list Z) (n_samples : option Z) (g : RandomState) :
  (0 < default 128%Z n_samples)%Z ->
  Exists (fun i => (i < - Z.of_nat (length adj) \/ Z.of_nat (length adj) <= i)%Z) ids ->
  SparseUniformNeighborSampler.__call__
    (SparseUniformNeighborSampler.__init__ adj) ids n_samples g = Raise IndexError.
Proof.
  intros Hn H. apply call_raises.
  unfold SparseUniformNeighborSampler.selected_entries.
  destruct (Z.ltb_spec 0 (default 128%Z n_samples)); [cbn [negb]|lia].
  change (SparseUniformNeighborSampler.adj
            (SparseUniformNeighborSampler.__init__ adj)) with adj.
  now rewrite (index_select_out_of_range adj H).
Qed.

Lemma sparse_sample_id_out_of_range_witness :
  SparseUniformNeighborSampler.__call__
    (SparseUniformNeighborSampler.__init__ [[0; 0; 0]; [5; 7; 9]; [1; 0; 0]]%Z)
    [1; 3]%Z None example_stream = Raise IndexError.
Proof.
  apply sparse_sample_id_out_of_range.
  - simpl. lia.
  - apply Exists_cons_tl, Exists_cons_hd. simpl. lia.
Defined.

(** X6.  Whatever the layout of a row, the sparse sampler reads only its
    first [degree] columns: for in-range ids of degree at least 1 and a
    call that selects two values or more, every returned value is an entry
    of one of the first [degree] columns of the id's row, so an entry
    stored further right is never returned. *)
Theorem sparse_sample_reads_leading_columns
  (adj : list (list Z)) (W : nat) (g : RandomState) (ids : list Z) (K : Z) :
  Forall (fun r => length r = W) adj ->
  choice_ok g ->
  Forall (fun id => (0 <= id < Z.of_nat (length adj))%Z /\
            0 < length (SparseUniformNeighborSampler.neighbors
                          (nth (Z.to_nat id) adj []))) ids ->
  (0 < K)%Z ->
  2 <= length ids * Z.to_nat K ->
  exists blocks,
    SparseUniformNeighborSampler.__call__
      (SparseUniformNeighborSampler.__init__ adj) ids (Some K) g
    = Ok (torch.Values (concat blocks)) /\
    Forall2 (fun id block =>
               length block = Z.to_nat K /\
               Forall (fun v =>
                         In v (firstn (length (SparseUniformNeighborSampler.neighbors
                                                 (nth (Z.to_nat id) adj [])))
                                      (nth (Z.to_nat id) adj []))) block)
            ids blocks.
Proof.
  intros Hrect Hg Hids HK Htwo.
  assert (Hin : Forall (fun i => (0 <= i < Z.of_nat (length adj))%Z) ids).
  { eapply Forall_impl; [|exact Hids]. now intros id [H _]. }
  assert (HW : ids = [] \/ 0 < W).
  { destruct ids as [|id0 ids']; [now left|right].
    inversion Hids as [|? ? [Hr Hd] _]; subst.
    pose proof (neighbors_length_le (nth (Z.to_nat id0) adj [])) as Hle.
    rewrite Forall_forall in Hrect.
    rewrite (Hrect (nth (Z.to_nat id0) adj [])) in Hle; [lia|].
    apply nth_In. lia. }
  destruct (Hg (Z.of_nat (Py.size1 adj)) (length ids) (Z.to_nat K))
    as (Hn & Hk & _).
  pose proof (selected_entries_eq Hrect Hg (Some K) Hin HK HW) as Hsel.
  assert (HF : Forall2 (fun id block =>
               length block = Z.to_nat K /\
               Forall (fun v =>
                         In v (firstn (length (SparseUniformNeighborSampler.neighbors
                                                 (nth (Z.to_nat id) adj [])))
                                      (nth (Z.to_nat id) adj []))) block)
            ids
            (map (fun p => SparseUniformNeighborSampler.sampled_block adj (fst p) (snd p))
               (combine ids (choice g (Z.of_nat (Py.size1 adj)) (length ids)
                               (Z.to_nat (default 128%Z (Some K))))))); cycle 1.
  { eexists. split; [|exact HF].
    apply (call_two_or_more _ _ _ _ Hsel).
    rewrite (@concat_blocks_length _ _ (Z.to_nat K) _ _ _ HF). exact Htwo. }
  apply Forall2_combine_map; [exact Hn|].
  intros [id draws] Hp. cbn [fst snd].
  pose proof (in_combine_l _ _ _ _ Hp) as Hid.
  pose proof (in_combine_r _ _ _ _ Hp) as Hdr.
  rewrite Forall_forall in Hk. specialize (Hk draws Hdr).
  rewrite Forall_forall in Hids. destruct (Hids id Hid) as [Hr Hd].
  unfold SparseUniformNeighborSampler.sampled_block. split.
  - now rewrite length_map.
  - apply Forall_forall. intros v Hv. apply in_map_iff in Hv.
    destruct Hv as (s & <- & _).
    set (row := nth (Z.to_nat id) adj []) in *.
    set (dg := length (SparseUniformNeighborSampler.neighbors row)) in *.
    pose proof (neighbors_length_le row) as Hle. fold dg in Hle.
    assert (Hj : Z.to_nat (Py.np_remainder s (Z.of_nat dg)) < dg).
    { unfold Py.np_remainder. destruct (Z.eqb_spec (Z.of_nat dg) 0); [lia|].
      pose proof (Z.mod_pos_bound s (Z.of_nat dg)). lia. }
    assert (Hnth : nth (Z.to_nat (Py.np_remainder s (Z.of_nat dg))) (firstn dg row) 0%Z
                   = nth (Z.to_nat (Py.np_remainder s (Z.of_nat dg))) row 0%Z).
    { rewrite nth_firstn.
      destruct (Nat.ltb_spec (Z.to_nat (Py.np_remainder s (Z.of_nat dg))) dg);
        [reflexivity|lia]. }
    rewrite <- Hnth. apply nth_In. rewrite length_firstn. lia.
Qed.

Lemma sparse_sample_reads_leading_columns_witness :
  exists blocks,
    SparseUniformNeighborSampler.__call__
      (SparseUniformNeighborSampler.__init__ [[0; 0; 0; 0]; [0; 5; 0; 7]]%Z)
      [1]%Z (Some 3%Z) example_stream
    = Ok (torch.Values (concat blocks)) /\
    Forall2 (fun id block =>
               length block = Z.to_nat 3 /\
               Forall (fun v =>
                         In v (firstn (length (SparseUniformNeighborSampler.neighbors
                                 (nth (Z.to_nat id) [[0; 0; 0; 0]; [0; 5; 0; 7]]%Z [])))
                                 (nth (Z.to_nat id) [[0; 0; 0; 0]; [0; 5; 0; 7]]%Z [])))
                      block)
            [1]%Z blocks.
Proof.
  apply (@sparse_sample_reads_leading_columns
           [[0; 0; 0; 0]; [0; 5; 0; 7]]%Z 4 example_stream [1]%Z 3%Z).
  - repeat constructor.
  - exact example_stream_choice.
  - repeat constructor; simpl; lia.
  - lia.
  - simpl. lia.
Defined.

(** X7.  A node of degree 1 is sampled without any randomness: for
    in-range ids of degree 1 and a call that selects two values or more,
    every one of the [n_samples] values returned for the id is the entry in
    column 0 of its row, whatever is drawn. *)
Theorem sparse_sample_degree_one
  (adj : list (list Z)) (W : nat) (g : RandomState) (ids : list Z) (K : Z) :
  Forall (fun r => length r = W) adj ->
  choice_ok g ->
  Forall (fun id => (0 <= id < Z.of_nat (length adj))%Z /\
            length (SparseUniformNeighborSampler.neighbors
                      (nth (Z.to_nat id) adj [])) = 1) ids ->
  (0 < K)%Z ->
  2 <= length ids * Z.to_nat K ->
  SparseUniformNeighborSampler.__call__
    (SparseUniformNeighborSampler.__init__ adj) ids (Some K) g
  = Ok (torch.Values
          (concat (map (fun id => repeat (nth 0 (nth (Z.to_nat id) adj []) 0%Z)
                                         (Z.to_nat K)) ids))).
Proof.
  intros Hrect Hg Hids HK Htwo.
  assert (Hin : Forall (fun i => (0 <= i < Z.of_nat (length adj))%Z) ids).
  { eapply Forall_impl; [|exact Hids]. now intros id [H _]. }
  assert (HW : ids = [] \/ 0 < W).
  { destruct ids as [|id0 ids']; [now left|right].
    inversion Hids as [|? ? [Hr Hd] _]; subst.
    pose proof (neighbors_length_le (nth (Z.to_nat id0) adj [])) as Hle.
    rewrite Forall_forall in Hrect.
    rewrite (Hrect (nth (Z.to_nat id0) adj [])) in Hle; [lia|].
    apply nth_In. lia. }
  destruct (Hg (Z.of_nat (Py.size1 adj)) (length ids) (Z.to_nat K))
    as (Hn & Hk & _).
  pose proof (selected_entries_eq Hrect Hg (Some K) Hin HK HW) as Hsel.
  cbn [default] in Hsel.
  set (sel := choice g (Z.of_nat (Py.size1 adj)) (length ids) (Z.to_nat K)) in *.
  assert (Heq : concat (map (fun p => SparseUniformNeighborSampler.sampled_block
                                        adj (fst p) (snd p)) (combine ids sel))
                = concat (map (fun id => repeat (nth 0 (nth (Z.to_nat id) adj []) 0%Z)
                                                (Z.to_nat K)) ids)); cycle 1.
  { rewrite Heq in Hsel. apply (call_two_or_more _ _ _ _ Hsel).
    assert (Hlen : length (concat (map (fun id =>
                     repeat (nth 0 (nth (Z.to_nat id) adj []) 0%Z) (Z.to_nat K)) ids))
                   = length ids * Z.to_nat K).
    { clear. induction ids as [|id ids IH]; simpl; [reflexivity|].
      now rewrite length_app, repeat_length, IH. }
    now rewrite Hlen. }
  f_equal.
  clearbody sel. clear HW Hin Hsel Htwo.
  revert sel Hn Hk. induction Hids as [|id ids [Hr Hd] _ IH];
    intros [|draws sel] Hn Hk; simpl in *; try discriminate; [reflexivity|].
  inversion Hk as [|? ? Hdraws Hk']; subst.
  rewrite (IH sel) by (congruence || assumption). f_equal.
  unfold SparseUniformNeighborSampler.sampled_block. rewrite Hd.
  rewrite <- Hdraws. clear.
  induction draws as [|s draws IHd]; cbn [map length repeat]; [reflexivity|].
  rewrite IHd. f_equal. unfold Py.np_remainder.
  change (Z.of_nat 1) with 1%Z. cbn [Z.eqb].
  now rewrite Z.mod_1_r.
Qed.

Lemma sparse_sample_degree_one_witness :
  SparseUniformNeighborSampler.__call__
    (SparseUniformNeighborSampler.__init__ [[0; 0; 0]; [5; 7; 9]; [1; 0; 0]]%Z)
    [2; 2]%Z (Some 3%Z) example_stream
  = Ok (torch.Values
          (concat (map (fun id =>
                          repeat (nth 0 (nth (Z.to_nat id)
                                    [[0; 0; 0]; [5; 7; 9]; [1; 0; 0]]%Z []) 0%Z)
                                 (Z.to_nat 3)) [2; 2]%Z))).
Proof.
  apply (@sparse_sample_degree_one
           [[0; 0; 0]; [5; 7; 9]; [1; 0; 0]]%Z 3 example_stream [2; 2]%Z 3%Z).
  - repeat constructor.
  - exact example_stream_choice.
  - repeat constructor; simpl; lia.
  - lia.
  - simpl. lia.
Defined.

(** X21.  On a sparse edgelist in the documented layout (rows of one
    width, the neighbors of a node in the first columns of its row), for
    in-range ids of degree at least 1, every positive [K] and a batch with
    [len(ids) * K >= 2], the call returns [len(ids) * K] ids: [K] for
    every id, in the order of [ids], each of them a stored (non-padding)
    neighbor of that id. *)
Theorem sparse_sample_two_or_more_membership
  (adj : list (list Z)) (W : nat) (g : RandomState) (ids : list Z) (K : Z) :
  Forall (fun r => length r = W) adj ->
  Forall (fun r => SparseUniformNeighborSampler.left_packed r = true) adj ->
  choice_ok g ->
  Forall (fun id => (0 <= id < Z.of_nat (length adj))%Z /\
            (1 <= nth (Z.to_nat id)
                      (SparseUniformNeighborSampler.degrees
                         (SparseUniformNeighborSampler.__init__ adj)) 0)%Z) ids ->
  (0 < K)%Z ->
  2 <= length ids * Z.to_nat K ->
  exists blocks,
    SparseUniformNeighborSampler.__call__
      (SparseUniformNeighborSampler.__init__ adj) ids (Some K) g
    = Ok (torch.Values (concat blocks)) /\
    length (concat blocks) = length ids * Z.to_nat K /\
    Forall2 (fun id block =>
               length block = Z.to_nat K /\
               Forall (fun v => In v (SparseUniformNeighborSampler.neighbors
                                        (nth (Z.to_nat id) adj []))) block)
            ids blocks.
Proof.
  intros Hrect Hpacked Hg Hids HK Htwo.
  destruct (selected_entries_membership Hrect Hpacked Hg Hids HK)
    as (blocks & Hsel & Hlen & HF).
  exists blocks. split; [|split; assumption].
  apply (call_two_or_more _ _ _ _ Hsel). now rewrite Hlen.
Qed.

Lemma sparse_sample_two_or_more_membership_witness :
  exists blocks,
    SparseUniformNeighborSampler.__call__
      (SparseUniformNeighborSampler.__init__ [[0; 0; 0]; [5; 7; 9]; [1; 0; 0]]%Z)
      [1; 2]%Z (Some 4%Z) example_stream
    = Ok (torch.Values (concat blocks)) /\
    length (concat blocks) = length [1; 2]%Z * Z.to_nat 4 /\
    Forall2 (fun id block =>
               length block = Z.to_nat 4 /\
               Forall (fun v => In v (SparseUniformNeighborSampler.neighbors
                  (nth (Z.to_nat id) [[0; 0; 0]; [5; 7; 9]; [1; 0; 0]]%Z []))) block)
            [1; 2]%Z blocks.
Proof.
  apply (@sparse_sample_two_or_more_membership
           [[0; 0; 0]; [5; 7; 9]; [1; 0; 0]]%Z 3 example_stream [1; 2]%Z 4%Z).
  - repeat constructor.
  - repeat constructor.
  - exact example_stream_choice.
  - repeat constructor; simpl; lia.
  - lia.
  - simpl. lia.
Defined.

(** * Further properties of the preprocessors *)

Section PrepErrors.

Context {R : Type} {SR : Scalar R}.

Lemma Embedding_row_raises (e : @nn.Embedding R) (i : Z) (err : exn) :
  (0 < nn.num_embeddings e)%Z ->
  nn.Embedding_row e i = Raise err -> err = IndexError.
Proof.
  intros Hpos. unfold nn.Embedding_row.
  destruct (Z.leb_spec (nn.num_embeddings e) 0); [lia|].
  destruct ((0 <=? i)%Z && (i <? nn.num_embeddings e)%Z);
    [discriminate|now intros [= <-]].
Qed.

Lemma Embedding_row_out_of_range (e : @nn.Embedding R) (i : Z) :
  (0 < nn.num_embeddings e)%Z ->
  (i < 0 \/ nn.num_embeddings e <= i)%Z ->
  nn.Embedding_row e i = Raise IndexError.
Proof.
  intros Hpos H. unfold nn.Embedding_row.
  destruct (Z.leb_spec (nn.num_embeddings e) 0); [lia|].
  destruct (Z.leb_spec 0 i); destruct (Z.ltb_spec i (nn.num_embeddings e));
    cbn [andb]; try lia; reflexivity.
Qed.

Lemma Embedding_forward_out_of_range (e : @nn.Embedding R) (ids : list Z) :
  (0 < nn.num_embeddings e)%Z ->
  Exists (fun i => (i < 0 \/ nn.num_embeddings e <= i)%Z) ids ->
  nn.Embedding_forward e ids = Raise IndexError.
Proof.
  intros Hpos H. unfold nn.Embedding_forward. apply mapM_raises.
  - intros i err. now apply Embedding_row_raises.
  - eapply Exists_impl; [|exact H]. intros i Hi. exists IndexError.
    now apply Embedding_row_out_of_range.
Qed.

Lemma Embedding_forward_raises (e : @nn.Embedding R) (ids : list Z) (err : exn) :
  (0 < nn.num_embeddings e)%Z ->
  nn.Embedding_forward e ids = Raise err -> err = IndexError.
Proof.
  intros Hpos. unfold nn.Embedding_forward. induction ids as [|i ids IH]; simpl.
  - discriminate.
  - destruct (nn.Embedding_row e i) as [r|e0] eqn:E; cbn [bind].
    + destruct (mapM (nn.Embedding_row e) ids); cbn [bind];
        [discriminate|]. intros [= <-]. now apply IH.
    + intros [= <-]. now apply Embedding_row_raises in E.
Qed.

Lemma Embedding_forward2_out_of_range (e : @nn.Embedding R) (idss : list (list Z)) :
  (0 < nn.num_embeddings e)%Z ->
  Exists (Exists (fun i => (i < 0 \/ nn.num_embeddings e <= i)%Z)) idss ->
  nn.Embedding_forward2 e idss = Raise IndexError.
Proof.
  intros Hpos H. unfold nn.Embedding_forward2.
  rewrite (@mapM_raises _ _ (nn.Embedding_forward e) IndexError idss);
    [reflexivity| |].
  - intros ids err. now apply Embedding_forward_raises.
  - eapply Exists_impl; [|exact H]. intros ids Hids. exists IndexError.
    now apply Embedding_forward_out_of_range.
Qed.

Lemma Linear_forward_mismatch (l : @nn.Linear R) (t : nn.Tensor) :
  Exists (fun x => length x <> nn.in_features l) t ->
  nn.Linear_forward l t = Raise RuntimeError.
Proof.
  intros H. unfold nn.Linear_forward.
  replace (forallb (fun x => length x =? nn.in_features l) t) with false;
    [reflexivity|].
  symmetry. apply Exists_exists in H. destruct H as (x & Hx & Hne).
  destruct (forallb (fun x0 => length x0 =? nn.in_features l) t) eqn:E;
    [|reflexivity].
  rewrite forallb_forall in E. specialize (E x Hx).
  apply Nat.eqb_eq in E. contradiction.
Qed.

Lemma long_out_of_range (hi : Z) (t : @nn.Tensor R) :
  Exists (Exists (fun x => (to_long x < 0 \/ hi <= to_long x)%Z)) t ->
  Exists (Exists (fun i => (i < 0 \/ hi <= i)%Z)) (nn.long t).
Proof.
  intros H. unfold nn.long. apply Exists_exists in H.
  destruct H as (r & Hr & Hex). apply Exists_exists.
  exists (map to_long r). split; [now apply in_map|].
  apply Exists_exists in Hex. destruct Hex as (x & Hx & Hbad).
  apply Exists_exists. exists (to_long x). split; [now apply in_map|exact Hbad].
Qed.

End PrepErrors.

(** X8.  [NodeEmbeddingPrep] looks the ids up only at an inner layer.  A
    batch holding an id outside [0, n_nodes] raises [IndexError] for every
    [layer_idx >= 1]; at [layer_idx = 0] the same batch is accepted,
    because only the sentinel is looked up. *)
Theorem node_embedding_ids_checked_at_inner_layers {R : Type} {SR : Scalar R}
  (input_dim n_nodes : Z) (embedding_dim : option Z) (theta : state_dict R)
  (p : @NodeEmbeddingPrep.t R) (ids : list Z) :
  NodeEmbeddingPrep.__init__ input_dim n_nodes embedding_dim theta = Ok p ->
  (0 <= n_nodes)%Z ->
  Exists (fun i => (i < 0 \/ n_nodes < i)%Z) ids ->
  (forall feats layer_idx, (1 <= layer_idx)%Z ->
     NodeEmbeddingPrep.forward p ids feats layer_idx = Raise IndexError) /\
  (forall feats, nn.has_shape (length ids) input_dim feats ->
     exists out, NodeEmbeddingPrep.forward p ids feats 0 = Ok out /\
                 nn.has_shape (length ids) (NodeEmbeddingPrep.output_dim p) out).
Proof.
  intros Hinit Hn Hbad. split.
  - intros feats layer_idx Hl. unfold NodeEmbeddingPrep.__init__ in Hinit.
    bind_inv Hinit e. bind_inv Hinit f. injection Hinit as <-.
    apply new_Embedding_inv in E. destruct E as [Hnum _].
    unfold NodeEmbeddingPrep.forward. cbn [NodeEmbeddingPrep.embedding].
    destruct (Z.ltb_spec 0 layer_idx); [|lia].
    rewrite Embedding_forward_out_of_range; [reflexivity|lia|].
    eapply Exists_impl; [|exact Hbad]. intros i Hi. simpl in Hi. lia.
  - intros feats Hfeats.
    eapply node_embedding_width; eauto. split; [exact Hn|]. lia.
Qed.

Lemma node_embedding_ids_checked_at_inner_layers_witness :
  exists p,
    NodeEmbeddingPrep.__init__ (R := Z) 2 3 (Some 2%Z)
      (fun _ i _ => Z.of_nat i) = Ok p /\
    NodeEmbeddingPrep.forward p [0; 9]%Z [[1; 2]; [3; 4]]%Z 1 = Raise IndexError /\
    exists out,
      NodeEmbeddingPrep.forward p [0; 9]%Z [[1; 2]; [3; 4]]%Z 0 = Ok out /\
      nn.has_shape (length [0; 9]%Z) (NodeEmbeddingPrep.output_dim p) out.
Proof.
  eexists. split; [reflexivity|].
  assert (Hbad : Exists (fun i => (i < 0 \/ 3 < i)%Z) [0; 9]%Z).
  { apply Exists_cons_tl, Exists_cons_hd. lia. }
  pose proof (@node_embedding_ids_checked_at_inner_layers Z Scalar_Z 2 3
                (Some 2%Z) (fun _ i _ => Z.of_nat i) _ [0; 9]%Z eq_refl
                ltac:(lia) Hbad) as [H1 H0].
  split.
  - apply H1. lia.
  - apply H0. split; [reflexivity|repeat constructor].
Defined.

(** X9.  When [input_dim] is not 0, [NodeEmbeddingPrep] glues the feature
    rows to the embedding rows: a batch whose number of feature rows
    differs from the number of ids raises [RuntimeError]. *)
Theorem node_embedding_feats_rows_mismatch {R : Type} {SR : Scalar R}
  (input_dim n_nodes : Z) (embedding_dim : option Z) (theta : state_dict R)
  (p : @NodeEmbeddingPrep.t R) (ids : list Z) (feats : @nn.Tensor R)
  (layer_idx : Z) :
  NodeEmbeddingPrep.__init__ input_dim n_nodes embedding_dim theta = Ok p ->
  input_dim <> 0%Z ->
  Prep.ids_in_table n_nodes ids layer_idx ->
  length feats <> length ids ->
  NodeEmbeddingPrep.forward p ids feats layer_idx = Raise RuntimeError.
Proof.
  intros H Hdim Hids Hlen. unfold NodeEmbeddingPrep.__init__ in H.
  bind_inv H e. bind_inv H f. injection H as <-.
  apply new_Embedding_inv in E. destruct E as [Hnum Hd].
  apply new_Linear_inv in E0. destruct E0 as [Hin Hout].
  unfold NodeEmbeddingPrep.forward.
  cbn [NodeEmbeddingPrep.embedding NodeEmbeddingPrep.fc NodeEmbeddingPrep.n_nodes
       NodeEmbeddingPrep.input_dim].
  destruct (@node_lookup_shape R e n_nodes ids layer_idx Hnum Hids)
    as (embs & -> & Hs). cbn [bind].
  rewrite Hd, <- Hin in Hs.
  destruct (Linear_forward_shape _ Hs) as (embs' & -> & [Hl' _]). cbn [bind].
  destruct (Z.eqb_spec input_dim 0); [contradiction|]. cbn [negb].
  unfold nn.cat1, nn.cat2. cbn [fold_left bind].
  destruct (Nat.eqb_spec (length feats) (length embs')); [congruence|reflexivity].
Qed.

Lemma node_embedding_feats_rows_mismatch_witness :
  exists p,
    NodeEmbeddingPrep.__init__ (R := Z) 2 3 (Some 2%Z)
      (fun _ i _ => Z.of_nat i) = Ok p /\
    NodeEmbeddingPrep.forward p [0; 1]%Z [[1; 2]]%Z 1 = Raise RuntimeError.
Proof.
  eexists. split; [reflexivity|].
  apply (@node_embedding_feats_rows_mismatch Z Scalar_Z 2 3 (Some 2%Z)
           (fun _ i _ => Z.of_nat i) _ [0; 1]%Z [[1; 2]]%Z 1%Z eq_refl).
  - lia.
  - split; [lia|]. intros _. repeat constructor; lia.
  - simpl. lia.
Defined.

(** X10.  [LinearPrep] and [NonLinearPrep] reject a batch with a feature
    row whose width is not the configured [input_dim]: [forward] raises
    [RuntimeError], whatever the ids and the layer. *)
Theorem linear_preps_width_mismatch {R : Type} {SR : Scalar R}
  (input_dim : Z) (n_nodes output_dim : option Z) (theta : state_dict R)
  (p1 : @LinearPrep.t R) (p2 : @NonLinearPrep.t R)
  (ids : list Z) (feats : @nn.Tensor R) (layer_idx : Z) :
  LinearPrep.__init__ input_dim n_nodes output_dim theta = Ok p1 ->
  NonLinearPrep.__init__ input_dim n_nodes output_dim theta = Ok p2 ->
  Exists (fun r => Z.of_nat (length r) <> input_dim) feats ->
  LinearPrep.forward p1 ids feats layer_idx = Raise RuntimeError /\
  NonLinearPrep.forward p2 ids feats layer_idx = Raise RuntimeError.
Proof.
  intros H1 H2 Hbad. split.
  - unfold LinearPrep.__init__ in H1. bind_inv H1 l. injection H1 as <-.
    apply new_Linear_inv in E. destruct E as [Hin _].
    unfold LinearPrep.forward. cbn [LinearPrep.fc].
    apply Linear_forward_mismatch. eapply Exists_impl; [|exact Hbad].
    intros r Hr. simpl in Hr. lia.
  - unfold NonLinearPrep.__init__ in H2. bind_inv H2 l0. bind_inv H2 l2.
    injection H2 as <-.
    apply new_Linear_inv in E. destruct E as [Hin _].
    unfold NonLinearPrep.forward, NonLinearPrep.mlp. cbn [NonLinearPrep.mlp_0].
    rewrite Linear_forward_mismatch; [reflexivity|].
    eapply Exists_impl; [|exact Hbad]. intros r Hr. simpl in Hr. lia.
Qed.

Lemma linear_preps_width_mismatch_witness :
  exists p1 p2,
    LinearPrep.__init__ (R := Z) 2 None (Some 3%Z) (fun _ i j => Z.of_nat (i + j))
    = Ok p1 /\
    NonLinearPrep.__init__ (R := Z) 2 None (Some 3%Z) (fun _ i j => Z.of_nat (i + j))
    = Ok p2 /\
    LinearPrep.forward p1 [0; 1]%Z [[1; 2]; [3; 4; 5]]%Z 0 = Raise RuntimeError /\
    NonLinearPrep.forward p2 [0; 1]%Z [[1; 2]; [3; 4; 5]]%Z 0 = Raise RuntimeError.
Proof.
  eexists. eexists. split; [reflexivity|]. split; [reflexivity|].
  apply (@linear_preps_width_mismatch Z Scalar_Z 2 None (Some 3%Z)
           (fun _ i j => Z.of_nat (i + j)) _ _ [0; 1]%Z [[1; 2]; [3; 4; 5]]%Z 0%Z
           eq_refl eq_refl).
  apply Exists_cons_tl, Exists_cons_hd. simpl. lia.
Defined.

(** X11.  [BagOfWordsPrep] reads every feature entry as a token of its
    table of 15000 rows: a batch with an entry that truncates to an integer
    outside [0, 15000) raises [IndexError]. *)
Theorem bag_of_words_token_out_of_range {R : Type} {SR : Scalar R}
  (input_dim n_nodes : Z) (output_dim embedding_dim : option Z)
  (theta : state_dict R) (p : @BagOfWordsPrep.t R)
  (ids : list Z) (feats : @nn.Tensor R) (layer_idx : Z) :
  BagOfWordsPrep.__init__ input_dim n_nodes output_dim embedding_dim theta = Ok p ->
  Prep.ids_in_table n_nodes ids layer_idx ->
  Exists (Exists (fun x => (to_long x < 0 \/ 15000 <= to_long x)%Z)) feats ->
  BagOfWordsPrep.forward p ids feats layer_idx = Raise IndexError.
Proof.
  intros H Hids Hbad. unfold BagOfWordsPrep.__init__ in H.
  bind_inv H a. bind_inv H a0. bind_inv H a1. bind_inv H a2. injection H as <-.
  apply new_Embedding_inv in E. destruct E as [Hnum Hdim].
  apply new_Linear_inv in E0. destruct E0 as [Hin Hout].
  apply new_Embedding_inv in E1. destruct E1 as [Hnum1 Hdim1].
  unfold BagOfWordsPrep.forward.
  cbn [BagOfWordsPrep.node_embedding BagOfWordsPrep.node_fc BagOfWordsPrep.n_nodes
       BagOfWordsPrep.feat_embedding BagOfWordsPrep.feat_fc].
  destruct (@node_lookup_shape R a n_nodes ids layer_idx Hnum Hids)
    as (embs & -> & Hs). cbn [bind].
  rewrite Hdim, <- Hin in Hs.
  destruct (Linear_forward_shape _ Hs) as (node_embs & -> & Hn). cbn [bind].
  rewrite Embedding_forward2_out_of_range; [reflexivity|lia|].
  rewrite Hnum1. now apply long_out_of_range.
Qed.

Lemma bag_of_words_token_out_of_range_witness :
  exists p,
    BagOfWordsPrep.__init__ (R := Z) 2 3 (Some 2%Z) (Some 3%Z)
      (fun _ i j => Z.of_nat (i + j)) = Ok p /\
    BagOfWordsPrep.forward p [0; 1]%Z [[1; 2]; [3; 15000]]%Z 0 = Raise IndexError.
Proof.
  eexists. split; [reflexivity|].
  apply (@bag_of_words_token_out_of_range Z Scalar_Z 2 3 (Some 2%Z) (Some 3%Z)
           (fun _ i j => Z.of_nat (i + j)) _ [0; 1]%Z [[1; 2]; [3; 15000]]%Z 0%Z
           eq_refl).
  - split; lia.
  - apply Exists_cons_tl, Exists_cons_hd, Exists_cons_tl, Exists_cons_hd.
    simpl. lia.
Defined.

(** X12.  [BagOfWordsPrep] never uses its [input_dim]: the width of the
    feature rows is free, rows may even differ in width.  For one feature
    row per id, tokens within the table and ids within the node table,
    [forward] returns one row per id of width [2 * output_dim]. *)
Theorem bag_of_words_any_feature_width {R : Type} {SR : Scalar R}
  (input_dim n_nodes : Z) (output_dim embedding_dim : option Z)
  (theta : state_dict R) (p : @BagOfWordsPrep.t R)
  (ids : list Z) (feats : @nn.Tensor R) (layer_idx : Z) :
  BagOfWordsPrep.__init__ input_dim n_nodes output_dim embedding_dim theta = Ok p ->
  length feats = length ids ->
  Prep.ids_in_table n_nodes ids layer_idx ->
  Forall (Forall (fun x => (0 <= to_long x < 15000)%Z)) feats ->
  exists out,
    BagOfWordsPrep.forward p ids feats layer_idx = Ok out /\
    nn.has_shape (length ids) (2 * default 32%Z output_dim) out.
Proof.
  intros H Hlen Hids Htok.
  destruct (@bag_of_words_width R SR ids feats layer_idx input_dim n_nodes
              output_dim embedding_dim theta p H Hlen Hids Htok)
    as (out & Hout & Hs).
  exists out. split; [exact Hout|].
  unfold BagOfWordsPrep.__init__ in H.
  bind_inv H a. bind_inv H a0. bind_inv H a1. bind_inv H a2. injection H as <-.
  cbn [BagOfWordsPrep.output_dim] in Hs.
  now rewrite Z.mul_comm.
Qed.

Lemma bag_of_words_any_feature_width_witness :
  exists p,
    BagOfWordsPrep.__init__ (R := Z) 2 3 (Some 2%Z) (Some 3%Z)
      (fun _ i j => Z.of_nat (i + j)) = Ok p /\
    exists out,
      BagOfWordsPrep.forward p [0; 1]%Z [[1; 2; 3; 4]; [5]]%Z 0 = Ok out /\
      nn.has_shape (length [0; 1]%Z) (2 * default 32%Z (Some 2%Z)) out.
Proof.
  eexists. split; [reflexivity|].
  apply (@bag_of_words_any_feature_width Z Scalar_Z 2 3 (Some 2%Z) (Some 3%Z)
           (fun _ i j => Z.of_nat (i + j)) _ [0; 1]%Z [[1; 2; 3; 4]; [5]]%Z 0%Z
           eq_refl).
  - reflexivity.
  - split; lia.
  - repeat constructor; simpl; lia.
Defined.

(** X13.  [GeoBagOfWordsPrep] keeps 28 categorical columns and gives the
    other [input_dim - 28] to the continuous branch: construction raises
    [RuntimeError] for every [input_dim < 28], and for [input_dim > 28]
    it returns an instance whose continuous branch takes [input_dim - 28]
    columns. *)
Theorem geo_bag_of_words_needs_28_columns {R : Type} {SR : Scalar R}
  (input_dim n_nodes : Z) (output_dim embedding_dim : option Z)
  (theta : state_dict R) :
  (0 <= default 16%Z output_dim)%Z ->
  (0 <= default 16%Z embedding_dim)%Z ->
  ((input_dim < 28)%Z ->
     GeoBagOfWordsPrep.__init__ input_dim n_nodes output_dim embedding_dim theta
     = Raise RuntimeError) /\
  ((28 < input_dim)%Z ->
     exists p,
       GeoBagOfWordsPrep.__init__ input_dim n_nodes output_dim embedding_dim theta
       = Ok p /\
       Z.of_nat (nn.in_features (GeoBagOfWordsPrep.con_feat_mlp_0 p))
       = (input_dim - 28)%Z /\
       GeoBagOfWordsPrep.output_dim p = default 16%Z output_dim).
Proof.
  intros Ho He. unfold GeoBagOfWordsPrep.__init__.
  rewrite new_Embedding_ok by lia. cbn [bind].
  rewrite new_Linear_ok by lia. cbn [bind]. split.
  - intros Hlt. unfold nn.new_Linear at 1.
    destruct (Z.ltb_spec (input_dim - 28) 0); [reflexivity|lia].
  - intros Hge. rewrite !new_Linear_ok by lia. cbn [bind].
    eexists. split; [reflexivity|].
    cbn [GeoBagOfWordsPrep.con_feat_mlp_0 GeoBagOfWordsPrep.output_dim
         nn.in_features].
    split; [lia|reflexivity].
Qed.

Lemma geo_bag_of_words_needs_28_columns_witness :
  GeoBagOfWordsPrep.__init__ (R := Z) 10 3 None None (fun _ _ _ => 0%Z)
  = Raise RuntimeError /\
  exists p,
    GeoBagOfWordsPrep.__init__ (R := Z) 30 3 None None (fun _ _ _ => 0%Z) = Ok p /\
    Z.of_nat (nn.in_features (GeoBagOfWordsPrep.con_feat_mlp_0 p)) = (30 - 28)%Z /\
    GeoBagOfWordsPrep.output_dim p = default 16%Z None.
Proof.
  split.
  - apply (proj1 (@geo_bag_of_words_needs_28_columns Z Scalar_Z 10 3 None None
                    (fun _ _ _ => 0%Z) ltac:(simpl; lia) ltac:(simpl; lia))).
    lia.
  - apply (proj2 (@geo_bag_of_words_needs_28_columns Z Scalar_Z 30 3 None None
                    (fun _ _ _ => 0%Z) ltac:(simpl; lia) ltac:(simpl; lia))).
    lia.
Defined.

(** * Further properties of the aggregators *)

Lemma chunk_length {A : Type} (b k : nat) (l : list A) :
  length (nn.chunk b k l) = b.
Proof.
  revert l. induction b as [|b IH]; intros l; simpl; [reflexivity|].
  now rewrite IH.
Qed.

Lemma chunk_block_lengths {A : Type} (b k : nat) (l : list A) :
  length l = b * k -> Forall (fun c => length c = k) (nn.chunk b k l).
Proof.
  revert l. induction b as [|b IH]; intros l Hl; simpl; constructor.
  - rewrite length_firstn. simpl in Hl. lia.
  - apply IH. rewrite length_skipn. simpl in Hl. lia.
Qed.

Section AggregatorShapes.

Context {R : Type} {SR : Scalar R}.

Lemma size1_has_shape (n : nat) (d : Z) (t : @nn.Tensor R) :
  0 < n -> nn.has_shape n d t -> Z.of_nat (Py.size1 t) = d.
Proof.
  intros Hn [Hl Hw]. destruct t as [|r t]; simpl in *; [lia|].
  now inversion Hw.
Qed.

(** [view] of [b * k] rows of positive width, [b] and [k] positive. *)
Lemma view3_ok (b k : nat) (d : Z) (t : @nn.Tensor R) :
  0 < b -> 0 < k -> (0 < d)%Z ->
  nn.has_shape (b * k) d t ->
  nn.view3 b t = Ok {| nn.size2 := Py.size1 t; nn.blocks := nn.chunk b k t |}.
Proof.
  intros Hb Hk Hd Ht.
  assert (Hs : Z.of_nat (Py.size1 t) = d)
    by (apply (@size1_has_shape (b * k) d t); [nia|exact Ht]).
  destruct Ht as [Hl _]. unfold nn.view3. rewrite Hl.
  destruct (Nat.eqb_spec b 0); [lia|].
  destruct (Nat.eqb_spec (b * k) 0); [nia|].
  destruct (Nat.eqb_spec (Py.size1 t) 0); [lia|].
  rewrite (Nat.mul_comm b k), Nat.Div0.mod_mul, Nat.eqb_refl. cbn [orb negb].
  now rewrite Nat.div_mul by lia.
Qed.

Lemma view3_mean_shape (b k : nat) (d : Z) (t : @nn.Tensor R) :
  0 < b -> 0 < k -> (0 < d)%Z ->
  nn.has_shape (b * k) d t ->
  exists x, nn.view3 b t = Ok x /\ nn.has_shape b d (nn.mean_dim1 x).
Proof.
  intros Hb Hk Hd Ht. eexists. split; [now apply view3_ok with (k := k) (d := d)|].
  pose proof (mean_dim1_shape
    {| nn.size2 := Py.size1 t; nn.blocks := nn.chunk b k t |}) as Hs.
  cbn [nn.blocks nn.size2] in Hs. rewrite chunk_length in Hs.
  rewrite (@size1_has_shape (b * k) d t) in Hs; [exact Hs|nia|exact Ht].
Qed.

Lemma view3_indivisible (b : nat) (t : @nn.Tensor R) :
  b = 0 \/ length t mod b <> 0 -> nn.view3 b t = Raise RuntimeError.
Proof.
  intros H. unfold nn.view3. destruct (Nat.eqb_spec b 0); [reflexivity|].
  destruct H as [|H]; [contradiction|].
  destruct (Nat.eqb_spec (length t mod b) 0); [contradiction|].
  cbn [negb]. now rewrite !orb_true_r.
Qed.

Lemma ReLU_shape (n : nat) (d : Z) (t : @nn.Tensor R) :
  nn.has_shape n d t -> nn.has_shape n d (nn.ReLU t).
Proof.
  intros [Hn Hw]. unfold nn.ReLU. split; [now rewrite length_map|].
  apply Forall_forall. intros r Hr. apply in_map_iff in Hr.
  destruct Hr as (x & <- & Hx). rewrite length_map.
  rewrite Forall_forall in Hw. now apply Hw.
Qed.

Lemma reduce_nonempty (f : R -> R -> R) (l : list R) :
  l <> [] -> exists m, nn.reduce f l = Some m.
Proof.
  destruct l as [|x xs]; [congruence|]. intros _. simpl.
  destruct (nn.reduce f xs); eauto.
Qed.

Lemma max_dim1_shape (x : @nn.Tensor3 R) :
  Forall (fun b => b <> []) (nn.blocks x) ->
  exists out, nn.max_dim1 x = Ok out /\
              nn.has_shape (length (nn.blocks x)) (Z.of_nat (nn.size2 x)) out.
Proof.
  intros Hne.
  assert (Hcol : forall block, In block (nn.blocks x) -> forall j,
            exists m, nn.reduce maxr (nn.column j block) = Some m).
  { intros block Hb j. apply reduce_nonempty. rewrite Forall_forall in Hne.
    specialize (Hne block Hb). unfold nn.column.
    destruct block; [congruence|discriminate]. }
  unfold nn.max_dim1.
  exists (map (fun block =>
                 map (fun j => match nn.reduce maxr (nn.column j block) with
                               | Some m => m
                               | None => zero
                               end) (seq 0 (nn.size2 x))) (nn.blocks x)).
  split.
  - apply mapM_total. intros block Hb. apply mapM_total. intros j _.
    destruct (Hcol block Hb j) as (m & ->). reflexivity.
  - split; [now rewrite length_map|].
    apply Forall_forall. intros r Hr. apply in_map_iff in Hr.
    destruct Hr as (block & <- & _). now rewrite length_map, length_seq.
Qed.

Lemma mixin_output_dim_cat (output_dim_ : Z) :
  AggregatorMixin.output_dim (R := R) output_dim_ nn.cat1
  = Ok (Z.to_nat output_dim_ + Z.to_nat output_dim_).
Proof.
  unfold AggregatorMixin.output_dim, nn.cat1. cbn [fold_left bind].
  unfold nn.cat2. cbn [length Nat.eqb combine map fst snd bind Py.size1].
  now rewrite length_app, repeat_length.
Qed.

End AggregatorShapes.

(** X14.  A [MeanAggregator] built with the default [combine_fn]
    (concatenation) declares [output_dim = 2 * output_dim], and on a batch
    of [b] nodes with [k >= 1] neighbor rows each, all of width
    [input_dim > 0], [forward] returns [b] rows of that width, provided the
    activation keeps shapes. *)
Theorem mean_aggregator_output_width {R : Type} {SR : Scalar R}
  (input_dim output_dim : Z)
  (activation : option (@nn.Tensor R -> @nn.Tensor R)) (n_nodes : option Z)
  (theta : state_dict R) (agg : @MeanAggregator.t R)
  (b k : nat) (node_feats neib_feats : @nn.Tensor R) (node_ids neib_ids : list Z) :
  MeanAggregator.__init__ input_dim output_dim activation n_nodes None theta = Ok agg ->
  (forall act n d t, activation = Some act ->
     nn.has_shape n d t -> nn.has_shape n d (act t)) ->
  0 < b -> 0 < k -> (0 < input_dim)%Z ->
  nn.has_shape b input_dim node_feats ->
  nn.has_shape (b * k) input_dim neib_feats ->
  MeanAggregator.output_dim agg = Ok (Z.to_nat (2 * output_dim)) /\
  exists out,
    MeanAggregator.forward agg node_feats neib_feats node_ids neib_ids = Ok out /\
    nn.has_shape b (2 * output_dim) out.
Proof.
  intros H Hact Hb Hk Hd Hnode Hneib. unfold MeanAggregator.__init__ in H.
  bind_inv H l0. bind_inv H l1. injection H as <-.
  apply new_Linear_inv in E. destruct E as [Hin0 Hout0].
  apply new_Linear_inv in E0. destruct E0 as [Hin1 Hout1].
  split.
  - unfold MeanAggregator.output_dim.
    cbn [MeanAggregator.output_dim_ MeanAggregator.combine_fn default].
    rewrite mixin_output_dim_cat. f_equal. lia.
  - unfold MeanAggregator.forward.
    cbn [MeanAggregator.fc_node MeanAggregator.fc_neib MeanAggregator.combine_fn
         MeanAggregator.activation default].
    destruct Hnode as [Hlen Hw]. rewrite Hlen.
    destruct (view3_mean_shape Hb Hk Hd Hneib) as (x & -> & Hx). cbn [bind].
    assert (Hnode : nn.has_shape b (Z.of_nat (nn.in_features l0)) node_feats)
      by (rewrite Hin0; split; assumption).
    destruct (Linear_forward_shape _ Hnode) as (a & -> & Ha). cbn [bind].
    rewrite <- Hin1 in Hx.
    destruct (Linear_forward_shape _ Hx) as (c & -> & Hc). cbn [bind].
    rewrite Hout0 in Ha. rewrite Hout1 in Hc.
    destruct (cat1_pair_shape Ha Hc) as (out & -> & Ho). cbn [bind].
    replace (output_dim + output_dim)%Z with (2 * output_dim)%Z in Ho by lia.
    destruct activation as [act|].
    + exists (act out). split; [reflexivity|]. now apply (Hact act).
    + exists out. now split.
Qed.

Lemma mean_aggregator_output_width_witness :
  exists agg,
    MeanAggregator.__init__ (R := Z) 2 1 None None None
      (fun _ i j => Z.of_nat (i + j + 1)) = Ok agg /\
    MeanAggregator.output_dim agg = Ok (Z.to_nat (2 * 1)) /\
    exists out,
      MeanAggregator.forward agg [[1; 2]]%Z [[1; 1]; [3; 3]]%Z [0]%Z [5; 7]%Z
      = Ok out /\
      nn.has_shape 1 (2 * 1) out.
Proof.
  eexists. split; [reflexivity|].
  apply (@mean_aggregator_output_width Z Scalar_Z 2 1 None None
           (fun _ i j => Z.of_nat (i + j + 1)) _ 1 2 [[1; 2]]%Z
           [[1; 1]; [3; 3]]%Z [0]%Z [5; 7]%Z eq_refl).
  - intros act n d t Hact. discriminate.
  - lia.
  - lia.
  - lia.
  - split; [reflexivity|repeat constructor].
  - split; [reflexivity|repeat constructor].
Defined.

Section PoolShapes.

Context {R : Type} {SR : Scalar R}.

Lemma pool_forward_shape (agg : @PoolAggregator.t R) (input_dim : Z)
  (b k : nat) (node_feats neib_feats : @nn.Tensor R) (node_ids neib_ids : list Z) :
  Z.of_nat (nn.in_features (PoolAggregator.mlp_0 agg)) = input_dim ->
  Z.of_nat (nn.in_features (PoolAggregator.fc_node agg)) = input_dim ->
  nn.in_features (PoolAggregator.fc_neib agg)
  = nn.out_features (PoolAggregator.mlp_0 agg) ->
  0 < nn.out_features (PoolAggregator.mlp_0 agg) ->
  PoolAggregator.combine_fn agg = nn.cat1 ->
  PoolAggregator.activation agg = None ->
  (forall x, Forall (fun c => c <> []) (nn.blocks x) ->
     exists out, PoolAggregator.pool_fn agg x = Ok out /\
                 nn.has_shape (length (nn.blocks x)) (Z.of_nat (nn.size2 x)) out) ->
  0 < b -> 0 < k ->
  nn.has_shape b input_dim node_feats ->
  nn.has_shape (b * k) input_dim neib_feats ->
  exists out,
    PoolAggregator.forward agg node_feats neib_feats node_ids neib_ids = Ok out /\
    nn.has_shape b (Z.of_nat (nn.out_features (PoolAggregator.fc_node agg))
                    + Z.of_nat (nn.out_features (PoolAggregator.fc_neib agg))) out.
Proof.
  intros Hin0 Hin1 Hin2 Hh Hcomb Hact Hpool Hb Hk Hnode Hneib.
  unfold PoolAggregator.forward, PoolAggregator.mlp. rewrite Hcomb, Hact.
  rewrite <- Hin0 in Hneib.
  destruct (Linear_forward_shape _ Hneib) as (h & -> & Hhs). cbn [bind].
  apply ReLU_shape in Hhs.
  destruct Hnode as [Hlen Hw]. rewrite Hlen.
  assert (Hpos : (0 < Z.of_nat (nn.out_features (PoolAggregator.mlp_0 agg)))%Z)
    by lia.
  rewrite (@view3_ok R b k _ (nn.ReLU h) Hb Hk Hpos Hhs). cbn [bind].
  destruct (Hpool {| nn.size2 := Py.size1 (nn.ReLU h);
                     nn.blocks := nn.chunk b k (nn.ReLU h) |})
    as (pooled & -> & Hp).
  { cbn [nn.blocks]. destruct Hhs as [Hl _].
    eapply Forall_impl; [|apply (chunk_block_lengths b k _ Hl)].
    intros c Hc. simpl in Hc. destruct c; [simpl in Hc; lia|discriminate]. }
  cbn [bind]. cbn [nn.blocks nn.size2] in Hp. rewrite chunk_length in Hp.
  rewrite (@size1_has_shape R (b * k)
             (Z.of_nat (nn.out_features (PoolAggregator.mlp_0 agg))) (nn.ReLU h))
    in Hp; [|nia|exact Hhs].
  assert (Hnode : nn.has_shape b (Z.of_nat (nn.in_features (PoolAggregator.fc_node agg)))
                    node_feats) by (rewrite Hin1; split; assumption).
  destruct (Linear_forward_shape _ Hnode) as (a & -> & Ha). cbn [bind].
  rewrite <- Hin2 in Hp.
  destruct (Linear_forward_shape _ Hp) as (c & -> & Hc). cbn [bind].
  destruct (cat1_pair_shape Ha Hc) as (out & -> & Ho). cbn [bind].
  exists out. now split.
Qed.

End PoolShapes.

(** X15.  [MaxPoolAggregator] and [MeanPoolAggregator] built with the
    default [combine_fn] and no activation return, on a batch of [b] nodes
    with [k >= 1] neighbor rows each, all of width [input_dim], [b] rows of
    width [2 * output_dim], for every positive [hidden_dim]. *)
Theorem pool_aggregators_output_width {R : Type} {SR : Scalar R}
  (input_dim output_dim hidden_dim : Z) (n_nodes : option Z)
  (theta : state_dict R) (amax amean : @PoolAggregator.t R)
  (b k : nat) (node_feats neib_feats : @nn.Tensor R) (node_ids neib_ids : list Z) :
  MaxPoolAggregator.__init__ input_dim output_dim None (Some hidden_dim) n_nodes
    None theta = Ok amax ->
  MeanPoolAggregator.__init__ input_dim output_dim None (Some hidden_dim) n_nodes
    None theta = Ok amean ->
  (0 < hidden_dim)%Z ->
  0 < b -> 0 < k ->
  nn.has_shape b input_dim node_feats ->
  nn.has_shape (b * k) input_dim neib_feats ->
  (exists out,
     MaxPoolAggregator.forward amax node_feats neib_feats node_ids neib_ids = Ok out /\
     nn.has_shape b (2 * output_dim) out) /\
  (exists out,
     MeanPoolAggregator.forward amean node_feats neib_feats node_ids neib_ids = Ok out /\
     nn.has_shape b (2 * output_dim) out).
Proof.
  intros Hmax Hmean Hh Hb Hk Hnode Hneib.
  unfold MaxPoolAggregator.__init__, PoolAggregator.__init__ in Hmax.
  bind_inv Hmax l0. bind_inv Hmax l1. bind_inv Hmax l2. injection Hmax as <-.
  unfold MeanPoolAggregator.__init__, PoolAggregator.__init__ in Hmean.
  rewrite E, E0, E1 in Hmean. cbn [bind] in Hmean. injection Hmean as <-.
  apply new_Linear_inv in E. destruct E as [Hin0 Hout0].
  apply new_Linear_inv in E0. destruct E0 as [Hin1 Hout1].
  apply new_Linear_inv in E1. destruct E1 as [Hin2 Hout2].
  cbn [default] in *.
  assert (Hmaxp : forall x : @nn.Tensor3 R,
            Forall (fun c => c <> []) (nn.blocks x) ->
            exists out, nn.max_dim1 x = Ok out /\
              nn.has_shape (length (nn.blocks x)) (Z.of_nat (nn.size2 x)) out)
    by (intros x Hx; now apply max_dim1_shape).
  assert (Hmeanp : forall x : @nn.Tensor3 R,
            Forall (fun c => c <> []) (nn.blocks x) ->
            exists out, Ok (nn.mean_dim1 x) = Ok out /\
              nn.has_shape (length (nn.blocks x)) (Z.of_nat (nn.size2 x)) out)
    by (intros x _; eexists; split; [reflexivity|apply mean_dim1_shape]).
  assert (Hmid : nn.in_features l2 = nn.out_features l0) by lia.
  assert (Hpos : 0 < nn.out_features l0) by lia.
  split.
  - unfold MaxPoolAggregator.forward.
    match goal with
    | |- exists out, PoolAggregator.forward ?a _ _ _ _ = _ /\ _ =>
        destruct (@pool_forward_shape R SR a input_dim b k node_feats neib_feats
                    node_ids neib_ids Hin0 Hin1 Hmid Hpos eq_refl eq_refl
                    Hmaxp Hb Hk Hnode Hneib) as (out & Ho & Hs)
    end.
    exists out. split; [exact Ho|].
    cbn [PoolAggregator.fc_node PoolAggregator.fc_neib] in Hs.
    now replace (2 * output_dim)%Z
      with (Z.of_nat (nn.out_features l1) + Z.of_nat (nn.out_features l2))%Z by lia.
  - unfold MeanPoolAggregator.forward.
    match goal with
    | |- exists out, PoolAggregator.forward ?a _ _ _ _ = _ /\ _ =>
        destruct (@pool_forward_shape R SR a input_dim b k node_feats neib_feats
                    node_ids neib_ids Hin0 Hin1 Hmid Hpos eq_refl eq_refl
                    Hmeanp Hb Hk Hnode Hneib) as (out & Ho & Hs)
    end.
    exists out. split; [exact Ho|].
    cbn [PoolAggregator.fc_node PoolAggregator.fc_neib] in Hs.
    now replace (2 * output_dim)%Z
      with (Z.of_nat (nn.out_features l1) + Z.of_nat (nn.out_features l2))%Z by lia.
Qed.

Lemma pool_aggregators_output_width_witness :
  exists amax amean,
    MaxPoolAggregator.__init__ (R := Z) 2 1 None (Some 2%Z) None None
      (fun _ i j => Z.of_nat (i + j + 1)) = Ok amax /\
    MeanPoolAggregator.__init__ (R := Z) 2 1 None (Some 2%Z) None None
      (fun _ i j => Z.of_nat (i + j + 1)) = Ok amean /\
    (exists out,
       MaxPoolAggregator.forward amax [[1; 2]]%Z [[1; 1]; [3; 3]]%Z [0]%Z [5; 7]%Z
       = Ok out /\ nn.has_shape 1 (2 * 1) out) /\
    (exists out,
       MeanPoolAggregator.forward amean [[1; 2]]%Z [[1; 1]; [3; 3]]%Z [0]%Z [5; 7]%Z
       = Ok out /\ nn.has_shape 1 (2 * 1) out).
Proof.
  eexists. eexists. split; [reflexivity|]. split; [reflexivity|].
  apply (@pool_aggregators_output_width Z Scalar_Z 2 1 2 None
           (fun _ i j => Z.of_nat (i + j + 1)) _ _ 1 2 [[1; 2]]%Z
           [[1; 1]; [3; 3]]%Z [0]%Z [5; 7]%Z eq_refl eq_refl).
  - lia.
  - lia.
  - lia.
  - split; [reflexivity|repeat constructor].
  - split; [reflexivity|repeat constructor].
Defined.

(** X16.  The aggregators infer the number of neighbors per node from the
    two row counts.  When the batch is empty or the number of neighbor
    rows is not a multiple of the number of nodes, [forward] of
    [MeanAggregator], [SimpleMeanAggregator] and every [PoolAggregator]
    raises [RuntimeError]; no neighbor row is dropped or padded. *)
Theorem aggregators_reject_indivisible_neighbors {R : Type} {SR : Scalar R}
  (node_feats neib_feats : @nn.Tensor R) (node_ids neib_ids : list Z) :
  length node_feats = 0 \/ length neib_feats mod length node_feats <> 0 ->
  (forall agg : @MeanAggregator.t R,
     MeanAggregator.forward agg node_feats neib_feats node_ids neib_ids
     = Raise RuntimeError) /\
  (forall agg : @SimpleMeanAggregator.t R,
     SimpleMeanAggregator.forward agg node_feats neib_feats node_ids neib_ids
     = Raise RuntimeError) /\
  (forall agg : @PoolAggregator.t R,
     PoolAggregator.forward agg node_feats neib_feats node_ids neib_ids
     = Raise RuntimeError).
Proof.
  intros H. split; [|split]; intros agg.
  - unfold MeanAggregator.forward. now rewrite view3_indivisible.
  - unfold SimpleMeanAggregator.forward. now rewrite view3_indivisible.
  - unfold PoolAggregator.forward, PoolAggregator.mlp, nn.Linear_forward.
    destruct (forallb _ neib_feats); [|reflexivity]. cbn [bind].
    rewrite view3_indivisible; [reflexivity|].
    unfold nn.ReLU. now rewrite !length_map.
Qed.

Lemma aggregators_reject_indivisible_neighbors_witness :
  (forall agg : @MeanAggregator.t Z,
     MeanAggregator.forward agg [[1; 2]; [3; 4]]%Z [[1; 1]; [3; 3]; [5; 5]]%Z
       [0; 1]%Z [5; 7; 9]%Z = Raise RuntimeError) /\
  (forall agg : @SimpleMeanAggregator.t Z,
     SimpleMeanAggregator.forward agg [[1; 2]; [3; 4]]%Z [[1; 1]; [3; 3]; [5; 5]]%Z
       [0; 1]%Z [5; 7; 9]%Z = Raise RuntimeError) /\
  (forall agg : @PoolAggregator.t Z,
     PoolAggregator.forward agg [[1; 2]; [3; 4]]%Z [[1; 1]; [3; 3]; [5; 5]]%Z
       [0; 1]%Z [5; 7; 9]%Z = Raise RuntimeError).
Proof.
  apply (@aggregators_reject_indivisible_neighbors Z Scalar_Z).
  right. simpl. lia.
Defined.

(** ** [SimpleMeanAggregator] *)

Section SimpleMeanInvariance.

Context {R : Type} {SR : Scalar R} {SL : @ScalarLaws R SR}.

Variable node_feats : @nn.Tensor R.
Variables bs bs' : list (list (list R)).
Variables k d : nat.
Variables node_ids neib_ids : list Z.

Hypothesis blocks_perm : Forall2 (@Permutation (list R)) bs bs'.
Hypothesis batch : length node_feats = length bs.
Hypothesis nonempty : bs <> [].
Hypothesis k_pos : 0 < k.
Hypothesis blocks_k : Forall (fun b => length b = k) bs.
Hypothesis blocks_d : Forall (Forall (fun r => length r = d)) bs.

Lemma simple_mean_forward_perm (agg : @SimpleMeanAggregator.t R) :
  SimpleMeanAggregator.forward agg node_feats (concat bs) node_ids neib_ids
  = SimpleMeanAggregator.forward agg node_feats (concat bs') node_ids neib_ids.
Proof.
  unfold SimpleMeanAggregator.forward.
  destruct (@view3_perm R node_feats bs bs' k d blocks_perm batch nonempty
              k_pos blocks_k blocks_d) as (d0 & -> & ->).
  destruct (d =? 0); [reflexivity|]. cbn [bind].
  now rewrite (mean_dim1_perm d0 blocks_perm).
Qed.

End SimpleMeanInvariance.

(** X17.  A [SimpleMeanAggregator] returns [b] rows of width [output_dim]
    (no concatenation with the node's own transform) on a batch of [b]
    nodes with [k >= 1] neighbor rows each of width [input_dim > 0].  The
    result uses the node features only through their number of rows, and
    the [activation] and [combine_fn] given to the constructor not at
    all. *)
Theorem simple_mean_aggregator_ignores_node_features {R : Type} {SR : Scalar R}
  (input_dim output_dim : Z)
  (activation : option (@nn.Tensor R -> @nn.Tensor R)) (n_nodes : option Z)
  (combine_fn : option (list (@nn.Tensor R) -> result (@nn.Tensor R)))
  (theta : state_dict R) (agg : @SimpleMeanAggregator.t R)
  (b k : nat) (node_feats neib_feats : @nn.Tensor R) (node_ids neib_ids : list Z) :
  SimpleMeanAggregator.__init__ input_dim output_dim activation n_nodes
    combine_fn theta = Ok agg ->
  0 < b -> 0 < k -> (0 < input_dim)%Z ->
  length node_feats = b ->
  nn.has_shape (b * k) input_dim neib_feats ->
  exists out,
    SimpleMeanAggregator.forward agg node_feats neib_feats node_ids neib_ids
    = Ok out /\
    nn.has_shape b output_dim out /\
    (forall activation' n_nodes' combine_fn' agg' node_feats' node_ids' neib_ids',
       SimpleMeanAggregator.__init__ input_dim output_dim activation' n_nodes'
         combine_fn' theta = Ok agg' ->
       length node_feats' = b ->
       SimpleMeanAggregator.forward agg' node_feats' neib_feats node_ids' neib_ids'
       = Ok out).
Proof.
  intros H Hb Hk Hd Hlen Hneib. unfold SimpleMeanAggregator.__init__ in H.
  bind_inv H l. injection H as <-.
  pose proof E as Hl. apply new_Linear_inv in Hl. destruct Hl as [Hin Hout].
  unfold SimpleMeanAggregator.forward at 1. cbn [SimpleMeanAggregator.fc_neib].
  rewrite Hlen.
  destruct (view3_mean_shape Hb Hk Hd Hneib) as (x & Hx & Hs).
  rewrite Hx. cbn [bind].
  rewrite <- Hin in Hs.
  destruct (Linear_forward_shape _ Hs) as (out & Ho & Hos).
  exists out. split; [exact Ho|]. split; [now rewrite <- Hout|].
  intros activation' n_nodes' combine_fn' agg' node_feats' node_ids' neib_ids'
         H' Hlen'.
  unfold SimpleMeanAggregator.__init__ in H'. rewrite E in H'. cbn [bind] in H'.
  injection H' as <-.
  unfold SimpleMeanAggregator.forward. cbn [SimpleMeanAggregator.fc_neib].
  rewrite Hlen', Hx. cbn [bind]. exact Ho.
Qed.

Lemma simple_mean_aggregator_ignores_node_features_witness :
  exists agg out,
    SimpleMeanAggregator.__init__ (R := Z) 2 1 None None None
      (fun _ i j => Z.of_nat (i + j + 1)) = Ok agg /\
    SimpleMeanAggregator.forward agg [[1; 2]]%Z [[1; 1]; [3; 3]]%Z [0]%Z [5; 7]%Z
    = Ok out /\
    nn.has_shape 1 1 out /\
    (forall activation' n_nodes' combine_fn' agg' node_feats' node_ids' neib_ids',
       SimpleMeanAggregator.__init__ 2 1 activation' n_nodes' combine_fn'
         (fun _ i j => Z.of_nat (i + j + 1)) = Ok agg' ->
       length node_feats' = 1 ->
       SimpleMeanAggregator.forward agg' node_feats' [[1; 1]; [3; 3]]%Z
         node_ids' neib_ids' = Ok out).
Proof.
  eexists.
  destruct (@simple_mean_aggregator_ignores_node_features Z Scalar_Z 2 1 None
              None None (fun _ i j => Z.of_nat (i + j + 1)) _ 1 2 [[1; 2]]%Z
              [[1; 1]; [3; 3]]%Z [0]%Z [5; 7]%Z eq_refl)
    as (out & Ho & Hs & Hall).
  - lia.
  - lia.
  - lia.
  - reflexivity.
  - split; [reflexivity|repeat constructor].
  - exists out. split; [reflexivity|]. split; [exact Ho|]. split; [exact Hs|].
    exact Hall.
Defined.



(** ** Constructors of [LSTMAggregator] and [PSimpleMeanAggregator] *)

(** X19.  Whenever the constructor of [LSTMAggregator] returns, with
    [hidden_dim] given or left at 512 and either value of [bidirectional],
    the LSTM's hidden size times its number of directions is the input
    width of [fc_neib], and both linear layers have [output_dim] outputs:
    the parity assertion makes the halving for two directions exact. *)
Theorem lstm_init_widths_agree {R : Type} {SR : Scalar R}
  (input_dim output_dim : Z)
  (activation : option (@nn.Tensor R -> @nn.Tensor R))
  (hidden_dim : option Z) (bidirectional : option bool) (n_nodes : option Z)
  (combine_fn : option (list (@nn.Tensor R) -> result (@nn.Tensor R)))
  (theta : state_dict R) (agg : @LSTMAggregator.t R) :
  LSTMAggregator.__init__ input_dim output_dim activation hidden_dim
    bidirectional n_nodes combine_fn theta = Ok agg ->
  (nn.hidden_size (LSTMAggregator.lstm agg)
   * (1 + Z.b2z (nn.bidirectional (LSTMAggregator.lstm agg))))%Z
  = Z.of_nat (nn.in_features (LSTMAggregator.fc_neib agg)) /\
  Z.of_nat (nn.in_features (LSTMAggregator.fc_neib agg)) = default 512%Z hidden_dim /\
  nn.input_size (LSTMAggregator.lstm agg)
  = Z.of_nat (nn.in_features (LSTMAggregator.fc_node agg)) /\
  Z.of_nat (nn.out_features (LSTMAggregator.fc_node agg)) = output_dim /\
  Z.of_nat (nn.out_features (LSTMAggregator.fc_neib agg)) = output_dim.
Proof.
  intros H. unfold LSTMAggregator.__init__, LSTMAggregator.py_not in H.
  cbn zeta in H.
  set (h := default 512%Z hidden_dim) in *.
  set (bd := default false bidirectional) in *.
  destruct (Z.eqb_spec (h mod 2) 0) as [Hmod|]; [|discriminate].
  cbn [negb] in H.
  bind_inv H l. bind_inv H l1. bind_inv H l2. injection H as <-.
  unfold nn.new_LSTM in E.
  destruct ((input_dim <=? 0) || (h / (1 + Z.b2z bd) <=? 0))%Z; [discriminate|].
  injection E as <-.
  apply new_Linear_inv in E0. destruct E0 as [Hin1 Hout1].
  apply new_Linear_inv in E1. destruct E1 as [Hin2 Hout2].
  cbn [LSTMAggregator.lstm LSTMAggregator.fc_node LSTMAggregator.fc_neib
       nn.hidden_size nn.bidirectional nn.input_size].
  repeat split; try assumption; try (symmetry; assumption).
  rewrite Hin2. destruct bd; cbn [Z.b2z].
  - change (1 + 1)%Z with 2%Z.
    rewrite (Z.div_mod h 2) at 2 by lia. lia.
  - change (1 + 0)%Z with 1%Z. rewrite Z.div_1_r. lia.
Qed.

Lemma lstm_init_widths_agree_witness :
  exists agg,
    LSTMAggregator.__init__ (R := Z) 3 2 None None (Some true) None None
      (fun _ _ _ => 0%Z) = Ok agg /\
    (nn.hidden_size (LSTMAggregator.lstm agg)
     * (1 + Z.b2z (nn.bidirectional (LSTMAggregator.lstm agg))))%Z
    = Z.of_nat (nn.in_features (LSTMAggregator.fc_neib agg)) /\
    Z.of_nat (nn.in_features (LSTMAggregator.fc_neib agg)) = default 512%Z None /\
    nn.input_size (LSTMAggregator.lstm agg)
    = Z.of_nat (nn.in_features (LSTMAggregator.fc_node agg)) /\
    Z.of_nat (nn.out_features (LSTMAggregator.fc_node agg)) = 2%Z /\
    Z.of_nat (nn.out_features (LSTMAggregator.fc_neib agg)) = 2%Z.
Proof.
  eexists. split; [reflexivity|].
  apply (@lstm_init_widths_agree Z Scalar_Z 3 2 None None (Some true) None None
           (fun _ _ _ => 0%Z) _ eq_refl).
Defined.

(** X20.  The constructor of [PSimpleMeanAggregator] fails in a way that
    depends on [n_nodes] alone: left at its default [None] it raises
    [TypeError] at [n_nodes + 1]; below [-1] the embedding table cannot be
    allocated; from [-1] on it reaches the unbound name [output_dim_].  In
    no case does it return an instance. *)
Theorem psimple_mean_init_error_by_n_nodes {R : Type} {SR : Scalar R}
  (input_dim output_dim : Z)
  (activation : option (@nn.Tensor R -> @nn.Tensor R))
  (combine_fn : option (list (@nn.Tensor R) -> result (@nn.Tensor R)))
  (theta : state_dict R) :
  PSimpleMeanAggregator.__init__ input_dim output_dim activation None
    combine_fn theta = Raise TypeError /\
  (forall n : Z,
     PSimpleMeanAggregator.__init__ input_dim output_dim activation (Some n)
       combine_fn theta
     = if (n <? -1)%Z then Raise RuntimeError
       else Raise (NameError "output_dim_")).
Proof.
  split; [reflexivity|]. intros n.
  unfold PSimpleMeanAggregator.__init__.
  change (Names.load (PSimpleMeanAggregator.init_locals input_dim output_dim (Some n))
            "output_dim"%string) with (Ok (Names.PInt output_dim)).
  change (Names.load (PSimpleMeanAggregator.init_locals input_dim output_dim (Some n))
            "n_nodes"%string) with (Ok (Names.PInt n)).
  change (Names.load (PSimpleMeanAggregator.init_locals input_dim output_dim (Some n))
            "input_dim"%string) with (Ok (Names.PInt input_dim)).
  rewrite load_output_dim_. cbn [bind Names.as_int].
  unfold nn.new_Embedding.
  destruct (Z.ltb_spec n (-1)), (Z.ltb_spec (n + 1) 0); try lia;
    cbn [orb Z.ltb bind]; reflexivity.
Qed.
